(** * Machine-identification publisher: a shallow embedding and its properties

    The development follows the two scripts of the repository:

    - [generate_sample_payloads.py]: fabrication of one machine record
      (module [GenerateSamplePayloads] for the date arithmetic, module
      [SamplePayloads] for the record and the command line);
    - [publish_machineid.py]: configuration loading, the MQTT publisher class
      and the orchestration in [main] (module [MQTTPublisher] and section
      [PublishMachineId], over the Python operations of [Py] and the
      computations of [Run]; [Stub] is a scripted publisher).

    Python values read from JSON are dynamically typed, so the embedding keeps
    them as a [json] tree and writes out what each Python operation does on
    each shape of value, including the exception it raises. *)

From stdpp Require Import gmap strings list pretty.
From Stdlib Require Import ZArith Ascii String Lia.

#[local] Set Warnings "-register-all".
#[local] Open Scope string_scope.
#[local] Open Scope list_scope.
#[local] Open Scope Z_scope.

(** ** Python values and exceptions *)

(** What [json.load] / [json.loads] return.  Number literals with a fraction
    or an exponent (Python floats) are outside the model. *)
Inductive json : Type :=
| JNull
| JBool (b : bool)
| JNum (n : Z)
| JStr (s : string)
| JArr (items : list json)
| JObj (fields : gmap string json).

(** The reasons [load_config] gives when it raises [ValueError]. *)
Inductive config_error : Type :=
| NoBrokerSection                   (* "Config file must contain 'mqtt_broker' section" *)
| NoMachinesArray                   (* "Config file must contain a 'machines' array" *)
| MachinesNotArray                  (* "'machines' must be an array" *)
| BrokerMissingField (field : string) (* "MQTT broker config missing required field: {field}" *)
| MachineNotObject (i : nat)        (* "Machine entry {i} must be an object" *)
| MachineMissingType (i : nat)      (* "Machine entry {i} missing required 'type' field" *)
| MachineMissingTopic (i : nat).    (* "Machine entry {i} missing required 'topic' field" *)

Inductive exn : Type :=
| SystemExit (code : Z)             (* sys.exit(code) *)
| ConfigValueError (e : config_error) (* raise ValueError(...) in load_config *)
| ValueError                        (* any other ValueError *)
| TypeError
| KeyError (key : string)
| AttributeError
| OtherException.                   (* some other subclass of Exception *)

Inductive result (A : Type) : Type :=
| Ret (a : A)
| Raise (e : exn).
Arguments Ret {A} a.
Arguments Raise {A} e.

Definition rbind {A B} (r : result A) (k : A -> result B) : result B :=
  match r with
  | Ret a => k a
  | Raise e => Raise e
  end.

Notation "x <~ r ;; k" := (rbind r (fun x => k))
  (at level 100, r at next level, right associativity, only parsing).

(** ** generate_sample_payloads.py: the dates of a record *)

Module GenerateSamplePayloads.

(** A [datetime] is its number of microseconds on the time line and a
    [timedelta] a difference of two of them; the calendar bounds of
    [datetime] (years 1 to 9999) are not modelled. *)
Definition datetime := Z.
Definition timedelta := Z.

Definition day : timedelta := 86400 * 1000000.

(** [timedelta(days=n)] *)
Definition timedelta_days (n : Z) : timedelta := n * day.

(** [delta.days]: a timedelta is normalised with 0 <= seconds < 86400 and
    0 <= microseconds, so its day field is the floor of the quotient. *)
Definition days (delta : timedelta) : Z := delta / day.

(** [random.randint(a, b)]: [ValueError] on an empty range, otherwise a
    value of [a..b] picked by the raw random draw [rnd]. *)
Definition randint (a b : Z) (rnd : Z) : result Z :=
  if b <? a then Raise ValueError else Ret (a + rnd mod (b - a + 1)).

(** [now] is what [datetime.now()] returns inside the call. *)
Definition generate_construction_date (now : datetime) (rnd : Z) : result datetime :=
  let end_date := now in
  let start_date := end_date - timedelta_days (20 * 365) in
  random_days <~ randint 0 (days (end_date - start_date)) rnd ;;
  let construction_date := start_date + timedelta_days random_days in
  Ret construction_date.

Definition generate_operation_date (now : datetime) (rnd : Z)
    (construction_date : datetime) : result datetime :=
  let end_date := now in
  let earliest_operation := Z.max construction_date (end_date - timedelta_days (10 * 365)) in
  let earliest_operation :=
    if earliest_operation >=? end_date then construction_date else earliest_operation in
  random_days <~ randint 0 (days (end_date - earliest_operation)) rnd ;;
  let operation_date := earliest_operation + timedelta_days random_days in
  Ret operation_date.

(** The three date lines of [generate_machine_payload] (the record prints
    [operation_date] as InitialOperationDate and [software_date] as
    SoftwareReleaseDate).  Each call reads the clock anew: [now0], [now1],
    [now2] are the three readings, [r0], [r1], [r2] the three draws. *)
Definition generate_dates (now0 now1 now2 : datetime) (r0 r1 r2 : Z)
    : result (datetime * datetime * datetime) :=
  construction_date <~ generate_construction_date now0 r0 ;;
  operation_date <~ generate_operation_date now1 r1 construction_date ;;
  software_date <~ generate_operation_date now2 r2 construction_date ;;
  Ret (construction_date, operation_date, software_date).

End GenerateSamplePayloads.

(** ** Python operations on JSON values *)

Module Py.

(** [needle in hay] on two strings. *)
Fixpoint contains (needle hay : string) : bool :=
  String.prefix needle hay
  || match hay with
     | EmptyString => false
     | String _ rest => contains needle rest
     end.

(** [v == k] for a string [k]. *)
Definition is_str (k : string) (v : json) : bool :=
  match v with
  | JStr s => String.eqb s k
  | _ => false
  end.

(** [k in v] for a string [k]: key membership on a dict, element
    membership on a list, substring test on a string, [TypeError] on
    anything else ("argument of type ... is not iterable"). *)
Definition has (k : string) (v : json) : result bool :=
  match v with
  | JObj fields => Ret (bool_decide (is_Some (fields !! k)))
  | JArr items => Ret (existsb (is_str k) items)
  | JStr s => Ret (contains k s)
  | _ => Raise TypeError
  end.

(** [v[k]] for a string [k]: [KeyError] on a dict without the key,
    [TypeError] on every other value (lists and strings want integer
    indices, the rest is not subscriptable). *)
Definition getitem (v : json) (k : string) : result json :=
  match v with
  | JObj fields =>
      match fields !! k with
      | Some x => Ret x
      | None => Raise (KeyError k)
      end
  | _ => Raise TypeError
  end.

(** [v.get(k, dflt)]: only dicts have the method. *)
Definition get (v : json) (k : string) (dflt : json) : result json :=
  match v with
  | JObj fields => Ret (default dflt (fields !! k))
  | _ => Raise AttributeError
  end.

Definition str_endswith (s suffix : string) : bool :=
  let n := String.length s in
  let k := String.length suffix in
  (k <=? n)%nat && String.eqb (substring (n - k) k s) suffix.

(** [v.endswith(suffix)]: only strings have the method. *)
Definition endswith (v : json) (suffix : string) : result bool :=
  match v with
  | JStr s => Ret (str_endswith s suffix)
  | _ => Raise AttributeError
  end.

Definition isinstance_list (v : json) : bool :=
  match v with JArr _ => true | _ => false end.

Definition isinstance_dict (v : json) : bool :=
  match v with JObj _ => true | _ => false end.

(** Truth value of a Python object. *)
Definition truthy (v : json) : bool :=
  match v with
  | JNull => false
  | JBool b => b
  | JNum n => negb (n =? 0)
  | JStr s => negb (String.eqb s "")
  | JArr items => match items with [] => false | _ => true end
  | JObj fields => negb (bool_decide (fields = ∅))
  end.

(** The integer a value stands for where Python wants an int
    ([bool] is a subclass of [int]); [TypeError] otherwise. *)
Definition index (v : json) : result Z :=
  match v with
  | JNum n => Ret n
  | JBool b => Ret (if b then 1 else 0)
  | _ => Raise TypeError
  end.

(** [list(range(n))] *)
Definition range (n : Z) : list Z := map Z.of_nat (seq 0 (Z.to_nat n)).

(** [len(v)] and iteration, for the one shape [main] applies them to (the
    loader has checked that [config['machines']] is a list). *)
Definition list_items (v : json) : result (list json) :=
  match v with
  | JArr items => Ret items
  | _ => Raise TypeError
  end.

End Py.

(** ** Traces, and the state-and-exception monad the code runs in *)

Inductive stream : Type := Stdout | Stderr.

(** One constructor per [print] of [publish_machineid.py]; the arguments are
    the values the f-string interpolates. *)
Inductive message : Type :=
(* load_config *)
| MsgConfigNotFound (path : string)
| MsgConfigBadJson
| MsgConfigInvalid (e : config_error)
(* generate_machine_payload *)
| MsgGeneratorError (machine_type : json)
| MsgGeneratorBadJson (machine_type : json)
(* MQTTPublisher *)
| MsgConnected
| MsgConnectRefused (rc : Z)
| MsgMessagePublished (mid : Z)
| MsgDisconnected
| MsgConnectError (e : exn)
| MsgNotConnected
| MsgPublishRc (topic : json) (rc : Z)
| MsgPublishTimeout (topic : json)
| MsgPublishError (topic : json) (e : exn)
(* main *)
| MsgLoading (path : string)
| MsgConnecting
| MsgConnectFailed
| MsgProcessing (i total : Z) (machine_type : json)
| MsgGenerateFailed (machine_type : json)
| MsgWouldPublish (machine_type asset_id topic : json) (wrapper_removed : bool)
| MsgRetry (attempt : Z) (retry_attempts : json)
| MsgPublishedVerbose (machine_type asset_id topic : json) (wrapper_removed : bool)
| MsgPublished (machine_type topic : json)
| MsgPublishGaveUp (machine_type retry_attempts : json)
| MsgSummaryHeader
| MsgSummaryTotal (total : Z)
| MsgSummarySuccessful (dry_run : bool) (n : Z)
| MsgSummaryFailed (dry_run : bool) (n : Z)
| MsgNoneSucceeded (dry_run : bool)
| MsgPartial (n total : Z) (dry_run : bool)
| MsgAllSucceeded (dry_run : bool).

(** What the paho client is asked to do. *)
Inductive net_action : Type :=
| NetUsernamePwSet (username password : json)
| NetConnect (host port keepalive : json)
| NetLoopStart
| NetPublish (topic payload qos retain : json)
| NetLoopStop
| NetDisconnect.

(** Events inside a broker session. *)
Inductive sevent : Type :=
| SPrint (s : stream) (m : message)
| SNet (a : net_action)
| SSleepTenth.                       (* time.sleep(0.1) *)

(** Events of a run of [main]. *)
Inductive event : Type :=
| EvPrint (s : stream) (m : message)
| EvGenerate (machine_type : json)   (* subprocess.run(['python3', 'generate_sample_payloads.py', machine_type]) *)
| EvConnect (r : result bool)        (* publisher.connect() and what it returned *)
| EvPublish (topic payload timeout : json) (r : result bool)
                                     (* publisher.publish(...) and what it returned *)
| EvSleep (seconds : Z)              (* time.sleep(retry_delay) *)
| EvDisconnect                       (* publisher.disconnect() *)
| EvSession (e : sevent).            (* what happened inside the call just made *)

Module Run.

(** A computation reads and updates a state, appends events and either
    returns or raises. *)
Definition M (St Ev A : Type) : Type := St -> result A * St * list Ev.

Section Ops.
Context {St Ev : Type}.

Definition ret {A} (a : A) : M St Ev A := fun s => (Ret a, s, []).

Definition raise {A} (e : exn) : M St Ev A := fun s => (Raise e, s, []).

Definition bind {A B} (m : M St Ev A) (k : A -> M St Ev B) : M St Ev B :=
  fun s =>
    match m s with
    | (Ret a, s1, t1) => let '(r, s2, t2) := k a s1 in (r, s2, t1 ++ t2)
    | (Raise e, s1, t1) => (Raise e, s1, t1)
    end.

Definition lift {A} (r : result A) : M St Ev A := fun s => (r, s, []).

Definition emit (e : Ev) : M St Ev unit := fun s => (Ret tt, s, [e]).

Definition gets {A} (f : St -> A) : M St Ev A := fun s => (Ret (f s), s, []).

Definition modify (f : St -> St) : M St Ev unit := fun s => (Ret tt, f s, []).

Definition when (b : bool) (m : M St Ev unit) : M St Ev unit :=
  if b then m else ret tt.

(** [try: body finally: cleanup] *)
Definition try_finally {A} (body : M St Ev A) (cleanup : M St Ev unit) : M St Ev A :=
  fun s =>
    let '(r, s1, t1) := body s in
    let '(rc, s2, t2) := cleanup s1 in
    (match rc with Ret _ => r | Raise e => Raise e end, s2, t1 ++ t2).

(** [SystemExit] is not a subclass of [Exception]. *)
Definition is_Exception (e : exn) : bool :=
  match e with SystemExit _ => false | _ => true end.

(** [try: body except Exception as e: handler(e)] *)
Definition except_Exception {A} (body : M St Ev A) (handler : exn -> M St Ev A)
    : M St Ev A :=
  fun s =>
    match body s with
    | (Raise e, s1, t1) =>
        if is_Exception e
        then let '(r, s2, t2) := handler e s1 in (r, s2, t1 ++ t2)
        else (Raise e, s1, t1)
    | done => done
    end.
End Ops.

(** The three components of a finished computation. *)
Definition result_of {St Ev A} (out : result A * St * list Ev) : result A := fst (fst out).
Definition state_of {St Ev A} (out : result A * St * list Ev) : St := snd (fst out).
Definition trace_of {St Ev A} (out : result A * St * list Ev) : list Ev := snd out.

End Run.

Import Run.

Notation "x <- m ;; k" := (bind m (fun x => k))
  (at level 100, m at next level, right associativity, only parsing).
Notation "m ;;; k" := (bind m (fun _ => k))
  (at level 100, right associativity, only parsing).

(** The interface [main] uses of its publisher object. *)
Class BrokerSession (Sess : Type) : Type := {
  session_connect : M Sess sevent bool;
  session_publish : json -> json -> json -> M Sess sevent bool;
  session_disconnect : M Sess sevent unit
}.

(** ** class MQTTPublisher *)

Module MQTTPublisher.

(** The paho client runs its callbacks on a background thread started by
    [loop_start].  The embedding lets that thread run at the blocking calls
    of the main thread only (each [time.sleep(0.1)] and each
    [client.publish]); what it delivers there, and what the client's own
    calls answer, is the [network]. *)
Inductive callback : Type :=
| OnConnect (rc : Z)
| OnPublish (mid : Z)
| OnDisconnect (rc : Z).

Inductive publish_reply : Type :=
| PublishRaises                    (* client.publish raised *)
| MessageInfo (rc mid : Z).        (* result.rc, result.mid *)

Record network : Type := {
  connect_raises : bool;                    (* client.connect(host, port, keepalive) raises *)
  publish_reply_of : nat -> publish_reply;  (* the k-th client.publish *)
  delivered : nat -> list callback          (* callbacks run during the k-th blocking call *)
}.

Record t : Type := {
  net : network;
  broker_config : json;
  verbose : bool;
  client : bool;                   (* self.client is not None *)
  connected : bool;
  publish_results : gmap Z bool;
  blocking_calls : nat;            (* blocking calls made so far *)
  publish_calls : nat              (* client.publish calls made so far *)
}.

Definition set_client (b : bool) (p : t) : t :=
  {| net := net p; broker_config := broker_config p; verbose := verbose p;
     client := b; connected := connected p; publish_results := publish_results p;
     blocking_calls := blocking_calls p; publish_calls := publish_calls p |}.

Definition set_connected (b : bool) (p : t) : t :=
  {| net := net p; broker_config := broker_config p; verbose := verbose p;
     client := client p; connected := b; publish_results := publish_results p;
     blocking_calls := blocking_calls p; publish_calls := publish_calls p |}.

Definition set_publish_result (mid : Z) (b : bool) (p : t) : t :=
  {| net := net p; broker_config := broker_config p; verbose := verbose p;
     client := client p; connected := connected p;
     publish_results := <[mid := b]> (publish_results p);
     blocking_calls := blocking_calls p; publish_calls := publish_calls p |}.

Definition count_blocking_call (p : t) : t :=
  {| net := net p; broker_config := broker_config p; verbose := verbose p;
     client := client p; connected := connected p; publish_results := publish_results p;
     blocking_calls := S (blocking_calls p); publish_calls := publish_calls p |}.

Definition count_publish_call (p : t) : t :=
  {| net := net p; broker_config := broker_config p; verbose := verbose p;
     client := client p; connected := connected p; publish_results := publish_results p;
     blocking_calls := blocking_calls p; publish_calls := S (publish_calls p) |}.

(** [__init__] *)
Definition init (n : network) (broker_config : json) (verbose : bool) : t :=
  {| net := n; broker_config := broker_config; verbose := verbose;
     client := false; connected := false; publish_results := ∅;
     blocking_calls := 0; publish_calls := 0 |}.

Definition print (s : stream) (m : message) : M t sevent unit := emit (SPrint s m).

Definition on_connect (rc : Z) : M t sevent unit :=
  if rc =? 0 then
    modify (set_connected true) ;;;
    v <- gets verbose ;;
    when v (print Stdout MsgConnected)
  else
    print Stderr (MsgConnectRefused rc).

Definition on_publish (mid : Z) : M t sevent unit :=
  modify (set_publish_result mid true) ;;;
  v <- gets verbose ;;
  when v (print Stdout (MsgMessagePublished mid)).

Definition on_disconnect (rc : Z) : M t sevent unit :=
  modify (set_connected false) ;;;
  v <- gets verbose ;;
  when v (print Stdout MsgDisconnected).

Definition run_callback (c : callback) : M t sevent unit :=
  match c with
  | OnConnect rc => on_connect rc
  | OnPublish mid => on_publish mid
  | OnDisconnect rc => on_disconnect rc
  end.

Fixpoint run_callbacks (cs : list callback) : M t sevent unit :=
  match cs with
  | [] => ret tt
  | c :: rest => run_callback c ;;; run_callbacks rest
  end.

(** The background thread's turn during one blocking call. *)
Definition background : M t sevent unit :=
  k <- gets blocking_calls ;;
  n <- gets net ;;
  modify count_blocking_call ;;;
  run_callbacks (delivered n k).

(** [time.sleep(0.1)] *)
Definition sleep_tenth : M t sevent unit :=
  emit SSleepTenth ;;; background.

(** [while not self.connected and timeout > 0: time.sleep(0.1); timeout -= 0.1]
    with [timeout = 10] at the start: [remaining] counts the tenths of a
    second left, so that [timeout > 0] reads [remaining] is not zero.
    Time is counted in exact tenths; the rounding of the float the source
    subtracts from can only move the number of polls by one. *)
Fixpoint wait_connected (remaining : nat) : M t sevent unit :=
  c <- gets connected ;;
  if c then ret tt
  else match remaining with
       | O => ret tt
       | S r => sleep_tenth ;;; wait_connected r
       end.

Definition connect_body : M t sevent bool :=
  cfg <- gets broker_config ;;
  client_id <- lift (Py.get cfg "client_id" (JStr "machine_payload_publisher")) ;;
  modify (set_client true) ;;;
  username <- lift (Py.get cfg "username" JNull) ;;
  (if Py.truthy username then
     password <- lift (Py.get cfg "password" JNull) ;;
     if Py.truthy password then
       u <- lift (Py.getitem cfg "username") ;;
       p <- lift (Py.getitem cfg "password") ;;
       emit (SNet (NetUsernamePwSet u p))
     else ret tt
   else ret tt) ;;;
  host <- lift (Py.getitem cfg "host") ;;
  port <- lift (Py.getitem cfg "port") ;;
  keepalive <- lift (Py.get cfg "keepalive" (JNum 60)) ;;
  emit (SNet (NetConnect host port keepalive)) ;;;
  n <- gets net ;;
  if connect_raises n then raise OtherException
  else
    emit (SNet NetLoopStart) ;;;
    wait_connected 100 ;;;
    c <- gets connected ;;
    if negb c then raise OtherException     (* Exception("Connection timeout") *)
    else ret true.

Definition connect : M t sevent bool :=
  except_Exception connect_body
    (fun e => print Stderr (MsgConnectError e) ;;; ret false).

(** [self.client.publish(topic, payload_json, qos=..., retain=...)];
    [json.dumps] is total on values that came out of [json.loads], so the
    event carries the payload itself. *)
Definition client_publish (topic payload qos retain : json) : M t sevent (Z * Z) :=
  emit (SNet (NetPublish topic payload qos retain)) ;;;
  k <- gets publish_calls ;;
  n <- gets net ;;
  modify count_publish_call ;;;
  background ;;;
  match publish_reply_of n k with
  | PublishRaises => raise OtherException
  | MessageInfo rc mid => ret (rc, mid)
  end.

(** [self.publish_results[mid]] *)
Definition read_publish_result (mid : Z) : M t sevent bool :=
  results <- gets publish_results ;;
  match results !! mid with
  | Some b => ret b
  | None => raise (KeyError "mid")
  end.

(** The number of tenths of a second below [timeout], that is, how often
    [wait_time < timeout] can hold while [wait_time] grows by 0.1 from 0;
    [TypeError] when [timeout] does not compare with a number. *)
Definition timeout_tenths (timeout : json) : result nat :=
  n <~ Py.index timeout ;;
  Ret (Z.to_nat (10 * n)).

(** [while not self.publish_results[mid] and wait_time < timeout:
       time.sleep(0.1); wait_time += 0.1]
    [remaining] is the number of tenths left before [wait_time] reaches
    [timeout] (exact tenths, as in [wait_connected]). *)
Fixpoint wait_published (mid : Z) (remaining : nat) : M t sevent unit :=
  acked <- read_publish_result mid ;;
  if acked then ret tt
  else match remaining with
       | O => ret tt
       | S r => sleep_tenth ;;; wait_published mid r
       end.

Definition publish_body (topic payload timeout : json) : M t sevent bool :=
  cfg <- gets broker_config ;;
  qos <- lift (Py.get cfg "qos" (JNum 0)) ;;
  retain <- lift (Py.get cfg "retain" (JBool false)) ;;
  info <- client_publish topic payload qos retain ;;
  let '(rc, mid) := info in
  if negb (rc =? 0) then                       (* mqtt.MQTT_ERR_SUCCESS = 0 *)
    print Stderr (MsgPublishRc topic rc) ;;;
    ret false
  else
    modify (set_publish_result mid false) ;;;
    budget <- lift (timeout_tenths timeout) ;;
    wait_published mid budget ;;;
    acked <- read_publish_result mid ;;
    if acked then ret true
    else print Stderr (MsgPublishTimeout topic) ;;; ret false.

Definition publish (topic payload timeout : json) : M t sevent bool :=
  c <- gets connected ;;
  if negb c then
    print Stderr MsgNotConnected ;;;
    ret false
  else
    except_Exception (publish_body topic payload timeout)
      (fun e => print Stderr (MsgPublishError topic e) ;;; ret false).

Definition disconnect : M t sevent unit :=
  c <- gets client ;;
  if c then
    emit (SNet NetLoopStop) ;;;
    emit (SNet NetDisconnect)
  else ret tt.

#[global] Instance session : BrokerSession t := {|
  session_connect := connect;
  session_publish := publish;
  session_disconnect := disconnect
|}.

End MQTTPublisher.

(** ** publish_machineid.py: load_config, generate_machine_payload, main *)

(** What [open] and [json.load] do with a path. *)
Inductive file_read : Type :=
| FileNotFound                       (* FileNotFoundError *)
| InvalidJson                        (* json.JSONDecodeError *)
| Unreadable                         (* any other OSError of open *)
| Parsed (config : json).

(** What running the generator script does. *)
Inductive process_result : Type :=
| CalledProcessError                 (* non-zero exit status, check=True *)
| Printed (stdout : option json)     (* exit status 0; [None]: stdout is not JSON *)
| SubprocessRaises.                  (* any other error of subprocess.run *)

(** The surroundings of a run: the file system, the generator script (its
    output may differ from one run to the next, hence the run number) and
    the class [main] instantiates for its publisher. *)
Record world (Sess : Type) : Type := {
  read_json : string -> file_read;
  run_generator : nat -> json -> process_result;
  new_publisher : json -> bool -> Sess
}.
Arguments read_json {Sess} w path.
Arguments run_generator {Sess} w k machine_type.
Arguments new_publisher {Sess} w broker_config verbose.

(** The parsed command line. *)
Record args : Type := {
  config_file : string;
  verbose : bool;
  dry_run : bool
}.

(** The variables of [main] that its helpers share. *)
Record state (Sess : Type) : Type := {
  publisher : option Sess;           (* [None] until the publisher is created *)
  generator_runs : nat               (* runs of the generator script so far *)
}.
Arguments publisher {Sess} s.
Arguments generator_runs {Sess} s.

Definition initial_state {Sess} : state Sess :=
  {| publisher := None; generator_runs := 0 |}.

Definition set_publisher {Sess} (p : option Sess) (s : state Sess) : state Sess :=
  {| publisher := p; generator_runs := generator_runs s |}.

Definition count_generator_run {Sess} (s : state Sess) : state Sess :=
  {| publisher := publisher s; generator_runs := S (generator_runs s) |}.

Definition wrapper_key : string := "MachineIdentificationType".

(** The exit status of the interpreter: an uncaught exception other than
    [SystemExit] prints a traceback and exits with status 1. *)
Definition exit_status {A} (r : result A) : Z :=
  match r with
  | Ret _ => 0
  | Raise (SystemExit code) => code
  | Raise _ => 1
  end.

(** [for field in required_broker_fields: ...] *)
Fixpoint check_broker_fields (broker_config : json) (required : list string) : result unit :=
  match required with
  | [] => Ret tt
  | field :: rest =>
      present <~ Py.has field broker_config ;;
      if negb present then Raise (ConfigValueError (BrokerMissingField field))
      else check_broker_fields broker_config rest
  end.

(** [for i, machine in enumerate(config['machines']): ...] from entry [i] on. *)
Fixpoint check_machines (i : nat) (machines : list json) : result unit :=
  match machines with
  | [] => Ret tt
  | machine :: rest =>
      if negb (Py.isinstance_dict machine) then Raise (ConfigValueError (MachineNotObject i))
      else
        has_type <~ Py.has "type" machine ;;
        if negb has_type then Raise (ConfigValueError (MachineMissingType i))
        else
          has_topic <~ Py.has "topic" machine ;;
          if negb has_topic then Raise (ConfigValueError (MachineMissingTopic i))
          else check_machines (S i) rest
  end.

(** The body of the [try] of [load_config], after [json.load]. *)
Definition validate_config (config : json) : result json :=
  has_broker <~ Py.has "mqtt_broker" config ;;
  if negb has_broker then Raise (ConfigValueError NoBrokerSection)
  else
    has_machines <~ Py.has "machines" config ;;
    if negb has_machines then Raise (ConfigValueError NoMachinesArray)
    else
      machines <~ Py.getitem config "machines" ;;
      if negb (Py.isinstance_list machines) then Raise (ConfigValueError MachinesNotArray)
      else
        broker_config <~ Py.getitem config "mqtt_broker" ;;
        _ <~ check_broker_fields broker_config ["host"; "port"] ;;
        items <~ Py.list_items machines ;;
        _ <~ check_machines 0 items ;;
        Ret config.

Section PublishMachineId.

Context {Sess : Type} {BS : BrokerSession Sess}.
Variable w : world Sess.
Variable a : args.

Definition print (s : stream) (m : message) : M (state Sess) event unit :=
  emit (EvPrint s m).

Definition load_config (config_path : string) : M (state Sess) event json :=
  match read_json w config_path with
  | FileNotFound =>
      print Stderr (MsgConfigNotFound config_path) ;;;
      raise (SystemExit 1)
  | InvalidJson =>
      print Stderr MsgConfigBadJson ;;;
      raise (SystemExit 1)
  | Unreadable => raise OtherException
  | Parsed config =>
      match validate_config config with
      | Ret config => ret config
      | Raise (ConfigValueError e) =>
          print Stderr (MsgConfigInvalid e) ;;;
          raise (SystemExit 1)
      | Raise e => raise e
      end
  end.

(** Returns [JNull] where the source returns [None] (which is also what
    [json.loads] makes of the output [null]). *)
Definition generate_machine_payload (machine_type : json) : M (state Sess) event json :=
  k <- gets generator_runs ;;
  modify count_generator_run ;;;
  emit (EvGenerate machine_type) ;;;
  match run_generator w k machine_type with
  | Printed (Some payload) => ret payload
  | CalledProcessError =>
      print Stderr (MsgGeneratorError machine_type) ;;;
      ret JNull
  | Printed None =>
      print Stderr (MsgGeneratorBadJson machine_type) ;;;
      ret JNull
  | SubprocessRaises => raise OtherException
  end.

(** Method calls on the variable [publisher]. *)
Definition publisher_connect : M (state Sess) event bool :=
  fun s =>
    match publisher s with
    | None => (Raise AttributeError, s, [])
    | Some p =>
        let '(r, p', t) := session_connect p in
        (r, set_publisher (Some p') s, EvConnect r :: map EvSession t)
    end.

Definition publisher_publish (topic payload timeout : json) : M (state Sess) event bool :=
  fun s =>
    match publisher s with
    | None => (Raise AttributeError, s, [])
    | Some p =>
        let '(r, p', t) := session_publish topic payload timeout p in
        (r, set_publisher (Some p') s, EvPublish topic payload timeout r :: map EvSession t)
    end.

Definition publisher_disconnect : M (state Sess) event unit :=
  fun s =>
    match publisher s with
    | None => (Raise AttributeError, s, [])
    | Some p =>
        let '(r, p', t) := session_disconnect p in
        (r, set_publisher (Some p') s, EvDisconnect :: map EvSession t)
    end.

(** [time.sleep(seconds)] *)
Definition time_sleep (seconds : json) : M (state Sess) event unit :=
  n <- lift (Py.index seconds) ;;
  if n <? 0 then raise ValueError else emit (EvSleep n).

(** Lines 260-263: the payload that goes out on [topic]. *)
Definition publish_payload_for (topic payload : json) : result json :=
  strip <~ Py.endswith topic wrapper_key ;;
  if strip then Py.getitem payload wrapper_key else Ret payload.

(** [payload['MachineIdentificationType']['AssetId']] *)
Definition asset_id_of (payload : json) : result json :=
  inner <~ Py.getitem payload wrapper_key ;;
  Py.getitem inner "AssetId".

Section Job.

Variables machine_type topic payload publish_payload : json.
Variables publish_timeout retry_attempts retry_delay : json.

(** [for attempt in range(retry_attempts): ...], the remaining values of
    [attempt] being [attempts]; [n] is [retry_attempts] as an integer.
    Returns [successful_publications] and [published]. *)
Fixpoint retry_loop (n : Z) (attempts : list Z) (successful_publications : Z)
    : M (state Sess) event (Z * bool) :=
  match attempts with
  | [] => ret (successful_publications, false)
  | attempt :: rest =>
      when (verbose a && (0 <? attempt))
           (print Stdout (MsgRetry (attempt + 1) retry_attempts)) ;;;
      ok <- publisher_publish topic publish_payload publish_timeout ;;
      if ok then
        asset_id <- lift (asset_id_of payload) ;;
        removed <- lift (Py.endswith topic wrapper_key) ;;
        (if verbose a
         then print Stdout (MsgPublishedVerbose machine_type asset_id topic removed)
         else print Stdout (MsgPublished machine_type topic)) ;;;
        ret (successful_publications + 1, true)
      else
        (if attempt <? n - 1 then time_sleep retry_delay else ret tt) ;;;
        retry_loop n rest successful_publications
  end.

End Job.

(** One iteration of the loop over [config['machines']]; returns
    [successful_publications]. *)
Definition process_machine (global_settings : json) (total_machines i : Z)
    (machine_config : json) (successful_publications : Z) : M (state Sess) event Z :=
  machine_type <- lift (Py.getitem machine_config "type") ;;
  topic <- lift (Py.getitem machine_config "topic") ;;
  when (verbose a) (print Stdout (MsgProcessing i total_machines machine_type)) ;;;
  payload <- generate_machine_payload machine_type ;;
  match payload with
  | JNull =>
      print Stderr (MsgGenerateFailed machine_type) ;;;
      ret successful_publications                              (* continue *)
  | _ =>
      publish_payload <- lift (publish_payload_for topic payload) ;;
      if dry_run a then
        asset_id <- lift (asset_id_of payload) ;;
        removed <- lift (Py.endswith topic wrapper_key) ;;
        print Stdout (MsgWouldPublish machine_type asset_id topic removed) ;;;
        ret (successful_publications + 1)
      else
        publish_timeout <- lift (Py.get global_settings "publish_timeout" (JNum 30)) ;;
        retry_attempts <- lift (Py.get global_settings "retry_attempts" (JNum 3)) ;;
        retry_delay <- lift (Py.get global_settings "retry_delay" (JNum 1)) ;;
        n <- lift (Py.index retry_attempts) ;;
        looped <- retry_loop machine_type topic payload publish_payload
                    publish_timeout retry_attempts retry_delay
                    n (Py.range n) successful_publications ;;
        let '(successful_publications, published) := looped in
        when (negb published)
             (print Stderr (MsgPublishGaveUp machine_type retry_attempts)) ;;;
        ret successful_publications
  end.

(** [for i, machine_config in enumerate(config['machines'], 1): ...] from
    position [i] on. *)
Fixpoint process_machines (global_settings : json) (total_machines i : Z)
    (machines : list json) (successful_publications : Z) : M (state Sess) event Z :=
  match machines with
  | [] => ret successful_publications
  | machine_config :: rest =>
      successful_publications <-
        process_machine global_settings total_machines i machine_config
          successful_publications ;;
      process_machines global_settings total_machines (i + 1) rest successful_publications
  end.

(** The summary and the exit decision (lines 299-317). *)
Definition summarize (total_machines successful_publications : Z) : M (state Sess) event unit :=
  when (verbose a)
    (print Stdout MsgSummaryHeader ;;;
     print Stdout (MsgSummaryTotal total_machines) ;;;
     print Stdout (MsgSummarySuccessful (dry_run a) successful_publications) ;;;
     print Stdout (MsgSummaryFailed (dry_run a) (total_machines - successful_publications))) ;;;
  if successful_publications =? 0 then
    print Stderr (MsgNoneSucceeded (dry_run a)) ;;;
    raise (SystemExit 1)
  else if successful_publications <? total_machines then
    print Stderr (MsgPartial successful_publications total_machines (dry_run a)) ;;;
    raise (SystemExit 1)
  else
    when (verbose a) (print Stdout (MsgAllSucceeded (dry_run a))).

(** The body of the [try] of [main]. *)
Definition main_try (config global_settings : json) : M (state Sess) event unit :=
  machines <- lift (Py.getitem config "machines") ;;
  items <- lift (Py.list_items machines) ;;
  let total_machines := Z.of_nat (List.length items) in
  successful_publications <- process_machines global_settings total_machines 1 items 0 ;;
  summarize total_machines successful_publications.

(** The [finally] of [main]. *)
Definition main_finally : M (state Sess) event unit :=
  p <- gets publisher ;;
  match p with
  | Some _ => publisher_disconnect
  | None => ret tt
  end.

Definition main : M (state Sess) event unit :=
  when (verbose a) (print Stdout (MsgLoading (config_file a))) ;;;
  config <- load_config (config_file a) ;;
  global_settings <- lift (Py.get config "global_settings" (JObj ∅)) ;;
  (if negb (dry_run a) then
     when (verbose a) (print Stdout MsgConnecting) ;;;
     broker_config <- lift (Py.getitem config "mqtt_broker") ;;
     modify (set_publisher (Some (new_publisher w broker_config (verbose a)))) ;;;
     ok <- publisher_connect ;;
     if negb ok then
       print Stderr MsgConnectFailed ;;;
       raise (SystemExit 1)
     else ret tt
   else ret tt) ;;;
  try_finally (main_try config global_settings) main_finally.

End PublishMachineId.

(** A whole run of the script: result of [main], final state, trace. *)
Definition run_main {Sess} {BS : BrokerSession Sess} (w : world Sess) (a : args)
    : result unit * state Sess * list event :=
  main w a initial_state.

(** ** A scripted broker session *)

Module Stub.

(** The stub counts the calls made to it and answers the k-th [publish]
    with [publish_script k]. *)
Record script : Type := {
  connect_answer : bool;
  publish_script : nat -> bool
}.

Record t : Type := {
  behaviour : script;
  connects : nat;
  attempts : nat;
  disconnects : nat
}.

Definition init (sc : script) : t :=
  {| behaviour := sc; connects := 0; attempts := 0; disconnects := 0 |}.

Definition connect : M t sevent bool :=
  fun p =>
    (Ret (connect_answer (behaviour p)),
     {| behaviour := behaviour p; connects := S (connects p);
        attempts := attempts p; disconnects := disconnects p |}, []).

Definition publish (topic payload timeout : json) : M t sevent bool :=
  fun p =>
    (Ret (publish_script (behaviour p) (attempts p)),
     {| behaviour := behaviour p; connects := connects p;
        attempts := S (attempts p); disconnects := disconnects p |}, []).

Definition disconnect : M t sevent unit :=
  fun p =>
    (Ret tt,
     {| behaviour := behaviour p; connects := connects p;
        attempts := attempts p; disconnects := S (disconnects p) |}, []).

#[global] Instance session : BrokerSession t := {|
  session_connect := connect;
  session_publish := publish;
  session_disconnect := disconnect
|}.

(** Fails [n] times, then succeeds. *)
Definition fails_then_succeeds (n : nat) : script :=
  {| connect_answer := true; publish_script := fun k => (n <=? k)%nat |}.

End Stub.

(** ** generate_sample_payloads.py: the record and the command line *)

Module SamplePayloads.

Import GenerateSamplePayloads.

(** *** Python strings

    Strings are sequences of bytes here; [upper] and [lower] change the
    ASCII letters and leave every other byte alone, which is what
    [str.upper] and [str.lower] do on ASCII strings.  The strings the
    script builds its record from are ASCII. *)

Definition ascii_upper (c : ascii) : ascii :=
  let n := nat_of_ascii c in
  if (97 <=? n)%nat && (n <=? 122)%nat then ascii_of_nat (n - 32) else c.

Definition ascii_lower (c : ascii) : ascii :=
  let n := nat_of_ascii c in
  if (65 <=? n)%nat && (n <=? 90)%nat then ascii_of_nat (n + 32) else c.

Fixpoint map_chars (f : ascii -> ascii) (s : string) : string :=
  match s with
  | EmptyString => EmptyString
  | String c rest => String (f c) (map_chars f rest)
  end.

(** [s.upper()], [s.lower()] *)
Definition upper (s : string) : string := map_chars ascii_upper s.
Definition lower (s : string) : string := map_chars ascii_lower s.

(** [s.replace(' ', '-')] *)
Definition dashed (s : string) : string :=
  map_chars (fun c => if Ascii.eqb c " " then "-"%char else c) s.

(** [str(n)] for an integer, as an f-string interpolates it. *)
Definition str (n : Z) : string := pretty n.

(** *** Dictionaries with string keys, in source order *)

Fixpoint assoc {A} (k : string) (d : list (string * A)) : option A :=
  match d with
  | [] => None
  | (k', v) :: rest => if String.eqb k' k then Some v else assoc k rest
  end.

(** [d[k]] *)
Definition item {A} (d : list (string * A)) (k : string) : result A :=
  match assoc k d with
  | Some v => Ret v
  | None => Raise (KeyError k)
  end.

(** [list(d.keys())] *)
Definition keys {A} (d : list (string * A)) : list string := map fst d.

Record manufacturer : Type := {
  name : string;
  uri : string
}.

Definition manufacturers : list (string * manufacturer) :=
  [("heidelberg", {| name := "Heidelberger Druckmaschinen AG";
                     uri := "https://www.heidelberg.com" |});
   ("komori", {| name := "Komori Corporation"; uri := "https://www.komori.com" |});
   ("bobst", {| name := "BOBST Group SA"; uri := "https://www.bobst.com" |});
   ("atlas", {| name := "Atlas Converting Equipment Ltd.";
                uri := "https://www.atlasconverting.com" |});
   ("comexi", {| name := "Comexi Group"; uri := "https://www.comexi.com" |});
   ("starlinger", {| name := "Starlinger & Co GmbH"; uri := "https://www.starlinger.com" |});
   ("grundfos", {| name := "Grundfos Holding A/S"; uri := "https://www.grundfos.com" |});
   ("ksb", {| name := "KSB SE & Co. KGaA"; uri := "https://www.ksb.com" |});
   ("pentair", {| name := "Pentair plc"; uri := "https://www.pentair.com" |});
   ("caldwell", {| name := "Caldwell Tanks Inc."; uri := "https://www.caldwelltanks.com" |});
   ("cb_i", {| name := "CB&I Storage Solutions"; uri := "https://www.cbi.com" |})].

Definition machine_models : list (string * list (string * list string)) :=
  [("Press",
    [("heidelberg", ["Speedmaster XL 106"; "Printmaster QM 46"; "Versafire EP"]);
     ("komori", ["Lithrone GX40"; "Enthrone 29"; "Impremia NS40"])]);
   ("Lam",
    [("bobst", ["NOVACUT 106 E"; "MASTERCUT 106 PER"; "VISIONFOLD 110 A"]);
     ("atlas", ["Titan SR3"; "Titan SR5"; "Convert-O-Matic"])]);
   ("Slit",
    [("atlas", ["Titan SR8"; "Phoenix SR2"; "Maximus SR6"]);
     ("comexi", ["S1 DT"; "S1 Offset"; "S1 Smart"])]);
   ("Bag",
    [("starlinger", ["type recoSTAR PET 330 HC iV+"; "type recycling line PET";
                     "type recoSTAR universal 165 iV+"]);
     ("comexi", ["CT flexo CI8"; "ML combi"; "F2 MB flexo"])]);
   ("Pump",
    [("grundfos", ["CR 32-4-2"; "TPE 32-120/4"; "NK 65-125/124"]);
     ("ksb", ["Omega 65-125"; "Etanorm 65-125"; "Multitec 40/4"])]);
   ("Pumping_Station",
    [("grundfos", ["Hydro MPC-S 3 CR32"; "Hydro Multi-E 3 CR64"; "Hydro Multi-S P 3CR32"]);
     ("pentair", ["Aurora 408GT"; "Pentair Myers 3085"; "Berkeley B4FRBM"])]);
   ("Tank",
    [("caldwell", ["Pedesphere 100000"; "Freedom 75000"; "Aquastore 50000"]);
     ("cb_i", ["Fixed Roof 200000"; "Floating Roof 500000"; "Pressure Vessel 25000"])])].

(** The same dictionary is written out in [generate_machine_payload] and
    in [main]. *)
Definition machine_display_names : list (string * string) :=
  [("Press", "Printing Press");
   ("Lam", "Laminator");
   ("Slit", "Slitter");
   ("Bag", "Bag Machine");
   ("Pump", "Pump");
   ("Pumping_Station", "Pumping Station");
   ("Tank", "Tank")].

Definition machine_types : list (string * string) :=
  [("Press", "Press");
   ("Lam", "Lam");
   ("Slit", "Slit");
   ("Bag", "Bag");
   ("Pump", "Pump");
   ("Pumping_Station", "Pumping_Station");
   ("Tank", "Tank")].

Definition valid_machine_types : list (string * string) :=
  [("press", "Press");
   ("lam", "Lam");
   ("slit", "Slit");
   ("bag", "Bag");
   ("pump", "Pump");
   ("pumping_station", "Pumping_Station");
   ("tank", "Tank")].

Definition locations : list string :=
  ["Production Floor A"; "Manufacturing Line 1"; "Assembly Bay 3"; "Processing Unit 2"].

(** *** What the script reads from its surroundings, and what it puts out *)

(** The random generator and the clock answer call after call; the file
    system may refuse. *)
Record surroundings : Type := {
  raw : nat -> Z;                    (* the raw draw behind the k-th call of [random] *)
  clock : nat -> datetime;           (* the k-th [datetime.now()] *)
  makedirs_raises : bool;            (* os.makedirs('machines', exist_ok=True) raises *)
  open_raises : string -> bool       (* open(filename, 'w') raises *)
}.

(** The library calls on a [datetime] that the record uses. *)
Record calendar : Type := {
  isoformat : datetime -> string;
  month : datetime -> Z;
  year : datetime -> Z
}.

(** How many draws and clock readings have been made. *)
Record cursor : Type := {
  drawn : nat;
  readings : nat
}.

Definition start : cursor := {| drawn := 0; readings := 0 |}.

Definition count_draw (c : cursor) : cursor :=
  {| drawn := S (drawn c); readings := readings c |}.

Definition count_reading (c : cursor) : cursor :=
  {| drawn := drawn c; readings := S (readings c) |}.

(** One constructor per [print] of the script. *)
Inductive line : Type :=
| LineCountError (count : Z)
| LineInvalidType (given : string)
| LinePayloadHeader (display_name : string) (i count : Z)
| LineJson (payload : json)          (* json.dumps(payload, indent=2) *)
| LineSampleHeader (display_name mqtt_topic : string)
| LineRule                           (* "-" * 60 *)
| LineSaved (filename : string)
| LineAllSaved.

Inductive output : Type :=
| OutPrint (s : stream) (l : line)
| OutMakedirs (path : string)
| OutDump (filename : string) (payload : json).  (* json.dump(payload, f, indent=2) *)

(** The parsed command line: [count] is an integer (argparse has converted
    it, 1 when absent). *)
Record cli : Type := {
  machine_type : option string;
  count : Z
}.

Section Script.

Variable world : surroundings.
Variable cal : calendar.

Definition G (A : Type) : Type := M cursor output A.

Definition print (s : stream) (l : line) : G unit := emit (OutPrint s l).

(** The raw draw of the next call of [random]. *)
Definition next_raw : G Z :=
  k <- gets drawn ;;
  modify count_draw ;;;
  ret (raw world k).

(** [random.randint(a, b)] *)
Definition random_randint (a b : Z) : G Z :=
  rnd <- next_raw ;;
  lift (randint a b rnd).

(** [random.choice(seq)]: [IndexError] on an empty sequence. *)
Definition random_choice {A} (seq : list A) : G A :=
  rnd <- next_raw ;;
  match seq !! Z.to_nat (rnd mod Z.of_nat (List.length seq)) with
  | Some x => ret x
  | None => raise OtherException
  end.

(** [datetime.now()] *)
Definition datetime_now : G datetime :=
  k <- gets readings ;;
  modify count_reading ;;;
  ret (clock world k).

(** The two date functions, with their readings of the clock and their
    draws. *)
Definition construction_date_call : G datetime :=
  now <- datetime_now ;;
  rnd <- next_raw ;;
  lift (generate_construction_date now rnd).

Definition operation_date_call (construction_date : datetime) : G datetime :=
  now <- datetime_now ;;
  rnd <- next_raw ;;
  lift (generate_operation_date now rnd construction_date).

(** [[f"PATCH-{random.randint(100, 999)}" for _ in range(n)]] *)
Fixpoint patch_identifiers (n : nat) : G (list json) :=
  match n with
  | O => ret []
  | S k =>
      number <- random_randint 100 999 ;;
      rest <- patch_identifiers k ;;
      ret (JStr ("PATCH-" +:+ str number) :: rest)
  end.

Definition dict (fields : list (string * json)) : json := JObj (list_to_map fields).

(** The dictionary [payload = {...}], given the values its f-strings
    interpolate; the draws the source makes inside the display are made by
    [generate_machine_payload] in the order of the display. *)
Definition payload_of (machine_type mqtt_topic display_name : string)
    (manufacturer_data : manufacturer) (model : string)
    (construction_date operation_date software_date : datetime)
    (asset_id serial_number product_code : string)
    (device_major device_minor hardware_major hardware_minor : Z)
    (location : string) (patches : list json)
    (revision_counter software_major software_minor software_patch : Z) : json :=
  dict
    [("MachineIdentificationType", dict
       [("AssetId", JStr asset_id);
        ("ComponentName", JStr (display_name +:+ " " +:+ asset_id));
        ("DefaultInstanceBrowseName", JStr ("/" +:+ mqtt_topic +:+ "/" +:+ asset_id));
        ("DeviceClass", JStr ("Industrial " +:+ display_name));
        ("DeviceManual",
         JStr (uri manufacturer_data +:+ "/manuals/" +:+ lower (dashed model)));
        ("DeviceRevision", JStr ("Rev-" +:+ str device_major +:+ "." +:+ str device_minor));
        ("HardwareRevision",
         JStr ("HW-" +:+ str hardware_major +:+ "." +:+ str hardware_minor));
        ("InitialOperationDate", JStr (isoformat cal operation_date +:+ "Z"));
        ("Location", JStr location);
        ("Manufacturer", JStr (name manufacturer_data));
        ("ManufacturerUri", JStr (uri manufacturer_data));
        ("ProductInstanceUri",
         JStr (uri manufacturer_data +:+ "/products/" +:+ lower (dashed model)));
        ("Model", JStr model);
        ("MonthOfConstruction", JNum (month cal construction_date));
        ("YearOfConstruction", JNum (year cal construction_date));
        ("PatchIdentifiers", JArr patches);
        ("RevisionCounter", JNum revision_counter);
        ("ProductCode", JStr product_code);
        ("SerialNumber", JStr serial_number);
        ("SoftwareReleaseDate", JStr (isoformat cal software_date +:+ "Z"));
        ("SoftwareRevision",
         JStr ("SW-" +:+ str software_major +:+ "." +:+ str software_minor
               +:+ "." +:+ str software_patch));
        ("UI Element",
         JStr (lower machine_type +:+ "_control_panel_" +:+ lower asset_id))])].

Definition generate_machine_payload (machine_type mqtt_topic : string) : G json :=
  by_manufacturer <- lift (item machine_models machine_type) ;;
  let available_manufacturers := keys by_manufacturer in
  manufacturer_key <- random_choice available_manufacturers ;;
  manufacturer_data <- lift (item manufacturers manufacturer_key) ;;
  models <- lift (item by_manufacturer manufacturer_key) ;;
  model <- random_choice models ;;
  construction_date <- construction_date_call ;;
  operation_date <- operation_date_call construction_date ;;
  software_date <- operation_date_call construction_date ;;
  asset_number <- random_randint 1000 9999 ;;
  let asset_id := upper mqtt_topic +:+ "-" +:+ str asset_number in
  serial <- random_randint 100000 999999 ;;
  let serial_number := substring 0 3 (upper manufacturer_key) +:+ str serial in
  product <- random_randint 100 999 ;;
  let product_code := "PC-" +:+ upper (dashed model) +:+ "-" +:+ str product in
  display_name <- lift (item machine_display_names machine_type) ;;
  device_major <- random_randint 1 5 ;;
  device_minor <- random_randint 0 9 ;;
  hardware_major <- random_randint 1 3 ;;
  hardware_minor <- random_randint 0 9 ;;
  location <- random_choice locations ;;
  patch_count <- random_randint 0 3 ;;
  patches <- patch_identifiers (Z.to_nat patch_count) ;;
  revision_counter <- random_randint 0 5 ;;
  software_major <- random_randint 1 10 ;;
  software_minor <- random_randint 0 9 ;;
  software_patch <- random_randint 0 9 ;;
  ret (payload_of machine_type mqtt_topic display_name manufacturer_data model
         construction_date operation_date software_date
         asset_id serial_number product_code
         device_major device_minor hardware_major hardware_minor
         location patches revision_counter software_major software_minor software_patch).

(** [for i in range(args.count): ...] of the branch for one machine type,
    from [i] on, [todo] iterations to go. *)
Fixpoint payloads_of_type (machine_type mqtt_topic display_name : string) (count : Z)
    (i : Z) (todo : nat) : G unit :=
  match todo with
  | O => ret tt
  | S rest =>
      payload <- generate_machine_payload machine_type mqtt_topic ;;
      when (1 <? count) (print Stdout (LinePayloadHeader display_name (i + 1) count)) ;;;
      print Stdout (LineJson payload) ;;;
      payloads_of_type machine_type mqtt_topic display_name count (i + 1) rest
  end.

(** [with open(filename, 'w') as f: json.dump(payload, f, indent=2)] *)
Definition dump_to (filename : string) (payload : json) : G unit :=
  if open_raises world filename then raise OtherException
  else emit (OutDump filename payload).

(** [for machine_type, mqtt_topic in machine_types: ...] *)
Fixpoint payloads_of_all (types : list (string * string)) : G unit :=
  match types with
  | [] => ret tt
  | (machine_type, mqtt_topic) :: rest =>
      display_name <- lift (item machine_display_names machine_type) ;;
      payload <- generate_machine_payload machine_type mqtt_topic ;;
      print Stdout (LineSampleHeader display_name mqtt_topic) ;;;
      print Stdout (LineJson payload) ;;;
      print Stdout LineRule ;;;
      let individual_filename := "machines/" +:+ lower mqtt_topic +:+ ".json" in
      dump_to individual_filename payload ;;;
      print Stdout (LineSaved individual_filename) ;;;
      payloads_of_all rest
  end.

Definition main (args : cli) : G unit :=
  (if count args <? 1 then
     print Stderr (LineCountError (count args)) ;;;
     raise (SystemExit 1)
   else ret tt) ;;;
  match machine_type args with
  | Some given =>
      if negb (String.eqb given "") then
        let machine_input := lower given in
        match assoc machine_input valid_machine_types with
        | None =>
            print Stderr (LineInvalidType given) ;;;
            raise (SystemExit 1)
        | Some machine_type =>
            let mqtt_topic := machine_type in
            display_name <- lift (item machine_display_names machine_type) ;;
            payloads_of_type machine_type mqtt_topic display_name (count args)
              0 (Z.to_nat (count args))
        end
      else
        (if makedirs_raises world then raise OtherException
         else emit (OutMakedirs "machines")) ;;;
        payloads_of_all machine_types ;;;
        print Stdout LineAllSaved
  | None =>
      (if makedirs_raises world then raise OtherException
       else emit (OutMakedirs "machines")) ;;;
      payloads_of_all machine_types ;;;
      print Stdout LineAllSaved
  end.

End Script.

End SamplePayloads.

(** ** The generator script as the subprocess of the publisher *)

Module Subprocess.

Import SamplePayloads.

(** What a run of the script leaves on its stdout. *)
Definition stdout_of (t : list output) : list line :=
  omap (fun e => match e with
                 | OutPrint Stdout l => Some l
                 | _ => None
                 end) t.

(** [subprocess.run(['python3', 'generate_sample_payloads.py', machine_type],
    capture_output=True, text=True, check=True)] followed by
    [json.loads(result.stdout)], when the script is the one of this
    repository.  Each run is a process of its own, with its own
    surroundings [worlds k].  A list element that is no string makes
    [subprocess.run] raise; a string is the first positional argument of
    the script (this holds for the strings without NUL and without a
    leading dash; the others are outside the embedding), the count is left
    at its default.  A non-zero exit status, which is also what an uncaught
    exception of the script gives, is a [CalledProcessError]; otherwise
    stdout parses as JSON exactly when it is one dumped payload, and
    [json.loads] gives that payload back. *)
Definition run_script (worlds : nat -> surroundings) (cal : calendar)
    (k : nat) (machine_type : json) : process_result :=
  match machine_type with
  | JStr given =>
      let out := main (worlds k) cal {| machine_type := Some given; count := 1 |} start in
      match result_of out with
      | Ret _ =>
          match stdout_of (trace_of out) with
          | [LineJson payload] => Printed (Some payload)
          | _ => Printed None
          end
      | Raise _ => CalledProcessError
      end
  | _ => SubprocessRaises
  end.

End Subprocess.

(** * Vocabulary of the properties *)

(** ** Configurations *)

(** An entry of [machines] as the loop of [main] needs it. *)
Definition machine_entry_ok (machine : json) : Prop :=
  exists fields, machine = JObj fields
                 /\ is_Some (fields !! "type") /\ is_Some (fields !! "topic").

(** What the checks of [load_config] establish. *)
Definition config_checked (config : json) : Prop :=
  exists fields broker_config items,
    config = JObj fields
    /\ fields !! "mqtt_broker" = Some broker_config
    /\ Py.has "host" broker_config = Ret true
    /\ Py.has "port" broker_config = Ret true
    /\ fields !! "machines" = Some (JArr items)
    /\ Forall machine_entry_ok items.

(** An entry that is no object, or an object without [type] or [topic]. *)
Definition machine_entry_defect (machine : json) : Prop :=
  match machine with
  | JObj fields => fields !! "type" = None \/ fields !! "topic" = None
  | _ => True
  end.


(** ** The publisher and its network *)

Module PublisherSpec.

Import MQTTPublisher.

Definition is_ack (mid : Z) (c : callback) : bool :=
  match c with
  | OnPublish m => m =? mid
  | _ => false
  end.

(** The callbacks of one blocking call acknowledge [mid]. *)
Definition acks (mid : Z) (cs : list callback) : bool := existsb (is_ack mid) cs.

(** [on_publish(mid)] runs during one of the [budget] blocking calls that
    follow the first [start] ones. *)
Fixpoint acked_within (n : network) (mid : Z) (start budget : nat) : bool :=
  match budget with
  | O => false
  | S b => acks mid (delivered n start) || acked_within n mid (S start) b
  end.

(** What [publish] returns, read off the publisher and its network. *)
Definition publish_outcome (p : t) (timeout : json) : bool :=
  connected p
  && Py.isinstance_dict (broker_config p)
  && match publish_reply_of (net p) (publish_calls p) with
     | PublishRaises => false
     | MessageInfo rc mid =>
         (rc =? 0)
         && match timeout_tenths timeout with
            | Ret budget => acked_within (net p) mid (S (blocking_calls p)) budget
            | Raise _ => false
            end
     end.

(** What a callback leaves alone, and what it does to the table. *)
Definition callbacks_effect (cs : list callback) (p p' : t) : Prop :=
  net p' = net p
  /\ broker_config p' = broker_config p
  /\ blocking_calls p' = blocking_calls p
  /\ publish_calls p' = publish_calls p
  /\ forall mid, publish_results p' !! mid =
                 if acks mid cs then Some true else publish_results p !! mid.

End PublisherSpec.

(** ** Views of a trace *)

(** The attempts and pauses of a trace, in order. *)
Inductive tick : Type :=
| Attempt (r : result bool)
| Pause (seconds : Z).

Definition tick_of (e : event) : option tick :=
  match e with
  | EvPublish _ _ _ r => Some (Attempt r)
  | EvSleep seconds => Some (Pause seconds)
  | _ => None
  end.

Definition timeline (tr : list event) : list tick := omap tick_of tr.

Definition attempt_of (e : event) : option (json * json) :=
  match e with
  | EvPublish topic payload _ _ => Some (topic, payload)
  | _ => None
  end.

(** The (topic, payload) pairs handed to [publish], in order. *)
Definition published_in (tr : list event) : list (json * json) := omap attempt_of tr.

(** How often [publish] was called. *)
Definition attempts_in (tr : list event) : nat := List.length (published_in tr).

Definition disconnect_of (e : event) : option unit :=
  match e with
  | EvDisconnect => Some tt
  | _ => None
  end.

(** How often [disconnect] was called. *)
Definition disconnects_in (tr : list event) : nat := List.length (omap disconnect_of tr).

Definition generate_of (e : event) : option json :=
  match e with
  | EvGenerate machine_type => Some machine_type
  | _ => None
  end.

(** The machine types the generator was run for, in order. *)
Definition generated_in (tr : list event) : list json := omap generate_of tr.


(** The events the loop over the machines can produce: it never connects or
    disconnects, and in a dry run it neither publishes nor sleeps. *)
Definition job_event (dry : bool) (e : event) : Prop :=
  match e with
  | EvPrint _ _ | EvGenerate _ => True
  | EvPublish _ _ _ _ | EvSleep _ | EvSession _ => dry = false
  | EvConnect _ | EvDisconnect => False
  end.

(** ** Retrying, as the specification words it *)

(** [retried delay budget ticks published]: at most [budget] attempts; a
    pause of [delay] seconds between two consecutive attempts and none after
    the last one; a successful attempt is the last one; [published] tells
    whether the last attempt succeeded. *)
Inductive retried (delay : Z) : nat -> list tick -> bool -> Prop :=
| retried_no_budget :
    retried delay 0 [] false
| retried_success budget :
    retried delay (S budget) [Attempt (Ret true)] true
| retried_exhausted :
    retried delay 1 [Attempt (Ret false)] false
| retried_again budget rest published :
    retried delay (S budget) rest published ->
    retried delay (S (S budget)) (Attempt (Ret false) :: Pause delay :: rest) published.

(** [n] failed attempts, each followed by a pause, and then [last]. *)
Fixpoint failures_then (delay : Z) (n : nat) (last : list tick) : list tick :=
  match n with
  | O => last
  | S k => Attempt (Ret false) :: Pause delay :: failures_then delay k last
  end.

(** The attempts a budget [n] allows and then none: [n] failures with the
    pauses between them. *)
Definition all_failed (delay : Z) (n : nat) : list tick :=
  match n with
  | O => []
  | S k => failures_then delay k [Attempt (Ret false)]
  end.

(** The number of attempts the settings allow: [retry_attempts] (3 when
    absent) where it is a non-negative integer, none where the loop cannot
    start. *)
Definition retry_budget (global_settings : json) : nat :=
  match Py.get global_settings "retry_attempts" (JNum 3) with
  | Ret retry_attempts =>
      match Py.index retry_attempts with
      | Ret n => Z.to_nat n
      | Raise _ => 0
      end
  | Raise _ => 0
  end.

(** ** Sessions that keep the contract of the interface *)

Definition never_raises {St Ev A} (m : M St Ev A) : Prop :=
  forall s, exists x, result_of (m s) = Ret x.

Record session_total (Sess : Type) {BS : BrokerSession Sess} : Prop := {
  connect_total : never_raises session_connect;
  publish_total : forall topic payload timeout,
      never_raises (session_publish topic payload timeout);
  disconnect_total : never_raises session_disconnect
}.

(** A computation of [main] that produces only the events of the loop and
    neither creates nor drops the publisher. *)
Definition stays {Sess A} (dry : bool) (m : M (state Sess) event A) : Prop :=
  forall s,
    Forall (job_event dry) (trace_of (m s))
    /\ (publisher (state_of (m s)) = None <-> publisher s = None).

(** ** Counting attempts *)

(** [m] returns [x] from some state. *)
Definition returns {St Ev A} (m : M St Ev A) (x : A) : Prop :=
  exists s s' t, m s = (Ret x, s', t).

(** [m] calls [publish] at most [n] times, whatever happens. *)
Definition attempts_le {Sess A} (n : nat) (m : M (state Sess) event A) : Prop :=
  forall s, (attempts_in (trace_of (m s)) <= n)%nat.

(** ** A job that is ready to be published *)

(** The values one iteration of the loop works with. *)
Record job : Type := {
  job_type : json;
  job_topic : string;
  job_payload : json;
  job_inner : json;                  (* the record under the wrapper key *)
  job_asset_id : json;
  job_timeout : json;
  job_retry_attempts : json;
  job_retry_delay : json;
  job_budget : Z;                    (* retry_attempts as an integer *)
  job_delay : Z                      (* retry_delay as an integer *)
}.

Definition job_publish_payload (j : job) : json :=
  if Py.str_endswith (job_topic j) wrapper_key then job_inner j else job_payload j.

(** [ready w s global_settings machine_config j]: the entry has a type and a
    string topic, the generator run that comes next prints a record with the
    wrapper key and an asset id in it, and the settings in force are those of
    [j], with a delay that [time.sleep] accepts. *)
Record ready {Sess} (w : world Sess) (s : state Sess)
    (global_settings machine_config : json) (j : job) : Prop := {
  ready_type : Py.getitem machine_config "type" = Ret (job_type j);
  ready_topic : Py.getitem machine_config "topic" = Ret (JStr (job_topic j));
  ready_generated :
    run_generator w (generator_runs s) (job_type j) = Printed (Some (job_payload j));
  ready_inner : Py.getitem (job_payload j) wrapper_key = Ret (job_inner j);
  ready_asset_id : Py.getitem (job_inner j) "AssetId" = Ret (job_asset_id j);
  ready_timeout :
    Py.get global_settings "publish_timeout" (JNum 30) = Ret (job_timeout j);
  ready_retry_attempts :
    Py.get global_settings "retry_attempts" (JNum 3) = Ret (job_retry_attempts j);
  ready_retry_delay :
    Py.get global_settings "retry_delay" (JNum 1) = Ret (job_retry_delay j);
  ready_budget : Py.index (job_retry_attempts j) = Ret (job_budget j);
  ready_delay : Py.index (job_retry_delay j) = Ret (job_delay j);
  ready_delay_pos : 0 <= job_delay j
}.

(** The events of a job before its first attempt and after its last one. *)
Definition job_prologue (a : args) (total i : Z) (j : job) : list event :=
  (if verbose a then [EvPrint Stdout (MsgProcessing i total (job_type j))] else [])
  ++ [EvGenerate (job_type j)].

Definition job_epilogue (j : job) (published : bool) : list event :=
  if published then []
  else [EvPrint Stderr (MsgPublishGaveUp (job_type j) (job_retry_attempts j))].

(** The publisher is a stub that fails [fails] times before it succeeds and
    has recorded [calls] attempts. *)
Definition stub_at (fails calls : nat) (s : state Stub.t) : Prop :=
  exists p, publisher s = Some p
            /\ Stub.behaviour p = Stub.fails_then_succeeds fails
            /\ Stub.attempts p = calls.

(** How many of the ticks are attempts. *)
Fixpoint count_attempts (ticks : list tick) : nat :=
  match ticks with
  | [] => 0
  | Attempt _ :: rest => S (count_attempts rest)
  | Pause _ :: rest => count_attempts rest
  end.

(** ** Sample data *)

Module Sample.

Definition obj (fields : list (string * json)) : json := JObj (list_to_map fields).

Definition inner : json := obj [("AssetId", JStr "PRESS-1234"); ("Model", JStr "Lithrone GX40")].

Definition payload : json := obj [("MachineIdentificationType", inner)].

Definition machine (type topic : string) : json :=
  obj [("type", JStr type); ("topic", JStr topic)].

Definition broker : json := obj [("host", JStr "localhost"); ("port", JNum 1883)].

Definition settings (retry_attempts retry_delay : Z) : json :=
  obj [("retry_attempts", JNum retry_attempts); ("retry_delay", JNum retry_delay)].

Definition config (machines : list json) (global_settings : json) : json :=
  obj [("mqtt_broker", broker); ("machines", JArr machines);
       ("global_settings", global_settings)].

(** The generator knows the type "Press" only. *)
Definition generator (k : nat) (machine_type : json) : process_result :=
  match machine_type with
  | JStr "Press" => Printed (Some payload)
  | _ => CalledProcessError
  end.

(** A world with one configuration file and a scripted broker. *)
Definition world_of (config : json) (sc : Stub.script) : world Stub.t :=
  {| read_json := fun _ => Parsed config;
     run_generator := generator;
     new_publisher := fun _ _ => Stub.init sc |}.

Definition live : args := {| config_file := "publish_config.json"; verbose := false; dry_run := false |}.
Definition dry : args := {| config_file := "publish_config.json"; verbose := false; dry_run := true |}.

Definition connected_stub (sc : Stub.script) : state Stub.t :=
  {| publisher := Some (Stub.init sc); generator_runs := 0 |}.

(** The job of a "Press" entry under [settings retry_attempts retry_delay]. *)
Definition press_job (topic : string) (retry_attempts retry_delay : Z) : job :=
  {| job_type := JStr "Press"; job_topic := topic;
     job_payload := payload; job_inner := inner;
     job_asset_id := JStr "PRESS-1234";
     job_timeout := JNum 30;
     job_retry_attempts := JNum retry_attempts;
     job_retry_delay := JNum retry_delay;
     job_budget := retry_attempts; job_delay := retry_delay |}.

End Sample.

(** ** What a computation may emit *)

Definition emits {St Ev A} (P : Ev -> Prop) (m : M St Ev A) : Prop :=
  forall s, Forall P (trace_of (m s)).

(** [e] is no call of [publish], or one of [payload] on [topic]. *)
Definition carries (topic payload : json) (e : event) : Prop :=
  match attempt_of e with
  | Some sent => sent = (topic, payload)
  | None => True
  end.

(** ** A run whose configuration loads *)

(** The file of the run holds [config] and the loader accepts it. *)
Definition loads {Sess} (w : world Sess) (a : args) (config : json) : Prop :=
  read_json w (config_file a) = Parsed config /\ validate_config config = Ret config.

(** [config.get('global_settings', {})], [config['machines']] and
    [config['mqtt_broker']] of a configuration the loader accepts. *)
Definition settings_of (config : json) : json :=
  match Py.get config "global_settings" (JObj ∅) with
  | Ret global_settings => global_settings
  | Raise _ => JObj ∅
  end.

Definition machines_of (config : json) : list json :=
  match Py.getitem config "machines" with
  | Ret (JArr items) => items
  | _ => []
  end.

Definition broker_of (config : json) : json :=
  match Py.getitem config "mqtt_broker" with
  | Ret broker_config => broker_config
  | Raise _ => JNull
  end.

(** What [publisher.connect()] does on the publisher [main] creates. *)
Definition connecting {Sess} {BS : BrokerSession Sess} (w : world Sess) (a : args)
    (config : json) : result bool * Sess * list sevent :=
  session_connect (new_publisher w (broker_of config) (verbose a)).

(** The state in which the loop over the machines starts. *)
Definition loop_state {Sess} {BS : BrokerSession Sess} (w : world Sess) (a : args)
    (config : json) : state Sess :=
  if dry_run a then initial_state
  else {| publisher := Some (state_of (connecting w a config)); generator_runs := 0 |}.

(** The events of [main] before the loop starts. *)
Definition run_prologue {Sess} {BS : BrokerSession Sess} (w : world Sess) (a : args)
    (config : json) : list event :=
  (if verbose a then [EvPrint Stdout (MsgLoading (config_file a))] else [])
  ++ (if dry_run a then []
      else (if verbose a then [EvPrint Stdout MsgConnecting] else [])
           ++ EvConnect (result_of (connecting w a config))
              :: map EvSession (trace_of (connecting w a config))).

(** The loop of a run: [process_machines] over the configured machines. *)
Definition run_loop {Sess} {BS : BrokerSession Sess} (w : world Sess) (a : args)
    (config : json) : result Z * state Sess * list event :=
  process_machines w a (settings_of config)
    (Z.of_nat (List.length (machines_of config))) 1 (machines_of config) 0
    (loop_state w a config).

(** The run gets as far as the loop: a dry run, or a connection that is
    established. *)
Definition starts {Sess} {BS : BrokerSession Sess} (w : world Sess) (a : args)
    (config : json) : Prop :=
  dry_run a = true \/ result_of (connecting w a config) = Ret true.

(** ** Generation outcomes *)

(** The generator gives no payload: it exits with an error, prints something
    that is not JSON, or prints [null]. *)
Definition generation_fails {Sess} (w : world Sess) (k : nat) (machine_type : json) : Prop :=
  match run_generator w k machine_type with
  | CalledProcessError | Printed None | Printed (Some JNull) => True
  | _ => False
  end.


(** A computation that returns only values satisfying [Q]. *)
Definition yields {St Ev A} (Q : A -> Prop) (m : M St Ev A) : Prop :=
  forall s x s' t, m s = (Ret x, s', t) -> Q x.

(** A computation that raises only exceptions satisfying [P]. *)
Definition raises_only {St Ev A} (P : exn -> Prop) (m : M St Ev A) : Prop :=
  forall s e s' t, m s = (Raise e, s', t) -> P e.

(** The generator run number [k] prints, for the entry [machine_config], a
    record with the wrapper key and an asset id in it (the topic of the
    entry being a string). *)
Record generated {Sess} (w : world Sess) (k : nat) (machine_config : json) (j : job)
    : Prop := {
  generated_type : Py.getitem machine_config "type" = Ret (job_type j);
  generated_topic : Py.getitem machine_config "topic" = Ret (JStr (job_topic j));
  generated_payload :
    run_generator w k (job_type j) = Printed (Some (job_payload j));
  generated_inner : Py.getitem (job_payload j) wrapper_key = Ret (job_inner j);
  generated_asset_id : Py.getitem (job_inner j) "AssetId" = Ret (job_asset_id j)
}.

(** The generator run number [k] gives no payload for the entry. *)
Definition not_generated {Sess} (w : world Sess) (k : nat) (machine_config : json) : Prop :=
  exists machine_type topic,
    Py.getitem machine_config "type" = Ret machine_type
    /\ Py.getitem machine_config "topic" = Ret topic
    /\ generation_fails w k machine_type.





(** ** Sample runs *)

Module SampleRuns.

Import Sample.

Definition press_topic : string := "plant/line1/press".
Definition typed_topic : string := "plant/line1/press/MachineIdentificationType".

Definition one_press : json := config [machine "Press" press_topic] (settings 3 1).
Definition no_machines : json := config [] (settings 3 1).
Definition press_and_bogus : json :=
  config [machine "Press" typed_topic; machine "Bogus" press_topic] (settings 3 1).


(** A broker that accepts the connection and every message. *)
Definition willing : Stub.script := Stub.fails_then_succeeds 0.

(** A broker that refuses the connection. *)
Definition refusing : Stub.script :=
  {| Stub.connect_answer := false; Stub.publish_script := fun _ => true |}.



(** A paho network that acknowledges the connection during the first poll
    and message 1 during the first poll after its publication. *)
Definition friendly : MQTTPublisher.network :=
  {| MQTTPublisher.connect_raises := false;
     MQTTPublisher.publish_reply_of :=
       fun k => MQTTPublisher.MessageInfo 0 (Z.of_nat k + 1);
     MQTTPublisher.delivered :=
       fun k => match k with
                | 0%nat => [MQTTPublisher.OnConnect 0]
                | 2%nat => [MQTTPublisher.OnPublish 1]
                | _ => []
                end |}.

(** A world whose publisher is the MQTT one. *)
Definition mqtt_world (config : json) (n : MQTTPublisher.network)
    : world MQTTPublisher.t :=
  {| read_json := fun _ => Parsed config;
     run_generator := generator;
     new_publisher := MQTTPublisher.init n |}.

(** A generator whose records lack the wrapper key. *)
Definition bare_world : world Stub.t :=
  {| read_json := fun _ => Parsed one_press;
     run_generator := fun _ _ => Printed (Some (obj []));
     new_publisher := fun _ _ => Stub.init willing |}.

End SampleRuns.

(** ** Counting the events of a session *)

(** The sum of [f] over a trace, and computations on which it stays below a
    bound whatever happens. *)
Definition weigh {Ev} (f : Ev -> nat) (t : list Ev) : nat :=
  fold_right (fun e n => (f e + n)%nat) 0%nat t.

Definition weighs_le {St Ev A} (f : Ev -> nat) (n : nat) (m : M St Ev A) : Prop :=
  forall s, (weigh f (trace_of (m s)) <= n)%nat.


(** One for each [client.publish]. *)
Definition publish_request (e : sevent) : nat :=
  match e with SNet (NetPublish _ _ _ _) => 1%nat | _ => 0%nat end.




(** A message, and anything but a request to the client. *)
Definition printed (e : sevent) : Prop :=
  match e with SPrint _ _ => True | _ => False end.


(** A computation that leaves the component [f] of the state as it is. *)
Definition keeps {St Ev A B} (f : St -> B) (m : M St Ev A) : Prop :=
  forall s, f (state_of (m s)) = f s.

(** ** What the loader reports *)

(** The complaint about a defective entry at position [i]: the loader looks
    at the shape first, then for [type], then for [topic]. *)
Definition entry_complaint (i : nat) (machine : json) : config_error :=
  match machine with
  | JObj fields =>
      match fields !! "type" with
      | None => MachineMissingType i
      | Some _ => MachineMissingTopic i
      end
  | _ => MachineNotObject i
  end.

(** A value that has no [in]: [None], a boolean or a number. *)
Definition not_iterable (v : json) : Prop :=
  match v with
  | JNull | JBool _ | JNum _ => True
  | _ => False
  end.

(** ** The order of the jobs *)

(** The [type] of each entry, in order. *)
Definition types_of (machines : list json) : list json :=
  omap (fun machine => match Py.getitem machine "type" with
                       | Ret machine_type => Some machine_type
                       | Raise _ => None
                       end) machines.

(** Anything but a run of the generator. *)
Definition no_generation (e : event) : Prop := generate_of e = None.

(** ** How a run can end *)

(** An exception that ends the process with status 1: [sys.exit(1)], or
    anything the interpreter reports with a traceback. *)
Definition ends_with_one (e : exn) : Prop :=
  match e with
  | SystemExit code => code = 1
  | _ => True
  end.

(** ** The generator script *)

Module ScriptSpec.

Import GenerateSamplePayloads SamplePayloads.

(** One of the seven machine types of the script. *)
Definition known_type (machine_type : string) : Prop :=
  machine_type ∈ keys machine_types.

(** The clock never steps back between two readings. *)
Definition clock_runs (world : surroundings) : Prop :=
  forall i j : nat, (i <= j)%nat -> clock world i <= clock world j.

Fixpoint all_chars (p : ascii -> bool) (s : string) : bool :=
  match s with
  | EmptyString => true
  | String c rest => p c && all_chars p rest
  end.

(** A string of ASCII characters: on these [upper] and [lower] are what
    Python's are. *)
Definition ascii_only (s : string) : Prop :=
  all_chars (fun c => (nat_of_ascii c <? 128)%nat) s = true.

(** The field [k] of the record inside the wrapper. *)
Definition field (payload : json) (k : string) : option json :=
  match Py.getitem payload wrapper_key with
  | Ret inner =>
      match Py.getitem inner k with
      | Ret v => Some v
      | Raise _ => None
      end
  | Raise _ => None
  end.


(** A patch identifier: "PATCH-" and a number of three digits. *)
Definition patch_identifier (v : json) : Prop :=
  exists number, 100 <= number <= 999 /\ v = JStr ("PATCH-" +:+ str number).



(** A machine type that reaches the script as its first positional
    argument and on which [lower] is Python's: ASCII, without a NUL (which
    no argument can hold) and without a leading dash (which would make it
    an option). *)
Definition without_nul (s : string) : Prop :=
  all_chars (fun c => negb (Ascii.eqb c "000")) s = true.

Definition plain_argument (given : string) : Prop :=
  ascii_only given /\ without_nul given /\ String.prefix "-" given = false.

End ScriptSpec.

(** A record that names its machine: the asset id the publisher looks up
    is the topic in upper case, a dash and a number of four digits. *)
Definition identifies (mqtt_topic : string) (payload : json) : Prop :=
  exists asset_number,
    1000 <= asset_number <= 9999
    /\ asset_id_of payload
       = Ret (JStr (SamplePayloads.upper mqtt_topic +:+ "-" +:+ SamplePayloads.str asset_number)).

Module ScriptOutput.

Import SamplePayloads.

(** What the script prints for the payloads of one machine type, from
    number [i] on: a header before each payload when more than one was
    asked for. *)
Fixpoint type_output (display_name : string) (count i : Z) (payloads : list json)
    : list output :=
  match payloads with
  | [] => []
  | payload :: rest =>
      (if 1 <? count
       then [OutPrint Stdout (LinePayloadHeader display_name (i + 1) count)] else [])
      ++ OutPrint Stdout (LineJson payload)
      :: type_output display_name count (i + 1) rest
  end.




End ScriptOutput.

(** Sample surroundings of the script: a clock that ticks once per reading,
    draws that grow, a file system that obeys, and a calendar that prints
    the number of the day. *)
Module ScriptSample.

Import GenerateSamplePayloads SamplePayloads.

Definition surroundings : SamplePayloads.surroundings :=
  {| raw := fun k => 7919 * Z.of_nat k;
     clock := fun k => timedelta_days (2000 * 365) + Z.of_nat k;
     makedirs_raises := false;
     open_raises := fun _ => false |}.

Definition calendar : SamplePayloads.calendar :=
  {| isoformat := fun d => "day " +:+ str (days d);
     month := fun d => days d / 30 mod 12 + 1;
     year := fun d => days d / 365 |}.

Definition press_once : cli := {| machine_type := Some "PRESS"; count := 1 |}.

(** A publisher's world whose generator is the script. *)
Definition script_world (config : json) : world Stub.t :=
  {| read_json := fun _ => Parsed config;
     run_generator := Subprocess.run_script (fun _ => surroundings) calendar;
     new_publisher := fun _ _ => Stub.init SampleRuns.willing |}.

End ScriptSample.

(** * Properties *)

(** ** Dates of a generated record *)

Section DateFacts.

Import GenerateSamplePayloads.

Lemma day_pos : 0 < day.
Proof. reflexivity. Qed.

Lemma randint_range a b rnd :
  a <= b -> exists r, randint a b rnd = Ret r /\ a <= r <= b.
Proof.
  intros Hab. unfold randint.
  destruct (Z.ltb_spec b a) as [Hlt | _]; [lia |].
  eexists; split; [reflexivity |].
  pose proof (Z.mod_pos_bound rnd (b - a + 1)). lia.
Qed.

Lemma days_nonneg delta : 0 <= delta -> 0 <= days delta.
Proof. intros H. unfold days. apply Z.div_pos; [assumption | apply day_pos]. Qed.

Lemma days_below delta : timedelta_days (days delta) <= delta.
Proof.
  unfold timedelta_days, days. pose proof day_pos.
  rewrite Z.mul_comm. apply Z.mul_div_le. assumption.
Qed.

(** A draw of whole days out of the span that is left stays in the span. *)
Lemma random_days_within (earliest now rnd : Z) :
  earliest <= now ->
  exists r, randint 0 (days (now - earliest)) rnd = Ret r
            /\ earliest <= earliest + timedelta_days r <= now.
Proof.
  intros Hle.
  assert (Hspan : 0 <= now - earliest) by lia.
  destruct (randint_range 0 _ rnd (days_nonneg _ Hspan)) as (r & Hr & Hrange).
  exists r. split; [exact Hr |].
  pose proof (days_below (now - earliest)) as Hb. pose proof day_pos.
  assert (timedelta_days r <= timedelta_days (days (now - earliest)))
    by (unfold timedelta_days; nia).
  assert (0 <= timedelta_days r) by (unfold timedelta_days; nia).
  lia.
Qed.

Lemma construction_date_range now rnd :
  exists c, generate_construction_date now rnd = Ret c
            /\ now - timedelta_days (20 * 365) <= c <= now.
Proof.
  unfold generate_construction_date. cbv zeta.
  assert (Hle : now - timedelta_days (20 * 365) <= now)
    by (unfold timedelta_days, day; lia).
  destruct (random_days_within _ now rnd Hle) as (r & -> & Hr).
  simpl. eexists; split; [reflexivity | exact Hr].
Qed.

Lemma operation_date_range now rnd construction_date :
  construction_date <= now ->
  exists d, generate_operation_date now rnd construction_date = Ret d
            /\ construction_date <= d <= now.
Proof.
  intros Hc. unfold generate_operation_date. cbv zeta.
  destruct (Z.geb_spec (Z.max construction_date (now - timedelta_days (10 * 365))) now)
    as [_ | Hlt].
  - destruct (random_days_within construction_date now rnd Hc) as (r & -> & Hr).
    simpl. eexists; split; [reflexivity | lia].
  - destruct (random_days_within _ now rnd (Z.lt_le_incl _ _ Hlt)) as (r & -> & Hr).
    simpl. eexists; split; [reflexivity | lia].
Qed.

(** C10. [generate_operation_date] returns, for every random draw, a date
    between the construction date and the clock reading of the call, when
    the construction date is not after that reading; so the operation and
    software dates of a generated record (whose construction date was drawn
    at an earlier reading of the clock) are never before the construction
    date and never after the time they were generated at. *)
Theorem operation_dates_between_construction_and_now :
  (forall now rnd construction_date : Z,
      construction_date <= now ->
      exists d, generate_operation_date now rnd construction_date = Ret d
                /\ construction_date <= d <= now)
  /\ (forall now0 now1 now2 r0 r1 r2 : Z,
        now0 <= now1 -> now1 <= now2 ->
        exists c op sw,
          generate_dates now0 now1 now2 r0 r1 r2 = Ret (c, op, sw)
          /\ c <= op <= now1 /\ c <= sw <= now2).
Proof.
  split.
  - intros now rnd c Hc. apply operation_date_range; assumption.
  - intros now0 now1 now2 r0 r1 r2 H01 H12. unfold generate_dates.
    destruct (construction_date_range now0 r0) as (c & -> & Hc). simpl.
    destruct (operation_date_range now1 r1 c) as (op & -> & Hop); [lia |]. simpl.
    destruct (operation_date_range now2 r2 c) as (sw & -> & Hsw); [lia |]. simpl.
    exists c, op, sw. auto.
Qed.

(** A construction date of 100 days, read at 4000 days, with a draw of 7:
    the span starts 3650 days before the reading. *)
Lemma operation_dates_witness :
  (exists d, generate_operation_date (timedelta_days 4000) 7 (timedelta_days 100) = Ret d
             /\ timedelta_days 100 <= d <= timedelta_days 4000)
  /\ (exists c op sw,
        generate_dates (timedelta_days 8000) (timedelta_days 8000 + 5)
          (timedelta_days 8000 + 9) 11 12 13 = Ret (c, op, sw)
        /\ c <= op <= timedelta_days 8000 + 5 /\ c <= sw <= timedelta_days 8000 + 9).
Proof.
  split.
  - apply (proj1 operation_dates_between_construction_and_now). vm_compute. discriminate.
  - apply (proj2 operation_dates_between_construction_and_now); vm_compute; discriminate.
Defined.

End DateFacts.

(** ** The configuration loader *)

Section LoaderFacts.

Lemma has_obj k fields :
  Py.has k (JObj fields) = Ret (bool_decide (is_Some (fields !! k))).
Proof. reflexivity. Qed.

Lemma has_obj_true k fields :
  Py.has k (JObj fields) = Ret true <-> is_Some (fields !! k).
Proof.
  rewrite has_obj. split.
  - intros H. injection H as H. apply bool_decide_eq_true in H. exact H.
  - intros H. f_equal. apply bool_decide_eq_true. exact H.
Qed.

Lemma has_obj_false k fields :
  Py.has k (JObj fields) = Ret false <-> fields !! k = None.
Proof.
  rewrite has_obj. split.
  - intros H. injection H as H. apply bool_decide_eq_false in H.
    destruct (fields !! k) eqn:E; [exfalso; apply H; eauto | reflexivity].
  - intros H. f_equal. apply bool_decide_eq_false. rewrite H. intros [x Hx]. discriminate.
Qed.

Lemma check_machines_ok i machines :
  check_machines i machines = Ret tt -> Forall machine_entry_ok machines.
Proof.
  revert i. induction machines as [| machine rest IH]; intros i H; [constructor |].
  simpl in H. destruct machine as [| | | | |fields]; simpl in H; try discriminate.
  destruct (bool_decide (is_Some (fields !! "type"))) eqn:Etype; simpl in H; [| discriminate].
  destruct (bool_decide (is_Some (fields !! "topic"))) eqn:Etopic; simpl in H; [| discriminate].
  constructor; [| eapply IH; exact H].
  exists fields. repeat split.
  - apply bool_decide_eq_true in Etype. exact Etype.
  - apply bool_decide_eq_true in Etopic. exact Etopic.
Qed.

(** The entry checks raise nothing but the loader's own [ValueError]. *)
Lemma check_machines_total i machines :
  check_machines i machines = Ret tt
  \/ exists e, check_machines i machines = Raise (ConfigValueError e).
Proof.
  revert i. induction machines as [| machine rest IH]; intros i; [left; reflexivity |].
  simpl. destruct machine as [| | | | |fields]; simpl; eauto.
  destruct (bool_decide (is_Some (fields !! "type"))); simpl; eauto.
  destruct (bool_decide (is_Some (fields !! "topic"))); simpl; eauto.
Qed.




Lemma validate_config_checked config c :
  validate_config config = Ret c -> c = config /\ config_checked config.
Proof.
  unfold validate_config. intros H.
  destruct config as [| | | s | items |fields]; simpl in H; try discriminate.
  - destruct (Py.contains "mqtt_broker" s); simpl in H; [| discriminate].
    destruct (Py.contains "machines" s); simpl in H; discriminate.
  - destruct (existsb (Py.is_str "mqtt_broker") items); simpl in H; [| discriminate].
    destruct (existsb (Py.is_str "machines") items); simpl in H; discriminate.
  - destruct (bool_decide (is_Some (fields !! "mqtt_broker"))) eqn:Eb; simpl in H;
      [| discriminate].
    destruct (bool_decide (is_Some (fields !! "machines"))) eqn:Em; simpl in H;
      [| discriminate].
    destruct (fields !! "machines") as [machines |] eqn:Emachines; simpl in H;
      [| discriminate].
    destruct machines as [| | | | items |]; simpl in H; try discriminate.
    destruct (fields !! "mqtt_broker") as [broker_config |] eqn:Ebroker; simpl in H;
      [| discriminate].
    destruct (Py.has "host" broker_config) as [[|] |] eqn:Ehost; simpl in H;
      try discriminate.
    destruct (Py.has "port" broker_config) as [[|] |] eqn:Eport; simpl in H;
      try discriminate.
    destruct (check_machines 0 items) as [[] |] eqn:Eitems; simpl in H; [| discriminate].
    injection H as <-. split; [reflexivity |].
    exists fields, broker_config, items.
    repeat split; auto. eapply check_machines_ok; exact Eitems.
Qed.


End LoaderFacts.

(** ** Running a computation *)

Section MonadFacts.

Context {St Ev : Type}.

Lemma bind_Ret {A B} (m : M St Ev A) (k : A -> M St Ev B) s a s1 t1 :
  m s = (Ret a, s1, t1) ->
  bind m k s = (let '(r, s2, t2) := k a s1 in (r, s2, t1 ++ t2)).
Proof. intros H. unfold bind. rewrite H. reflexivity. Qed.

Lemma bind_Raise {A B} (m : M St Ev A) (k : A -> M St Ev B) s e s1 t1 :
  m s = (Raise e, s1, t1) -> bind m k s = (Raise e, s1, t1).
Proof. intros H. unfold bind. rewrite H. reflexivity. Qed.

End MonadFacts.

(** ** MQTTPublisher.publish *)

Section PublisherFacts.

Import MQTTPublisher PublisherSpec.

Lemma run_callback_effect c p :
  exists p' t, run_callback c p = (Ret tt, p', t) /\ callbacks_effect [c] p p'.
Proof.
  destruct c as [rc | m | rc]; simpl.
  - unfold on_connect. destruct (rc =? 0).
    + unfold bind, modify, gets, when, print, emit, ret. simpl.
      destruct (verbose p); simpl; eexists _, _; (split; [reflexivity |]);
        repeat split; auto.
    + unfold print, emit. eexists _, _; split; [reflexivity |]. repeat split; auto.
  - unfold on_publish, bind, modify, gets, when, print, emit, ret. simpl.
    destruct (verbose p); simpl; eexists _, _; (split; [reflexivity |]);
      repeat split; auto; intros mid; unfold acks; simpl; rewrite orb_false_r;
      destruct (Z.eqb_spec m mid) as [-> | Hne];
      [apply lookup_insert_eq | apply lookup_insert_ne; exact Hne
      | apply lookup_insert_eq | apply lookup_insert_ne; exact Hne].
  - unfold on_disconnect, bind, modify, gets, when, print, emit, ret. simpl.
    destruct (verbose p); simpl; eexists _, _; (split; [reflexivity |]);
      repeat split; auto.
Qed.

Lemma run_callbacks_effect cs p :
  exists p' t, run_callbacks cs p = (Ret tt, p', t) /\ callbacks_effect cs p p'.
Proof.
  revert p. induction cs as [| c rest IH]; intros p.
  - simpl. unfold ret. eexists _, _; split; [reflexivity |]. repeat split; auto.
  - simpl. unfold bind.
    destruct (run_callback_effect c p) as (p1 & t1 & -> & Hn1 & Hc1 & Hb1 & Hp1 & Hr1).
    destruct (IH p1) as (p2 & t2 & -> & Hn2 & Hc2 & Hb2 & Hp2 & Hr2).
    eexists _, _; split; [reflexivity |].
    repeat split; try congruence.
    intros mid. rewrite Hr2, Hr1. unfold acks. simpl. rewrite orb_false_r.
    destruct (existsb (is_ack mid) rest), (is_ack mid c); reflexivity.
Qed.

Lemma background_effect p :
  exists p' t,
    background p = (Ret tt, p', t)
    /\ net p' = net p /\ broker_config p' = broker_config p
    /\ blocking_calls p' = S (blocking_calls p)
    /\ publish_calls p' = publish_calls p
    /\ forall mid, publish_results p' !! mid =
                   if acks mid (delivered (net p) (blocking_calls p))
                   then Some true else publish_results p !! mid.
Proof.
  unfold background, bind, gets, modify. simpl.
  destruct (run_callbacks_effect (delivered (net p) (blocking_calls p))
              (count_blocking_call p))
    as (p' & t & -> & Hn & Hc & Hb & Hp & Hr).
  eexists _, _; split; [reflexivity |]. repeat split; auto.
Qed.

Lemma read_publish_result_Some mid p b :
  publish_results p !! mid = Some b -> read_publish_result mid p = (Ret b, p, []).
Proof. intros H. unfold read_publish_result, bind, gets. rewrite H. reflexivity. Qed.

Lemma sleep_tenth_effect p :
  exists p' t,
    sleep_tenth p = (Ret tt, p', t)
    /\ net p' = net p /\ broker_config p' = broker_config p
    /\ blocking_calls p' = S (blocking_calls p)
    /\ publish_calls p' = publish_calls p
    /\ forall mid, publish_results p' !! mid =
                   if acks mid (delivered (net p) (blocking_calls p))
                   then Some true else publish_results p !! mid.
Proof.
  destruct (background_effect p) as (p' & t & Hrun & Hrest).
  unfold sleep_tenth. erewrite bind_Ret by reflexivity. rewrite Hrun.
  eexists _, _; split; [reflexivity | exact Hrest].
Qed.

Lemma wait_published_effect mid budget p b0 :
  publish_results p !! mid = Some b0 ->
  exists p' t,
    wait_published mid budget p = (Ret tt, p', t)
    /\ publish_results p' !! mid
       = Some (b0 || acked_within (net p) mid (blocking_calls p) budget).
Proof.
  revert p b0. induction budget as [| r IH]; intros p b0 Hb0.
  - simpl. erewrite bind_Ret by (apply read_publish_result_Some; exact Hb0).
    destruct b0; eexists _, _; (split; [reflexivity |]); rewrite Hb0; reflexivity.
  - simpl. erewrite bind_Ret by (apply read_publish_result_Some; exact Hb0).
    destruct b0.
    + eexists _, _; split; [reflexivity | exact Hb0].
    + destruct (sleep_tenth_effect p) as (p1 & t1 & Hsleep & Hn & _ & Hb & _ & Hr).
      erewrite bind_Ret by exact Hsleep.
      specialize (Hr mid). rewrite Hb0 in Hr.
      assert (Hr' : publish_results p1 !! mid
                    = Some (acks mid (delivered (net p) (blocking_calls p))))
        by (rewrite Hr; destruct (acks _ _); reflexivity).
      destruct (IH p1 _ Hr') as (p2 & t2 & -> & Hres).
      eexists _, _; split; [reflexivity |].
      rewrite Hres, Hn, Hb. reflexivity.
Qed.

Lemma client_publish_effect topic payload qos retain p :
  exists p' t,
    client_publish topic payload qos retain p
    = (match publish_reply_of (net p) (publish_calls p) with
       | PublishRaises => Raise OtherException
       | MessageInfo rc mid => Ret (rc, mid)
       end, p', t)
    /\ net p' = net p /\ blocking_calls p' = S (blocking_calls p).
Proof.
  unfold client_publish.
  erewrite bind_Ret by reflexivity.
  erewrite bind_Ret by reflexivity.
  erewrite bind_Ret by reflexivity.
  erewrite bind_Ret by reflexivity.
  destruct (background_effect (count_publish_call p))
    as (p1 & t1 & Hrun & Hn & _ & Hb & _ & _).
  erewrite bind_Ret by exact Hrun.
  destruct (publish_reply_of (net p) (publish_calls p)) as [| rc mid];
    eexists _, _; (split; [reflexivity |]); split; assumption.
Qed.

Lemma timeout_tenths_raises timeout e :
  timeout_tenths timeout = Raise e -> is_Exception e = true.
Proof.
  unfold timeout_tenths. destruct timeout; simpl; intros H; try discriminate;
    injection H as <-; reflexivity.
Qed.

(** The body of the [try] returns the outcome, or raises something the
    handler catches when the outcome is [false]. *)
Lemma publish_body_outcome topic payload timeout p :
  connected p = true ->
  exists r p' t,
    publish_body topic payload timeout p = (r, p', t)
    /\ (r = Ret (publish_outcome p timeout)
        \/ exists e, r = Raise e /\ is_Exception e = true
                     /\ publish_outcome p timeout = false).
Proof.
  intros Hconn. unfold publish_body, publish_outcome. rewrite Hconn. simpl.
  erewrite bind_Ret by reflexivity.
  destruct (broker_config p) as [| | | | |cfg] eqn:Ecfg; simpl;
    try (eexists _, _, _; split; [reflexivity |]; right; eexists; repeat split; fail).
  erewrite bind_Ret by reflexivity.
  erewrite bind_Ret by reflexivity.
  destruct (client_publish_effect topic payload
              (default (JNum 0) (cfg !! "qos")) (default (JBool false) (cfg !! "retain")) p)
    as (p1 & t1 & Hpub & Hn & Hb).
  destruct (publish_reply_of (net p) (publish_calls p)) as [| rc mid].
  { erewrite bind_Raise by exact Hpub.
    eexists _, _, _; split; [reflexivity |]. right; eexists; repeat split. }
  erewrite bind_Ret by exact Hpub. cbv beta iota.
  destruct (rc =? 0); simpl.
  2: { eexists _, _, _; split; [reflexivity |]. left; reflexivity. }
  erewrite bind_Ret by reflexivity.
  destruct (timeout_tenths timeout) as [budget | e] eqn:Etimeout.
  2: { erewrite bind_Raise by reflexivity.
       eexists _, _, _; split; [reflexivity |]. right; eexists; repeat split.
       eapply timeout_tenths_raises; exact Etimeout. }
  erewrite bind_Ret by reflexivity.
  assert (Hfalse : publish_results (set_publish_result mid false p1) !! mid = Some false)
    by apply lookup_insert_eq.
  destruct (wait_published_effect mid budget _ false Hfalse) as (p2 & t2 & Hwait & Hres).
  erewrite bind_Ret by exact Hwait.
  erewrite bind_Ret by (apply read_publish_result_Some; exact Hres).
  simpl in *. rewrite Hn, Hb.
  destruct (acked_within (net p) mid (S (blocking_calls p)) budget).
  - eexists _, _, _; split; [reflexivity |]. left; reflexivity.
  - erewrite bind_Ret by reflexivity.
    eexists _, _, _; split; [reflexivity |]. left; reflexivity.
Qed.

Lemma publish_returns topic payload timeout p :
  exists p' t,
    publish topic payload timeout p = (Ret (publish_outcome p timeout), p', t).
Proof.
  unfold publish. erewrite bind_Ret by reflexivity.
  destruct (connected p) eqn:Hconn; simpl.
  - destruct (publish_body_outcome topic payload timeout p Hconn)
      as (r & p1 & t1 & Hbody & [-> | (e & -> & He & Hout)]);
      unfold except_Exception; rewrite Hbody.
    + eexists _, _; reflexivity.
    + rewrite He, Hout. erewrite bind_Ret by reflexivity.
      eexists _, _; reflexivity.
  - unfold publish_outcome. rewrite Hconn. simpl.
    eexists _, _; reflexivity.
Qed.




End PublisherFacts.

Section PublishContract.

Import MQTTPublisher PublisherSpec.


End PublishContract.

(** ** The loop over the machines: events and publisher *)

Section StaysFacts.

Context {Sess : Type} {BS : BrokerSession Sess}.
Variable w : world Sess.
Variable a : args.

Lemma stays_ret {A} dry (x : A) : stays dry (ret x : M (state Sess) event A).
Proof. intros s. split; [constructor | reflexivity]. Qed.

Lemma stays_raise {A} dry e : stays dry (raise e : M (state Sess) event A).
Proof. intros s. split; [constructor | reflexivity]. Qed.

Lemma stays_lift {A} dry (r : result A) : stays dry (lift r : M (state Sess) event A).
Proof. intros s. split; [constructor | reflexivity]. Qed.

Lemma stays_gets {A} dry (f : state Sess -> A) : stays dry (gets f).
Proof. intros s. split; [constructor | reflexivity]. Qed.

Lemma stays_print dry st m : stays dry (print st m : M (state Sess) event unit).
Proof. intros s. split; [repeat constructor | reflexivity]. Qed.

Lemma stays_bind {A B} dry (m : M (state Sess) event A) (k : A -> M (state Sess) event B) :
  stays dry m -> (forall x, stays dry (k x)) -> stays dry (bind m k).
Proof.
  intros Hm Hk s. specialize (Hm s). unfold bind.
  destruct (m s) as [[[x | e] s1] t1]; unfold trace_of, state_of in *; simpl in *.
  - specialize (Hk x s1). destruct (k x s1) as [[r s2] t2].
    unfold trace_of, state_of in *; simpl in *.
    destruct Hm as [Ht1 Hs1], Hk as [Ht2 Hs2].
    split; [apply Forall_app; auto | rewrite Hs2; exact Hs1].
  - exact Hm.
Qed.

Lemma stays_when dry b (m : M (state Sess) event unit) :
  stays dry m -> stays dry (when b m).
Proof. intros Hm. destruct b; [exact Hm | apply stays_ret]. Qed.

Lemma stays_generate dry machine_type :
  stays dry (generate_machine_payload w machine_type).
Proof.
  unfold generate_machine_payload.
  apply stays_bind; [apply stays_gets | intros k].
  apply stays_bind; [intros s; split; [constructor | reflexivity] | intros _].
  apply stays_bind; [intros s; split; [repeat constructor | reflexivity] | intros _].
  destruct (run_generator w k machine_type) as [| [payload |] |].
  - apply stays_bind; [apply stays_print | intros _; apply stays_ret].
  - apply stays_ret.
  - apply stays_bind; [apply stays_print | intros _; apply stays_ret].
  - apply stays_raise.
Qed.

Lemma stays_publish topic payload timeout :
  stays false (publisher_publish topic payload timeout).
Proof.
  intros s. unfold publisher_publish.
  destruct (publisher s) as [p |] eqn:Hp.
  - destruct (session_publish topic payload timeout p) as [[r p'] t].
    unfold trace_of, state_of; simpl. split.
    + constructor; [reflexivity |]. apply Forall_forall. intros e He.
      apply list_elem_of_fmap in He as (se & -> & _). reflexivity.
    + split; discriminate.
  - unfold trace_of, state_of; simpl. split; [constructor | rewrite Hp; reflexivity].
Qed.

Lemma stays_sleep seconds : stays false (time_sleep seconds : M (state Sess) event unit).
Proof.
  unfold time_sleep. apply stays_bind; [apply stays_lift | intros n].
  destruct (n <? 0); [apply stays_raise |].
  intros s. split; [repeat constructor | reflexivity].
Qed.

Lemma stays_retry_loop machine_type topic payload publish_payload
    publish_timeout retry_attempts retry_delay n attempts successful :
  stays false (retry_loop a machine_type topic payload publish_payload
                 publish_timeout retry_attempts retry_delay n attempts successful).
Proof.
  revert successful. induction attempts as [| attempt rest IH]; intros successful; simpl.
  - apply stays_ret.
  - apply stays_bind; [apply stays_when, stays_print | intros _].
    apply stays_bind; [apply stays_publish | intros ok].
    destruct ok.
    + apply stays_bind; [apply stays_lift | intros asset_id].
      apply stays_bind; [apply stays_lift | intros removed].
      apply stays_bind; [destruct (verbose a); apply stays_print | intros _].
      apply stays_ret.
    + apply stays_bind; [| intros _; apply IH].
      destruct (attempt <? n - 1); [apply stays_sleep | apply stays_ret].
Qed.

Lemma stays_process_machine global_settings total i machine_config successful :
  stays (dry_run a)
    (process_machine w a global_settings total i machine_config successful).
Proof.
  unfold process_machine.
  apply stays_bind; [apply stays_lift | intros machine_type].
  apply stays_bind; [apply stays_lift | intros topic].
  apply stays_bind; [apply stays_when, stays_print | intros _].
  apply stays_bind; [apply stays_generate | intros payload].
  destruct payload;
    (apply stays_bind; [first [apply stays_print | apply stays_lift] | intros ?]);
    try apply stays_ret;
    (destruct (dry_run a);
     [ apply stays_bind; [apply stays_lift | intros ?];
       apply stays_bind; [apply stays_lift | intros ?];
       apply stays_bind; [apply stays_print | intros _; apply stays_ret]
     | apply stays_bind; [apply stays_lift | intros ?];
       apply stays_bind; [apply stays_lift | intros ?];
       apply stays_bind; [apply stays_lift | intros ?];
       apply stays_bind; [apply stays_lift | intros ?];
       apply stays_bind; [apply stays_retry_loop | intros [successful' published]];
       apply stays_bind; [apply stays_when, stays_print | intros _; apply stays_ret] ]).
Qed.

Lemma stays_process_machines global_settings total i machines successful :
  stays (dry_run a)
    (process_machines w a global_settings total i machines successful).
Proof.
  revert i successful. induction machines as [| machine rest IH]; intros i successful; simpl.
  - apply stays_ret.
  - apply stays_bind; [apply stays_process_machine | intros s'; apply IH].
Qed.

Lemma stays_summarize total successful :
  stays (dry_run a) (summarize a total successful : M (state Sess) event unit).
Proof.
  unfold summarize.
  apply stays_bind.
  - apply stays_when.
    repeat (apply stays_bind; [apply stays_print | intros _]). apply stays_print.
  - intros _. destruct (successful =? 0).
    + apply stays_bind; [apply stays_print | intros _; apply stays_raise].
    + destruct (successful <? total).
      * apply stays_bind; [apply stays_print | intros _; apply stays_raise].
      * apply stays_when, stays_print.
Qed.

Lemma stays_main_try config global_settings :
  stays (dry_run a) (main_try w a config global_settings).
Proof.
  unfold main_try.
  apply stays_bind; [apply stays_lift | intros machines].
  apply stays_bind; [apply stays_lift | intros items].
  apply stays_bind; [apply stays_process_machines | intros successful].
  apply stays_summarize.
Qed.

End StaysFacts.

(** ** The retry loop *)

Section RetryFacts.

Context {Sess : Type} {BS : BrokerSession Sess}.
Variable w : world Sess.
Variable a : args.

Lemma attempts_le_weaken {A} n n' (m : M (state Sess) event A) :
  (n <= n')%nat -> attempts_le n m -> attempts_le n' m.
Proof. intros Hle Hm s. specialize (Hm s). lia. Qed.

Lemma attempts_le_ret {A} (x : A) : attempts_le 0 (ret x : M (state Sess) event A).
Proof. intros s. reflexivity. Qed.

Lemma attempts_le_raise {A} e : attempts_le 0 (raise e : M (state Sess) event A).
Proof. intros s. reflexivity. Qed.

Lemma attempts_le_lift {A} (r : result A) :
  attempts_le 0 (lift r : M (state Sess) event A).
Proof. intros s. reflexivity. Qed.

Lemma attempts_le_print st m : attempts_le 0 (print st m : M (state Sess) event unit).
Proof. intros s. reflexivity. Qed.

Lemma attempts_le_when n b (m : M (state Sess) event unit) :
  attempts_le n m -> attempts_le n (when b m).
Proof.
  intros Hm. destruct b; [exact Hm |].
  apply (attempts_le_weaken 0); [lia | apply attempts_le_ret].
Qed.

Lemma attempts_in_app t1 t2 :
  attempts_in (t1 ++ t2) = (attempts_in t1 + attempts_in t2)%nat.
Proof. unfold attempts_in, published_in. rewrite omap_app, length_app. reflexivity. Qed.

Lemma attempts_le_bind {A B} n1 n2
    (m : M (state Sess) event A) (k : A -> M (state Sess) event B) :
  attempts_le n1 m -> (forall x, returns m x -> attempts_le n2 (k x)) ->
  attempts_le (n1 + n2) (bind m k).
Proof.
  intros Hm Hk s. specialize (Hm s). unfold bind.
  destruct (m s) as [[[x | e] s1] t1] eqn:Hrun; unfold trace_of in *; simpl in *.
  - assert (Hret : returns m x) by (exists s, s1, t1; exact Hrun).
    specialize (Hk x Hret s1). destruct (k x s1) as [[r s2] t2]. simpl in *.
    rewrite attempts_in_app. unfold trace_of in Hk. simpl in Hk. lia.
  - lia.
Qed.

Lemma returns_lift {A} (r : result A) x :
  returns (lift r : M (state Sess) event A) x -> r = Ret x.
Proof. intros (s & s' & t & H). unfold lift in H. congruence. Qed.

Lemma attempts_le_sleep seconds :
  attempts_le 0 (time_sleep seconds : M (state Sess) event unit).
Proof.
  intros s. unfold time_sleep, bind, lift.
  destruct (Py.index seconds) as [n | e]; [| reflexivity].
  destruct (n <? 0); reflexivity.
Qed.

Lemma published_in_session (t : list sevent) : published_in (map EvSession t) = [].
Proof. induction t as [| e t IH]; [reflexivity | exact IH]. Qed.

Lemma timeline_session (t : list sevent) : timeline (map EvSession t) = [].
Proof. induction t as [| e t IH]; [reflexivity | exact IH]. Qed.

Lemma attempts_le_publish topic payload timeout :
  attempts_le 1 (publisher_publish topic payload timeout).
Proof.
  intros s. unfold publisher_publish.
  destruct (publisher s) as [p |]; [| unfold trace_of, attempts_in; simpl; lia].
  destruct (session_publish topic payload timeout p) as [[r p'] t].
  unfold trace_of, attempts_in. simpl.
  change (omap attempt_of (map EvSession t)) with (published_in (map EvSession t)).
  rewrite published_in_session. reflexivity.
Qed.

Lemma attempts_le_retry_loop machine_type topic payload publish_payload
    publish_timeout retry_attempts retry_delay n attempts successful :
  attempts_le (List.length attempts)
    (retry_loop a machine_type topic payload publish_payload
       publish_timeout retry_attempts retry_delay n attempts successful).
Proof.
  revert successful. induction attempts as [| attempt rest IH]; intros successful; simpl.
  - apply attempts_le_ret.
  - change (S (List.length rest)) with (0 + (1 + List.length rest))%nat.
    apply attempts_le_bind; [apply attempts_le_when, attempts_le_print | intros _ _].
    apply attempts_le_bind; [apply attempts_le_publish | intros ok _].
    destruct ok.
    + apply (attempts_le_weaken 0); [lia |].
      change 0%nat with (0 + (0 + (0 + 0)))%nat.
      apply attempts_le_bind; [apply attempts_le_lift | intros asset_id _].
      apply attempts_le_bind; [apply attempts_le_lift | intros removed _].
      apply attempts_le_bind; [| intros _ _; apply attempts_le_ret].
      destruct (verbose a); apply attempts_le_print.
    + change (List.length rest) with (0 + List.length rest)%nat.
      apply attempts_le_bind; [| intros _ _; apply IH].
      destruct (attempt <? n - 1); [apply attempts_le_sleep | apply attempts_le_ret].
Qed.

Lemma length_range n : List.length (Py.range n) = Z.to_nat n.
Proof. unfold Py.range. rewrite length_map, length_seq. reflexivity. Qed.

Lemma attempts_le_generate machine_type :
  attempts_le 0 (generate_machine_payload w machine_type).
Proof.
  intros s. unfold generate_machine_payload, bind, gets, modify, emit. simpl.
  destruct (run_generator w (generator_runs s) machine_type) as [| [payload |] |];
    reflexivity.
Qed.

(** A job never calls [publish] more often than the settings allow. *)
Lemma attempts_le_process_machine global_settings total i machine_config successful :
  attempts_le (retry_budget global_settings)
    (process_machine w a global_settings total i machine_config successful).
Proof.
  unfold process_machine.
  apply (attempts_le_bind 0); [apply attempts_le_lift | intros machine_type _].
  apply (attempts_le_bind 0); [apply attempts_le_lift | intros topic _].
  apply (attempts_le_bind 0); [apply attempts_le_when, attempts_le_print | intros _ _].
  apply (attempts_le_bind 0); [apply attempts_le_generate | intros payload _].
  destruct payload;
    (apply (attempts_le_bind 0);
     [first [apply attempts_le_print | apply attempts_le_lift] | intros ? _]);
    try (apply (attempts_le_weaken 0); [lia | apply attempts_le_ret]);
    (destruct (dry_run a);
     [ apply (attempts_le_weaken (0 + (0 + (0 + 0)))); [lia |];
       apply attempts_le_bind; [apply attempts_le_lift | intros ? _];
       apply attempts_le_bind; [apply attempts_le_lift | intros ? _];
       apply attempts_le_bind; [apply attempts_le_print | intros _ _; apply attempts_le_ret]
     | apply (attempts_le_bind 0); [apply attempts_le_lift | intros ? _];
       apply (attempts_le_bind 0); [apply attempts_le_lift | intros retry_attempts Hra];
       apply (attempts_le_bind 0); [apply attempts_le_lift | intros ? _];
       apply (attempts_le_bind 0); [apply attempts_le_lift | intros k Hk];
       apply returns_lift in Hra; apply returns_lift in Hk;
       unfold retry_budget; rewrite Hra, Hk;
       rewrite <- (length_range k), <- (Nat.add_0_r (List.length (Py.range k)));
       apply attempts_le_bind; [apply attempts_le_retry_loop | intros [? ?] _];
       change 0%nat with (0 + 0)%nat;
       apply attempts_le_bind;
         [apply attempts_le_when, attempts_le_print | intros _ _; apply attempts_le_ret] ]).
Qed.

End RetryFacts.

(** ** The shape of a retried publication *)

Lemma timeline_app t1 t2 : timeline (t1 ++ t2) = timeline t1 ++ timeline t2.
Proof. apply omap_app. Qed.

Lemma timeline_cons e t :
  timeline (e :: t)
  = match tick_of e with Some k => k :: timeline t | None => timeline t end.
Proof. reflexivity. Qed.

Lemma timeline_nil : timeline [] = [].
Proof. reflexivity. Qed.

Ltac timeline_simpl :=
  repeat (rewrite ?timeline_app, ?timeline_cons, ?timeline_nil, ?timeline_session,
            ?app_nil_r; cbn [tick_of app]).

Section RetryShape.

Context {Sess : Type} {BS : BrokerSession Sess}.
Variable w : world Sess.
Variable a : args.

Lemma when_print_run b st m (s : state Sess) :
  exists t, when b (print st m) s = (Ret tt, s, t) /\ timeline t = [].
Proof. destruct b; eexists; split; reflexivity. Qed.

Lemma publisher_publish_run topic payload timeout (s : state Sess) p r p' t :
  publisher s = Some p ->
  session_publish topic payload timeout p = (r, p', t) ->
  publisher_publish topic payload timeout s
  = (r, set_publisher (Some p') s, EvPublish topic payload timeout r :: map EvSession t).
Proof. intros Hp Hrun. unfold publisher_publish. rewrite Hp, Hrun. reflexivity. Qed.

Lemma time_sleep_run seconds d (s : state Sess) :
  Py.index seconds = Ret d -> 0 <= d ->
  time_sleep seconds s = (Ret tt, s, [EvSleep d]).
Proof.
  intros Hd Hpos. unfold time_sleep, bind, lift. rewrite Hd.
  destruct (Z.ltb_spec d 0); [lia | reflexivity].
Qed.

Section Job.

Variables machine_type topic payload publish_payload : json.
Variables publish_timeout retry_attempts retry_delay : json.
Variables (asset_id : json) (removed : bool) (delay : Z).

Hypothesis session_ok : session_total Sess.
Hypothesis payload_ok : asset_id_of payload = Ret asset_id.
Hypothesis topic_ok : Py.endswith topic wrapper_key = Ret removed.
Hypothesis delay_ok : Py.index retry_delay = Ret delay.
Hypothesis delay_pos : 0 <= delay.

Local Abbreviation loop :=
  (retry_loop a machine_type topic payload publish_payload
     publish_timeout retry_attempts retry_delay).

(** The success branch of the loop body. *)
Lemma published_branch_run successful (s : state Sess) :
  exists t,
    bind (lift (asset_id_of payload)) (fun asset_id =>
      bind (lift (Py.endswith topic wrapper_key)) (fun removed =>
        bind (if verbose a
              then print Stdout (MsgPublishedVerbose machine_type asset_id topic removed)
              else print Stdout (MsgPublished machine_type topic))
             (fun _ => ret (successful + 1, true)))) s
    = (Ret (successful + 1, true), s, t)
    /\ timeline t = [].
Proof.
  rewrite payload_ok, topic_ok. unfold bind, lift. simpl.
  destruct (verbose a); eexists; split; reflexivity.
Qed.

(** With [budget] attempts to go after the first [tried] ones, the loop
    returns and its attempts and pauses are as the specification says. *)
Lemma retry_loop_retried budget tried successful (s : state Sess) :
  is_Some (publisher s) ->
  exists (published : bool) s' t,
    loop (Z.of_nat (tried + budget)) (map Z.of_nat (seq tried budget)) successful s
    = (Ret (successful + (if published then 1 else 0), published), s', t)
    /\ retried delay budget (timeline t) published
    /\ is_Some (publisher s').
Proof.
  revert tried s. induction budget as [| budget IH]; intros tried s Hpub.
  - exists false, s, []. simpl. rewrite Z.add_0_r.
    split; [reflexivity |]. split; [constructor | exact Hpub].
  - simpl.
    destruct (when_print_run (verbose a && (0 <? Z.of_nat tried))
                Stdout (MsgRetry (Z.of_nat tried + 1) retry_attempts) s)
      as (tw & Hwhen & Htw).
    simpl. erewrite bind_Ret by exact Hwhen.
    destruct Hpub as [p Hp].
    destruct (session_publish topic publish_payload publish_timeout p)
      as [[r p'] tp] eqn:Hsession.
    destruct (publish_total Sess session_ok topic publish_payload publish_timeout p)
      as [ok Hok].
    rewrite Hsession in Hok. unfold result_of in Hok. simpl in Hok. subst r.
    erewrite bind_Ret by (eapply publisher_publish_run; eassumption).
    destruct ok.
    + destruct (published_branch_run successful (set_publisher (Some p') s))
        as (tb & -> & Htb).
      exists true. eexists _, _. split; [reflexivity |].
      split; [| simpl; eauto].
      timeline_simpl. rewrite Htw, Htb. apply retried_success.
    + destruct budget as [| budget'].
      * destruct (Z.ltb_spec (Z.of_nat tried) (Z.of_nat (tried + 1) - 1)); [lia |].
        erewrite bind_Ret by reflexivity. simpl.
        exists false. eexists _, _. rewrite Z.add_0_r. split; [reflexivity |].
        split; [| simpl; eauto].
        timeline_simpl. rewrite Htw. apply retried_exhausted.
      * destruct (Z.ltb_spec (Z.of_nat tried) (Z.of_nat (tried + S (S budget')) - 1));
          [| lia].
        erewrite bind_Ret by (apply time_sleep_run; [exact delay_ok | exact delay_pos]).
        destruct (IH (S tried) (set_publisher (Some p') s)) as (pb & s' & t & Hrun & Hshape & Hs');
          [simpl; eauto |].
        replace (Z.of_nat (S tried + S budget')) with (Z.of_nat (tried + S (S budget')))
          in Hrun by lia.
        rewrite Hrun.
        exists pb. eexists _, _. split; [reflexivity |]. split; [| exact Hs'].
        timeline_simpl. rewrite Htw. apply retried_again. exact Hshape.
Qed.

End Job.

(** What [retried] says, spelled out: nothing at all for an empty budget;
    otherwise some failures, each followed by one pause of [delay] seconds,
    and a last attempt with no pause after it, which is the only one that
    can have succeeded; the loop gives up only when the budget is used up. *)
Lemma retried_spelled_out delay budget ticks published :
  retried delay budget ticks published ->
  (budget = 0%nat /\ ticks = [] /\ published = false)
  \/ exists failures,
       ticks = failures_then delay failures [Attempt (Ret published)]
       /\ (failures < budget)%nat
       /\ (published = false -> S failures = budget).
Proof.
  induction 1 as [| budget | | budget rest published H IH].
  - left. auto.
  - right. exists 0%nat. repeat split; [lia | discriminate].
  - right. exists 0%nat. repeat split; lia.
  - right. destruct IH as [(Hb & _) | (failures & -> & Hlt & Hlast)]; [discriminate |].
    exists (S failures). repeat split; [lia | intros Hp; specialize (Hlast Hp); lia].
Qed.

End RetryShape.

(** ** One job in live mode *)

Section LiveJob.

Context {Sess : Type} {BS : BrokerSession Sess}.
Variable w : world Sess.
Variable a : args.
Variables (global_settings machine_config : json) (total i : Z).
Variable j : job.
Variable s : state Sess.
Hypothesis live : dry_run a = false.
Hypothesis job_ready : ready w s global_settings machine_config j.

Lemma ready_asset_id_of : asset_id_of (job_payload j) = Ret (job_asset_id j).
Proof.
  unfold asset_id_of. rewrite (ready_inner _ _ _ _ _ job_ready). simpl.
  apply (ready_asset_id _ _ _ _ _ job_ready).
Qed.

Lemma ready_publish_payload :
  publish_payload_for (JStr (job_topic j)) (job_payload j) = Ret (job_publish_payload j).
Proof.
  unfold publish_payload_for, job_publish_payload. simpl.
  destruct (Py.str_endswith (job_topic j) wrapper_key); [| reflexivity].
  apply (ready_inner _ _ _ _ _ job_ready).
Qed.

Lemma ready_payload_not_null : job_payload j <> JNull.
Proof.
  intros Hnull. pose proof (ready_inner _ _ _ _ _ job_ready) as H.
  rewrite Hnull in H. discriminate.
Qed.

Lemma generate_run :
  generate_machine_payload w (job_type j) s
  = (Ret (job_payload j), count_generator_run s, [EvGenerate (job_type j)]).
Proof.
  unfold generate_machine_payload, bind, gets, modify, emit. simpl.
  rewrite (ready_generated _ _ _ _ _ job_ready). reflexivity.
Qed.

(** The job is its retry loop, between a prologue and an epilogue. *)
Lemma process_machine_live successful successful' published s' t :
  retry_loop a (job_type j) (JStr (job_topic j)) (job_payload j) (job_publish_payload j)
    (job_timeout j) (job_retry_attempts j) (job_retry_delay j)
    (job_budget j) (Py.range (job_budget j)) successful (count_generator_run s)
  = (Ret (successful', published), s', t) ->
  process_machine w a global_settings total i machine_config successful s
  = (Ret successful', s', job_prologue a total i j ++ t ++ job_epilogue j published).
Proof.
  intros Hloop. unfold process_machine.
  rewrite (ready_type _ _ _ _ _ job_ready), (ready_topic _ _ _ _ _ job_ready).
  erewrite bind_Ret by reflexivity.
  erewrite bind_Ret by reflexivity.
  assert (Hwhen : when (verbose a)
                    (print Stdout (MsgProcessing i total (job_type j))) s
                  = (Ret tt, s,
                     if verbose a
                     then [EvPrint Stdout (MsgProcessing i total (job_type j))] else []))
    by (destruct (verbose a); reflexivity).
  erewrite bind_Ret by exact Hwhen.
  erewrite bind_Ret by exact generate_run.
  pose proof ready_payload_not_null as Hnn.
  destruct (job_payload j) eqn:Hpayload; try congruence;
    rewrite <- Hpayload in *;
    rewrite ready_publish_payload;
    (erewrite bind_Ret by reflexivity); cbv beta; rewrite live;
    rewrite (ready_timeout _ _ _ _ _ job_ready);
    (erewrite bind_Ret by reflexivity); cbv beta;
    rewrite (ready_retry_attempts _ _ _ _ _ job_ready);
    (erewrite bind_Ret by reflexivity); cbv beta;
    rewrite (ready_retry_delay _ _ _ _ _ job_ready);
    (erewrite bind_Ret by reflexivity); cbv beta;
    rewrite (ready_budget _ _ _ _ _ job_ready);
    (erewrite bind_Ret by reflexivity); cbv beta;
    (erewrite bind_Ret by exact Hloop);
    unfold job_prologue, job_epilogue;
    destruct published; simpl; rewrite ?app_nil_r, <- ?app_assoc; reflexivity.
Qed.

End LiveJob.

(** ** Retrying against the scripted session *)

Section StubRetry.

Variable w : world Stub.t.
Variable a : args.
Variables machine_type topic payload publish_payload : json.
Variables publish_timeout retry_attempts retry_delay : json.
Variables (asset_id : json) (removed : bool) (delay : Z) (fails : nat).

Hypothesis payload_ok : asset_id_of payload = Ret asset_id.
Hypothesis topic_ok : Py.endswith topic wrapper_key = Ret removed.
Hypothesis delay_ok : Py.index retry_delay = Ret delay.
Hypothesis delay_pos : 0 <= delay.

Local Abbreviation loop :=
  (retry_loop a machine_type topic payload publish_payload
     publish_timeout retry_attempts retry_delay).

Lemma stub_publish_run (s : state Stub.t) calls :
  stub_at fails calls s ->
  exists s',
    publisher_publish topic publish_payload publish_timeout s
    = (Ret (fails <=? calls)%nat, s',
       [EvPublish topic publish_payload publish_timeout (Ret (fails <=? calls)%nat)])
    /\ stub_at fails (S calls) s'.
Proof.
  intros (p & Hp & Hscript & Hcalls).
  eexists. split.
  - erewrite publisher_publish_run; [| exact Hp | reflexivity].
    simpl. rewrite Hscript, Hcalls. reflexivity.
  - eexists. split; [reflexivity |]. simpl. auto.
Qed.

(** [todo] failures are still to come and the budget exceeds them: the
    loop publishes at the attempt after them. *)
Lemma stub_retry_succeeds todo budget tried calls successful (s : state Stub.t) :
  stub_at fails calls s -> (calls + todo = fails)%nat -> (todo < budget)%nat ->
  exists s' t,
    loop (Z.of_nat (tried + budget)) (map Z.of_nat (seq tried budget)) successful s
    = (Ret (successful + 1, true), s', t)
    /\ timeline t = failures_then delay todo [Attempt (Ret true)]
    /\ stub_at fails (S fails) s'.
Proof.
  revert budget tried calls s.
  induction todo as [| todo IH]; intros budget tried calls s Hs Hcalls Hbudget;
    (destruct budget as [| budget]; [lia |]); simpl;
    destruct (when_print_run (verbose a && (0 <? Z.of_nat tried))
                Stdout (MsgRetry (Z.of_nat tried + 1) retry_attempts) s)
      as (tw & Hwhen & Htw);
    (erewrite bind_Ret by exact Hwhen);
    destruct (stub_publish_run s calls Hs) as (s1 & Hpub & Hs1);
    (erewrite bind_Ret by exact Hpub).
  - destruct (Nat.leb_spec fails calls); [| lia].
    destruct (published_branch_run a machine_type topic payload asset_id removed
                payload_ok topic_ok successful s1) as (tb & -> & Htb).
    eexists _, _. split; [reflexivity |].
    split; [| replace (S fails) with (S calls) by lia; exact Hs1].
    timeline_simpl. rewrite Htw, Htb. reflexivity.
  - destruct (Nat.leb_spec fails calls); [lia |].
    destruct (Z.ltb_spec (Z.of_nat tried) (Z.of_nat (tried + S budget) - 1)); [| lia].
    erewrite bind_Ret by (apply time_sleep_run; [exact delay_ok | exact delay_pos]).
    destruct (IH budget (S tried) (S calls) s1 Hs1) as (s' & t & Hrun & Ht & Hs');
      [lia | lia |].
    replace (Z.of_nat (S tried + budget)) with (Z.of_nat (tried + S budget)) in Hrun by lia.
    rewrite Hrun.
    eexists _, _. split; [reflexivity |]. split; [| exact Hs'].
    timeline_simpl. rewrite Htw, Ht. reflexivity.
Qed.

(** The budget does not exceed the failures still to come: every attempt
    fails and the loop gives up. *)
Lemma stub_retry_gives_up budget tried calls successful (s : state Stub.t) :
  stub_at fails calls s -> (calls + budget <= fails)%nat ->
  exists s' t,
    loop (Z.of_nat (tried + budget)) (map Z.of_nat (seq tried budget)) successful s
    = (Ret (successful, false), s', t)
    /\ timeline t = all_failed delay budget
    /\ stub_at fails (calls + budget) s'.
Proof.
  revert tried calls s.
  induction budget as [| budget IH]; intros tried calls s Hs Hcalls.
  - exists s, []. rewrite !Nat.add_0_r.
    split; [reflexivity |]. split; [reflexivity | exact Hs].
  - simpl.
    destruct (when_print_run (verbose a && (0 <? Z.of_nat tried))
                Stdout (MsgRetry (Z.of_nat tried + 1) retry_attempts) s)
      as (tw & Hwhen & Htw).
    erewrite bind_Ret by exact Hwhen.
    destruct (stub_publish_run s calls Hs) as (s1 & Hpub & Hs1).
    erewrite bind_Ret by exact Hpub.
    destruct (Nat.leb_spec fails calls); [lia |].
    destruct budget as [| budget].
    + destruct (Z.ltb_spec (Z.of_nat tried) (Z.of_nat (tried + 1) - 1)); [lia |].
      erewrite bind_Ret by reflexivity. simpl.
      eexists _, _. split; [reflexivity |].
      split; [| replace (calls + 1)%nat with (S calls) by lia; exact Hs1].
      timeline_simpl. rewrite Htw. reflexivity.
    + destruct (Z.ltb_spec (Z.of_nat tried) (Z.of_nat (tried + S (S budget)) - 1)); [| lia].
      erewrite bind_Ret by (apply time_sleep_run; [exact delay_ok | exact delay_pos]).
      destruct (IH (S tried) (S calls) s1 Hs1) as (s' & t & Hrun & Ht & Hs'); [lia |].
      replace (Z.of_nat (S tried + S budget)) with (Z.of_nat (tried + S (S budget)))
        in Hrun by lia.
      rewrite Hrun.
      eexists _, _. split; [reflexivity |].
      split; [| replace (calls + S (S budget))%nat with (S calls + S budget)%nat by lia;
                exact Hs'].
      timeline_simpl. rewrite Htw, Ht. reflexivity.
Qed.

End StubRetry.

(** ** Retry semantics of a job *)

Section RetrySemantics.

Lemma attempts_in_timeline t : attempts_in t = count_attempts (timeline t).
Proof.
  unfold attempts_in, published_in, timeline.
  induction t as [| e t IH]; [reflexivity |].
  destruct e; simpl; try f_equal; exact IH.
Qed.

Lemma count_attempts_failures_then delay n last :
  count_attempts (failures_then delay n last) = (n + count_attempts last)%nat.
Proof. induction n as [| n IH]; simpl; [reflexivity | rewrite IH; reflexivity]. Qed.

Lemma count_attempts_all_failed delay n : count_attempts (all_failed delay n) = n.
Proof.
  destruct n as [| n]; [reflexivity |]. simpl.
  rewrite count_attempts_failures_then. simpl. lia.
Qed.

Lemma timeline_job_frame a total i j t published :
  timeline (job_prologue a total i j ++ t ++ job_epilogue j published) = timeline t.
Proof.
  unfold job_prologue, job_epilogue.
  destruct (verbose a), published; timeline_simpl; reflexivity.
Qed.

Lemma range_seq n : Py.range n = map Z.of_nat (seq 0 (Z.to_nat n)).
Proof. reflexivity. Qed.

(** Any session that keeps the contract: the job returns, and its attempts
    and pauses are as the specification words them. *)
Lemma job_retried {Sess} {BS : BrokerSession Sess} (w : world Sess) (a : args)
    global_settings machine_config total i j successful (s : state Sess) :
  session_total Sess -> dry_run a = false ->
  ready w s global_settings machine_config j -> is_Some (publisher s) ->
  exists published : bool,
    let out := process_machine w a global_settings total i machine_config successful s in
    result_of out = Ret (successful + (if published then 1 else 0))
    /\ retried (job_delay j) (Z.to_nat (job_budget j)) (timeline (trace_of out)) published.
Proof.
  intros Htotal Hlive Hready Hpub.
  assert (Hloop : exists (published : bool) s' t,
    retry_loop a (job_type j) (JStr (job_topic j)) (job_payload j) (job_publish_payload j)
      (job_timeout j) (job_retry_attempts j) (job_retry_delay j)
      (job_budget j) (Py.range (job_budget j)) successful (count_generator_run s)
    = (Ret (successful + (if published then 1 else 0), published), s', t)
    /\ retried (job_delay j) (Z.to_nat (job_budget j)) (timeline t) published).
  { rewrite range_seq. destruct (Z.le_gt_cases 0 (job_budget j)) as [Hpos | Hneg].
    - destruct (retry_loop_retried a (job_type j) (JStr (job_topic j)) (job_payload j)
                  (job_publish_payload j) (job_timeout j) (job_retry_attempts j)
                  (job_retry_delay j) (job_asset_id j)
                  (Py.str_endswith (job_topic j) wrapper_key) (job_delay j)
                  Htotal (ready_asset_id_of w _ _ j s Hready) eq_refl
                  (ready_delay _ _ _ _ _ Hready) (ready_delay_pos _ _ _ _ _ Hready)
                  (Z.to_nat (job_budget j)) 0%nat successful (count_generator_run s) Hpub)
        as (published & s' & t & Hrun & Hshape & _).
      rewrite Nat.add_0_l, Z2Nat.id in Hrun by exact Hpos.
      exists published, s', t. split; assumption.
    - replace (Z.to_nat (job_budget j)) with 0%nat by lia.
      exists false. eexists _, _. simpl. rewrite Z.add_0_r.
      split; [reflexivity | constructor]. }
  destruct Hloop as (published & s' & t & Hrun & Hshape).
  exists published. cbv zeta.
  rewrite (process_machine_live w a _ _ total i j s Hlive Hready _ _ _ _ _ Hrun).
  unfold result_of, trace_of. cbn [fst snd]. rewrite timeline_job_frame.
  split; [reflexivity | exact Hshape].
Qed.

(** The scripted session fails [fails] times and the budget is one more. *)
Lemma job_succeeds_after_failures (w : world Stub.t) (a : args)
    global_settings machine_config total i j successful (s : state Stub.t) (fails : nat) :
  dry_run a = false -> ready w s global_settings machine_config j ->
  stub_at fails 0 s -> job_budget j = Z.of_nat fails + 1 ->
  let out := process_machine w a global_settings total i machine_config successful s in
  result_of out = Ret (successful + 1)
  /\ attempts_in (trace_of out) = S fails
  /\ stub_at fails (S fails) (state_of out)
  /\ timeline (trace_of out) = failures_then (job_delay j) fails [Attempt (Ret true)].
Proof.
  intros Hlive Hready Hstub Hbudget.
  destruct (stub_retry_succeeds a (job_type j) (JStr (job_topic j)) (job_payload j)
              (job_publish_payload j) (job_timeout j) (job_retry_attempts j)
              (job_retry_delay j) (job_asset_id j)
              (Py.str_endswith (job_topic j) wrapper_key) (job_delay j) fails
              (ready_asset_id_of w _ _ j s Hready) eq_refl
              (ready_delay _ _ _ _ _ Hready) (ready_delay_pos _ _ _ _ _ Hready)
              fails (S fails) 0%nat 0%nat successful (count_generator_run s))
    as (s' & t & Hrun & Ht & Hs'); [exact Hstub | lia | lia |].
  replace (Z.of_nat (0 + S fails)) with (job_budget j) in Hrun by lia.
  replace (map Z.of_nat (seq 0 (S fails))) with (Py.range (job_budget j)) in Hrun
    by (rewrite range_seq, Hbudget; do 2 f_equal; lia).
  cbv zeta.
  rewrite (process_machine_live w a _ _ total i j s Hlive Hready _ _ _ _ _ Hrun).
  unfold result_of, trace_of, state_of. cbn [fst snd].
  rewrite attempts_in_timeline, timeline_job_frame, Ht, count_attempts_failures_then.
  repeat split; [simpl; lia | exact Hs'].
Qed.

(** The scripted session fails [fails] times and the budget is just that. *)
Lemma job_fails_within_budget (w : world Stub.t) (a : args)
    global_settings machine_config total i j successful (s : state Stub.t) (fails : nat) :
  dry_run a = false -> ready w s global_settings machine_config j ->
  stub_at fails 0 s -> job_budget j = Z.of_nat fails ->
  let out := process_machine w a global_settings total i machine_config successful s in
  result_of out = Ret successful
  /\ attempts_in (trace_of out) = fails
  /\ stub_at fails fails (state_of out)
  /\ timeline (trace_of out) = all_failed (job_delay j) fails
  /\ EvPrint Stderr (MsgPublishGaveUp (job_type j) (job_retry_attempts j)) ∈ trace_of out.
Proof.
  intros Hlive Hready Hstub Hbudget.
  destruct (stub_retry_gives_up a (job_type j) (JStr (job_topic j)) (job_payload j)
              (job_publish_payload j) (job_timeout j) (job_retry_attempts j)
              (job_retry_delay j) (job_delay j) fails
              (ready_delay _ _ _ _ _ Hready) (ready_delay_pos _ _ _ _ _ Hready)
              fails 0%nat 0%nat successful (count_generator_run s))
    as (s' & t & Hrun & Ht & Hs'); [exact Hstub | lia |].
  replace (Z.of_nat (0 + fails)) with (job_budget j) in Hrun by lia.
  replace (map Z.of_nat (seq 0 fails)) with (Py.range (job_budget j)) in Hrun
    by (rewrite range_seq, Hbudget; do 2 f_equal; lia).
  cbv zeta.
  rewrite (process_machine_live w a _ _ total i j s Hlive Hready _ _ _ _ _ Hrun).
  unfold result_of, trace_of, state_of. cbn [fst snd].
  rewrite attempts_in_timeline, timeline_job_frame, Ht, count_attempts_all_failed.
  repeat split; [exact Hs' |].
  unfold job_epilogue. rewrite !elem_of_app. right. right. apply list_elem_of_here.
Qed.

(** C2. In live mode a job calls [publish] at most [retry_attempts] times.
    With a session that keeps the contract, its attempts and pauses are as
    [retried] says: a pause of [retry_delay] seconds after each failed
    attempt but the last, no pause after the last attempt, and nothing
    after a successful attempt; the job counts as successful exactly when
    its last attempt succeeded.  Against a stub that fails [fails] times and
    then succeeds, a budget of [fails + 1] makes the job successful after
    exactly [fails + 1] attempts, and a budget of [fails] makes it fail
    after exactly [fails] attempts. *)
Theorem retry_semantics :
  (forall Sess (BS : BrokerSession Sess) (w : world Sess) (a : args)
          global_settings machine_config total i successful (s : state Sess),
      (attempts_in
         (trace_of (process_machine w a global_settings total i machine_config successful s))
       <= retry_budget global_settings)%nat)
  /\ (forall Sess (BS : BrokerSession Sess) (w : world Sess) (a : args)
             global_settings machine_config total i j successful (s : state Sess),
        session_total Sess -> dry_run a = false ->
        ready w s global_settings machine_config j -> is_Some (publisher s) ->
        exists published : bool,
          let out :=
            process_machine w a global_settings total i machine_config successful s in
          result_of out = Ret (successful + (if published then 1 else 0))
          /\ retried (job_delay j) (Z.to_nat (job_budget j))
               (timeline (trace_of out)) published)
  /\ (forall (w : world Stub.t) (a : args)
             global_settings machine_config total i j successful (s : state Stub.t)
             (fails : nat),
        dry_run a = false -> ready w s global_settings machine_config j ->
        stub_at fails 0 s ->
        (job_budget j = Z.of_nat fails + 1 ->
         let out :=
           process_machine w a global_settings total i machine_config successful s in
         result_of out = Ret (successful + 1)
         /\ attempts_in (trace_of out) = S fails
         /\ stub_at fails (S fails) (state_of out)
         /\ timeline (trace_of out)
            = failures_then (job_delay j) fails [Attempt (Ret true)])
        /\ (job_budget j = Z.of_nat fails ->
            let out :=
              process_machine w a global_settings total i machine_config successful s in
            result_of out = Ret successful
            /\ attempts_in (trace_of out) = fails
            /\ stub_at fails fails (state_of out)
            /\ timeline (trace_of out) = all_failed (job_delay j) fails
            /\ EvPrint Stderr (MsgPublishGaveUp (job_type j) (job_retry_attempts j))
                 ∈ trace_of out)).
Proof.
  split; [| split].
  - intros. apply attempts_le_process_machine.
  - intros. apply job_retried; assumption.
  - intros w a gs mc total i j successful s fails Hlive Hready Hstub. split; intros Hbudget.
    + apply job_succeeds_after_failures; assumption.
    + apply job_fails_within_budget; assumption.
Qed.

End RetrySemantics.

(** ** Python strings *)

Section StringFacts.

Lemma substring_whole (s : string) : substring 0 (String.length s) s = s.
Proof. induction s as [| c s IH]; [reflexivity | simpl; rewrite IH; reflexivity]. Qed.

Lemma substring_after_prefix (pre suf : string) :
  substring (String.length pre) (String.length suf) (pre +:+ suf) = suf.
Proof. induction pre as [| c pre IH]; simpl; [apply substring_whole | exact IH]. Qed.

Lemma length_append (s1 s2 : string) :
  String.length (s1 +:+ s2) = (String.length s1 + String.length s2)%nat.
Proof. induction s1 as [| c s1 IH]; simpl; [reflexivity | rewrite IH; reflexivity]. Qed.

Lemma substring_split (s : string) (i : nat) :
  (i <= String.length s)%nat ->
  s = substring 0 i s +:+ substring i (String.length s - i) s.
Proof.
  revert i. induction s as [| c s IH]; intros i Hi.
  - destruct i; reflexivity.
  - destruct i as [| i]; simpl.
    + rewrite substring_whole. reflexivity.
    + simpl in Hi.
      change (String c s
              = String c (substring 0 i s +:+ substring i (String.length s - i) s)).
      f_equal. apply IH. lia.
Qed.

(** [str_endswith s suffix] holds exactly when [s] is some string followed
    by [suffix]. *)
Lemma str_endswith_spec (s suffix : string) :
  Py.str_endswith s suffix = true <-> exists pre, s = pre +:+ suffix.
Proof.
  unfold Py.str_endswith. split.
  - intros H. apply andb_prop in H as [Hlen Heq].
    apply Nat.leb_le in Hlen. apply String.eqb_eq in Heq.
    exists (substring 0 (String.length s - String.length suffix) s).
    pose proof (substring_split s (String.length s - String.length suffix)) as Hsplit.
    replace (String.length s - (String.length s - String.length suffix))%nat
      with (String.length suffix) in Hsplit by lia.
    rewrite Heq in Hsplit. apply Hsplit. lia.
  - intros [pre ->]. rewrite length_append.
    apply andb_true_intro. split; [apply Nat.leb_le; lia |].
    replace (String.length pre + String.length suffix - String.length suffix)%nat
      with (String.length pre) by lia.
    rewrite substring_after_prefix. apply String.eqb_refl.
Qed.

End StringFacts.

(** ** The topic-shape transform *)

Section EmitsFacts.

Context {St Ev : Type} (P : Ev -> Prop).

Lemma emits_ret {A} (x : A) : emits P (ret x : M St Ev A).
Proof. intros s. constructor. Qed.

Lemma emits_raise {A} e : emits P (raise e : M St Ev A).
Proof. intros s. constructor. Qed.

Lemma emits_lift {A} (r : result A) : emits P (lift r : M St Ev A).
Proof. intros s. constructor. Qed.

Lemma emits_emit e : P e -> emits P (emit e : M St Ev unit).
Proof. intros He s. repeat constructor. exact He. Qed.

Lemma emits_bind {A B} (m : M St Ev A) (k : A -> M St Ev B) :
  emits P m -> (forall x, emits P (k x)) -> emits P (bind m k).
Proof.
  intros Hm Hk s. specialize (Hm s). unfold bind.
  destruct (m s) as [[[x | e] s1] t1]; unfold trace_of in *; simpl in *.
  - specialize (Hk x s1). destruct (k x s1) as [[r s2] t2]. simpl in *.
    apply Forall_app. auto.
  - exact Hm.
Qed.

Lemma emits_when b (m : M St Ev unit) : emits P m -> emits P (when b m).
Proof. intros Hm. destruct b; [exact Hm | apply emits_ret]. Qed.

End EmitsFacts.

Section Transform.

Context {Sess : Type} {BS : BrokerSession Sess}.
Variable w : world Sess.
Variable a : args.

Lemma emits_publish topic payload timeout :
  emits (carries topic payload) (publisher_publish topic payload timeout).
Proof.
  intros s. unfold publisher_publish.
  destruct (publisher s) as [p |]; [| constructor].
  destruct (session_publish topic payload timeout p) as [[r p'] t].
  unfold trace_of. simpl. constructor; [reflexivity |].
  apply Forall_forall. intros e He.
  apply list_elem_of_fmap in He as (se & -> & _). exact I.
Qed.

Lemma emits_sleep topic payload seconds :
  emits (carries topic payload) (time_sleep seconds : M (state Sess) event unit).
Proof.
  unfold time_sleep. apply emits_bind; [apply emits_lift | intros n].
  destruct (n <? 0); [apply emits_raise | apply emits_emit; exact I].
Qed.

(** Every attempt of the loop sends [publish_payload] to [topic]. *)
Lemma emits_retry_loop machine_type topic payload publish_payload
    publish_timeout retry_attempts retry_delay n attempts successful :
  emits (carries topic publish_payload)
    (retry_loop a machine_type topic payload publish_payload
       publish_timeout retry_attempts retry_delay n attempts successful).
Proof.
  revert successful. induction attempts as [| attempt rest IH]; intros successful; simpl.
  - apply emits_ret.
  - apply emits_bind; [apply emits_when, emits_emit; exact I | intros _].
    apply emits_bind; [apply emits_publish | intros ok].
    destruct ok.
    + apply emits_bind; [apply emits_lift | intros asset_id].
      apply emits_bind; [apply emits_lift | intros removed].
      apply emits_bind; [destruct (verbose a); apply emits_emit; exact I | intros _].
      apply emits_ret.
    + apply emits_bind; [| intros _; apply IH].
      destruct (attempt <? n - 1); [apply emits_sleep | apply emits_ret].
Qed.

Lemma published_in_app t1 t2 : published_in (t1 ++ t2) = published_in t1 ++ published_in t2.
Proof. apply omap_app. Qed.

Lemma carries_published topic payload t :
  Forall (carries topic payload) t ->
  Forall (fun sent => sent = (topic, payload)) (published_in t).
Proof.
  induction 1 as [| e t He _ IH]; [constructor |].
  unfold published_in. simpl. unfold carries in He.
  destruct (attempt_of e); [constructor; assumption | exact IH].
Qed.

Variables (global_settings machine_config : json) (total i : Z).
Variable j : job.
Variable s : state Sess.
Hypothesis live : dry_run a = false.
Hypothesis job_ready : ready w s global_settings machine_config j.

(** The job is its retry loop between prologue and epilogue, also when the
    loop raises. *)
Lemma process_machine_ready successful :
  process_machine w a global_settings total i machine_config successful s
  = match retry_loop a (job_type j) (JStr (job_topic j)) (job_payload j)
            (job_publish_payload j) (job_timeout j) (job_retry_attempts j)
            (job_retry_delay j) (job_budget j) (Py.range (job_budget j))
            successful (count_generator_run s) with
    | (Ret (successful', published), s', t) =>
        (Ret successful', s', job_prologue a total i j ++ t ++ job_epilogue j published)
    | (Raise e, s', t) => (Raise e, s', job_prologue a total i j ++ t)
    end.
Proof.
  destruct (retry_loop a (job_type j) (JStr (job_topic j)) (job_payload j)
              (job_publish_payload j) (job_timeout j) (job_retry_attempts j)
              (job_retry_delay j) (job_budget j) (Py.range (job_budget j))
              successful (count_generator_run s))
    as [[[[successful' published] | e] s'] t] eqn:Hloop.
  - eapply process_machine_live; eassumption.
  - unfold process_machine.
    rewrite (ready_type _ _ _ _ _ job_ready), (ready_topic _ _ _ _ _ job_ready).
    erewrite bind_Ret by reflexivity.
    erewrite bind_Ret by reflexivity.
    assert (Hwhen : when (verbose a)
                      (print Stdout (MsgProcessing i total (job_type j))) s
                    = (Ret tt, s,
                       if verbose a
                       then [EvPrint Stdout (MsgProcessing i total (job_type j))] else []))
      by (destruct (verbose a); reflexivity).
    erewrite bind_Ret by exact Hwhen.
    erewrite bind_Ret by (eapply generate_run; exact job_ready).
    pose proof (ready_payload_not_null w _ _ j s job_ready) as Hnn.
    destruct (job_payload j) eqn:Hpayload; try congruence;
      rewrite <- Hpayload in *;
      rewrite (ready_publish_payload w _ _ j s job_ready);
      (erewrite bind_Ret by reflexivity); cbv beta; rewrite live;
      rewrite (ready_timeout _ _ _ _ _ job_ready);
      (erewrite bind_Ret by reflexivity); cbv beta;
      rewrite (ready_retry_attempts _ _ _ _ _ job_ready);
      (erewrite bind_Ret by reflexivity); cbv beta;
      rewrite (ready_retry_delay _ _ _ _ _ job_ready);
      (erewrite bind_Ret by reflexivity); cbv beta;
      rewrite (ready_budget _ _ _ _ _ job_ready);
      (erewrite bind_Ret by reflexivity); cbv beta;
      (erewrite bind_Raise by exact Hloop);
      unfold job_prologue; simpl; rewrite ?app_nil_r, <- ?app_assoc; reflexivity.
Qed.

Lemma published_in_prologue : published_in (job_prologue a total i j) = [].
Proof. unfold job_prologue. destruct (verbose a); reflexivity. Qed.

Lemma published_in_epilogue published : published_in (job_epilogue j published) = [].
Proof. destruct published; reflexivity. Qed.

(** Whatever the job publishes is the transform of its payload, on its
    topic. *)
Lemma job_publishes_transform successful :
  Forall (fun sent => sent = (JStr (job_topic j), job_publish_payload j))
    (published_in
       (trace_of (process_machine w a global_settings total i machine_config successful s))).
Proof.
  rewrite process_machine_ready.
  pose proof (emits_retry_loop (job_type j) (JStr (job_topic j)) (job_payload j)
                (job_publish_payload j) (job_timeout j) (job_retry_attempts j)
                (job_retry_delay j) (job_budget j) (Py.range (job_budget j))
                successful (count_generator_run s)) as Hloop.
  apply carries_published in Hloop.
  destruct (retry_loop _ _ _ _ _ _ _ _ _ _ _ _) as [[[[successful' published] | e] s'] t];
    unfold trace_of in *; cbn [fst snd] in *;
    rewrite !published_in_app, published_in_prologue, ?published_in_epilogue,
      ?app_nil_r; exact Hloop.
Qed.

End Transform.

(** C3. The value published for a job is a function of its topic and its
    payload alone: when the topic ends with [MachineIdentificationType] (it
    is some string followed by these letters) it is the record found under
    the wrapper key, otherwise it is the payload as generated, wrapper key
    included.  Every call of [publish] a job makes
    carries that value, whatever the machine type: two jobs with the same
    topic and the same payload publish the same value. *)
Theorem topic_shape_transform :
  (forall topic : string,
      Py.str_endswith topic wrapper_key = true
      <-> exists pre, topic = pre +:+ "MachineIdentificationType")
  /\ (forall (topic : string) (payload inner : json),
        Py.str_endswith topic wrapper_key = true ->
        Py.getitem payload wrapper_key = Ret inner ->
        publish_payload_for (JStr topic) payload = Ret inner)
  /\ (forall (topic : string) (payload : json),
        Py.str_endswith topic wrapper_key = false ->
        publish_payload_for (JStr topic) payload = Ret payload)
  /\ (forall Sess (BS : BrokerSession Sess) (w : world Sess) (a : args)
             global_settings machine_config total i j successful (s : state Sess),
        dry_run a = false -> ready w s global_settings machine_config j ->
        exists sent,
          publish_payload_for (JStr (job_topic j)) (job_payload j) = Ret sent
          /\ Forall (fun pair => pair = (JStr (job_topic j), sent))
               (published_in
                  (trace_of
                     (process_machine w a global_settings total i machine_config
                        successful s))))
  /\ (forall Sess (BS : BrokerSession Sess) (w1 w2 : world Sess) (a1 a2 : args)
             settings1 settings2 config1 config2 total1 total2 i1 i2 j1 j2
             successful1 successful2 (s1 s2 : state Sess),
        dry_run a1 = false -> ready w1 s1 settings1 config1 j1 ->
        dry_run a2 = false -> ready w2 s2 settings2 config2 j2 ->
        job_topic j1 = job_topic j2 -> job_payload j1 = job_payload j2 ->
        forall sent1 sent2,
          sent1 ∈ published_in
                    (trace_of (process_machine w1 a1 settings1 total1 i1 config1
                                 successful1 s1)) ->
          sent2 ∈ published_in
                    (trace_of (process_machine w2 a2 settings2 total2 i2 config2
                                 successful2 s2)) ->
          sent1 = sent2).
Proof.
  split; [| split; [| split; [| split]]].
  - intros topic. apply str_endswith_spec.
  - intros topic payload inner Hends Hinner.
    unfold publish_payload_for. simpl. rewrite Hends. exact Hinner.
  - intros topic payload Hends.
    unfold publish_payload_for. simpl. rewrite Hends. reflexivity.
  - intros Sess BS w a gs mc total i j successful s Hlive Hready.
    exists (job_publish_payload j). split.
    + eapply ready_publish_payload; exact Hready.
    + apply job_publishes_transform; assumption.
  - intros Sess BS w1 w2 a1 a2 gs1 gs2 mc1 mc2 total1 total2 i1 i2 j1 j2 n1 n2 s1 s2
      Hlive1 Hready1 Hlive2 Hready2 Htopic Hpayload sent1 sent2 Hin1 Hin2.
    pose proof (job_publishes_transform w1 a1 gs1 mc1 total1 i1 j1 s1 Hlive1 Hready1 n1) as H1.
    pose proof (job_publishes_transform w2 a2 gs2 mc2 total2 i2 j2 s2 Hlive2 Hready2 n2) as H2.
    rewrite Forall_forall in H1, H2.
    rewrite (H1 _ Hin1), (H2 _ Hin2).
    assert (Hinner : job_inner j1 = job_inner j2).
    { pose proof (ready_inner _ _ _ _ _ Hready1) as E1.
      pose proof (ready_inner _ _ _ _ _ Hready2) as E2.
      rewrite Hpayload in E1. congruence. }
    unfold job_publish_payload. rewrite Htopic, Hpayload, Hinner. reflexivity.
Qed.

(** ** The run as a whole *)

Section RunFacts.

Context {Sess : Type} {BS : BrokerSession Sess}.
Variable w : world Sess.
Variable a : args.

Lemma loads_shape config :
  loads w a config ->
  Py.get config "global_settings" (JObj ∅) = Ret (settings_of config)
  /\ Py.getitem config "mqtt_broker" = Ret (broker_of config)
  /\ Py.getitem config "machines" = Ret (JArr (machines_of config))
  /\ Forall machine_entry_ok (machines_of config).
Proof.
  intros [_ Hvalid].
  apply validate_config_checked in Hvalid
    as (_ & fields & broker & items & -> & Hbroker & _ & _ & Hmachines & Hitems).
  unfold settings_of, broker_of, machines_of. simpl.
  rewrite Hbroker, Hmachines. auto.
Qed.

Lemma load_config_loads config (s : state Sess) :
  loads w a config -> load_config w (config_file a) s = (Ret config, s, []).
Proof. intros [Hread Hvalid]. unfold load_config. rewrite Hread, Hvalid. reflexivity. Qed.

(** The loader prints at most one message and touches nothing else. *)
Lemma load_config_cases path (s : state Sess) :
  exists r t,
    load_config w path s = (r, s, t)
    /\ Forall (job_event true) t
    /\ (forall config, r = Ret config ->
          read_json w path = Parsed config /\ validate_config config = Ret config)
    /\ (forall e, r = Raise e -> exit_status r = 1).
Proof.
  unfold load_config.
  destruct (read_json w path) as [| | | config] eqn:Hread.
  - eexists _, _. split; [reflexivity |].
    split; [repeat constructor |]. split; [discriminate | reflexivity].
  - eexists _, _. split; [reflexivity |].
    split; [repeat constructor |]. split; [discriminate | reflexivity].
  - eexists _, _. split; [reflexivity |].
    split; [repeat constructor |]. split; [discriminate | reflexivity].
  - destruct (validate_config config) as [c | e] eqn:Hvalid.
    + apply validate_config_checked in Hvalid as Hc. destruct Hc as [-> _].
      eexists _, _. split; [reflexivity |].
      split; [constructor |]. split; [| discriminate].
      intros c Hc. injection Hc as <-. auto.
    + destruct e; eexists _, _; (split; [reflexivity |]);
        (split; [repeat constructor |]); (split; [discriminate |]);
        try reflexivity.
      (* the validation never calls sys.exit itself *)
      exfalso. clear -Hvalid. unfold validate_config in Hvalid.
      destruct config as [| | | str | items |fields]; simpl in Hvalid; try discriminate.
      * destruct (Py.contains "mqtt_broker" str); simpl in Hvalid; [| discriminate].
        destruct (Py.contains "machines" str); simpl in Hvalid; discriminate.
      * destruct (existsb (Py.is_str "mqtt_broker") items); simpl in Hvalid;
          [| discriminate].
        destruct (existsb (Py.is_str "machines") items); simpl in Hvalid; discriminate.
      * destruct (fields !! "mqtt_broker") as [broker |]; simpl in Hvalid;
          [| discriminate].
        destruct (fields !! "machines") as [machines |]; simpl in Hvalid;
          [| discriminate].
        destruct machines as [| | | | items |]; simpl in Hvalid; try discriminate.
        destruct (Py.has "host" broker) as [[|] | e] eqn:Ehost; simpl in Hvalid;
          try discriminate.
        2: { destruct broker; simpl in Ehost; discriminate || congruence. }
        destruct (Py.has "port" broker) as [[|] | e] eqn:Eport; simpl in Hvalid;
          try discriminate.
        2: { destruct broker; simpl in Eport; discriminate || congruence. }
        destruct (check_machines_total 0 items) as [Hok | [e He]];
          rewrite ?Hok, ?He in Hvalid; simpl in Hvalid; discriminate.
Qed.

Lemma main_try_unfold config (s : state Sess) :
  loads w a config ->
  main_try w a config (settings_of config) s
  = bind (process_machines w a (settings_of config)
            (Z.of_nat (List.length (machines_of config))) 1 (machines_of config) 0)
         (summarize a (Z.of_nat (List.length (machines_of config)))) s.
Proof.
  intros Hloads. destruct (loads_shape config Hloads) as (_ & _ & Hmachines & _).
  unfold main_try. rewrite Hmachines.
  erewrite bind_Ret by reflexivity. simpl.
  erewrite bind_Ret by reflexivity. cbv zeta.
  destruct (bind _ _ s) as [[r s'] t]. reflexivity.
Qed.

Lemma main_finally_none (s : state Sess) :
  publisher s = None -> main_finally s = (Ret tt, s, []).
Proof. intros H. unfold main_finally, bind, gets. rewrite H. reflexivity. Qed.

Lemma main_finally_some (s : state Sess) p :
  publisher s = Some p ->
  main_finally s
  = (result_of (session_disconnect p),
     set_publisher (Some (state_of (session_disconnect p))) s,
     EvDisconnect :: map EvSession (trace_of (session_disconnect p))).
Proof.
  intros H. unfold main_finally, bind, gets, publisher_disconnect.
  rewrite H. simpl. rewrite H.
  destruct (session_disconnect p) as [[r p'] t]. reflexivity.
Qed.

(** A run that gets as far as the loop is the [try] of [main] followed by
    its [finally]. *)
Lemma main_run config :
  loads w a config -> starts w a config ->
  run_main w a
  = (let '(r, s', t) := main_try w a config (settings_of config) (loop_state w a config) in
     let '(rd, s'', td) := main_finally s' in
     (match rd with Ret _ => r | Raise e => Raise e end, s'',
      run_prologue w a config ++ t ++ td)).
Proof.
  intros Hloads Hstarts.
  destruct (loads_shape config Hloads) as (Hsettings & Hbroker & _ & _).
  unfold run_main, main, run_prologue, loop_state.
  assert (Hwhen : forall (s : state Sess),
             when (verbose a) (print Stdout (MsgLoading (config_file a))) s
             = (Ret tt, s,
                if verbose a then [EvPrint Stdout (MsgLoading (config_file a))] else []))
    by (intros s; destruct (verbose a); reflexivity).
  erewrite bind_Ret by apply Hwhen.
  erewrite bind_Ret by (apply load_config_loads; exact Hloads).
  rewrite Hsettings. erewrite bind_Ret by reflexivity. cbv beta.
  destruct (dry_run a) eqn:Hdry; simpl negb; cbv iota.
  - erewrite bind_Ret by reflexivity. unfold try_finally.
    destruct (main_try w a config (settings_of config) initial_state) as [[r s'] t].
    destruct (main_finally s') as [[rd s''] td].
    rewrite !app_nil_r. simpl. reflexivity.
  - destruct Hstarts as [Hdry' | Hconn]; [congruence |].
    assert (Hwhen2 : forall (s : state Sess),
               when (verbose a) (print Stdout MsgConnecting) s
               = (Ret tt, s, if verbose a then [EvPrint Stdout MsgConnecting] else []))
      by (intros s; destruct (verbose a); reflexivity).
    unfold connecting in *.
    destruct (session_connect (new_publisher w (broker_of config) (verbose a)))
      as [[rc p1] tc] eqn:Hsession.
    unfold result_of in Hconn. simpl in Hconn. subst rc.
    assert (Hconnect :
      bind (when (verbose a) (print Stdout MsgConnecting)) (fun _ =>
        bind (lift (Py.getitem config "mqtt_broker")) (fun broker_config =>
          bind (modify (set_publisher (Some (new_publisher w broker_config (verbose a)))))
            (fun _ =>
               bind publisher_connect (fun ok =>
                 if negb ok
                 then bind (print Stderr MsgConnectFailed) (fun _ => raise (SystemExit 1))
                 else ret tt)))) initial_state
      = (Ret tt, {| publisher := Some p1; generator_runs := 0 |},
         (if verbose a then [EvPrint Stdout MsgConnecting] else [])
         ++ EvConnect (Ret true) :: map EvSession tc)).
    { erewrite bind_Ret by apply Hwhen2.
      rewrite Hbroker. erewrite bind_Ret by reflexivity.
      erewrite bind_Ret by reflexivity.
      unfold bind at 1. unfold publisher_connect. simpl. rewrite Hsession. simpl.
      rewrite !app_nil_r. reflexivity. }
    erewrite bind_Ret by exact Hconnect.
    unfold try_finally, state_of, trace_of, result_of. simpl.
    destruct (main_try w a config (settings_of config) _) as [[r s'] t].
    destruct (main_finally s') as [[rd s''] td].
    rewrite <- !app_assoc. reflexivity.
Qed.

End RunFacts.

(** ** Counting successes, and the exit code *)

Section YieldsFacts.

Context {St Ev : Type}.

Lemma yields_ret {A} (Q : A -> Prop) (x : A) : Q x -> yields Q (ret x : M St Ev A).
Proof. intros HQ s x' s' t H. unfold ret in H. congruence. Qed.

Lemma yields_raise {A} (Q : A -> Prop) e : yields Q (raise e : M St Ev A).
Proof. intros s x s' t H. discriminate. Qed.

Lemma yields_bind {A B} (Q : B -> Prop) (m : M St Ev A) (k : A -> M St Ev B) :
  (forall x, yields Q (k x)) -> yields Q (bind m k).
Proof.
  intros Hk s y s' t H. unfold bind in H.
  destruct (m s) as [[[x | e] s1] t1]; [| discriminate].
  destruct (k x s1) as [[r s2] t2] eqn:Hrun.
  injection H as -> <- <-. eapply Hk. exact Hrun.
Qed.

Lemma yields_weaken {A} (Q Q' : A -> Prop) (m : M St Ev A) :
  (forall x, Q x -> Q' x) -> yields Q m -> yields Q' m.
Proof. intros HQ Hm s x s' t H. apply HQ. eapply Hm. exact H. Qed.

Lemma raises_only_ret {A} (P : exn -> Prop) (x : A) : raises_only P (ret x : M St Ev A).
Proof. intros s e s' t H. discriminate. Qed.

Lemma raises_only_raise {A} (P : exn -> Prop) e : P e -> raises_only P (raise e : M St Ev A).
Proof. intros HP s e' s' t H. unfold raise in H. congruence. Qed.

Lemma raises_only_bind {A B} (P : exn -> Prop) (m : M St Ev A) (k : A -> M St Ev B) :
  raises_only P m -> (forall x, raises_only P (k x)) -> raises_only P (bind m k).
Proof.
  intros Hm Hk s e s' t H. unfold bind in H.
  destruct (m s) as [[[x | e1] s1] t1] eqn:Hrun.
  - destruct (k x s1) as [[r s2] t2] eqn:Hrun2.
    injection H as -> <- <-. eapply Hk. exact Hrun2.
  - injection H as <- <- <-. eapply Hm. exact Hrun.
Qed.

End YieldsFacts.

Section SuccessCount.

Context {Sess : Type} {BS : BrokerSession Sess}.
Variable w : world Sess.
Variable a : args.

Lemma yields_retry_loop machine_type topic payload publish_payload
    publish_timeout retry_attempts retry_delay n attempts successful :
  yields (fun looped => successful <= fst looped <= successful + 1)
    (retry_loop a machine_type topic payload publish_payload
       publish_timeout retry_attempts retry_delay n attempts successful).
Proof.
  induction attempts as [| attempt rest IH]; simpl.
  - apply yields_ret. simpl. lia.
  - apply yields_bind. intros _. apply yields_bind. intros ok. destruct ok.
    + do 3 (apply yields_bind; intros ?). apply yields_ret. simpl. lia.
    + apply yields_bind. intros _. exact IH.
Qed.

(** A job adds one success or none. *)
Lemma yields_process_machine global_settings total i machine_config successful :
  yields (fun successful' => successful <= successful' <= successful + 1)
    (process_machine w a global_settings total i machine_config successful).
Proof.
  unfold process_machine.
  do 4 (apply yields_bind; intros ?).
  match goal with
  | |- yields _ (match ?payload with _ => _ end) =>
      destruct payload;
        (apply yields_bind; intros ?);
        try (apply yields_ret; lia);
        (destruct (dry_run a);
         [ do 3 (apply yields_bind; intros ?); apply yields_ret; lia
         | do 4 (apply yields_bind; intros ?);
           intros s0 c0 s0' t0 Hrun; unfold bind in Hrun;
           match type of Hrun with
           | context [retry_loop ?a ?mt ?tp ?pl ?pp ?pt ?ra ?rd ?n ?l ?succ s0] =>
               pose proof (yields_retry_loop mt tp pl pp pt ra rd n l succ s0) as Hloop;
               destruct (retry_loop a mt tp pl pp pt ra rd n l succ s0)
                 as [[[[c published] | e] s1] t1]; [| discriminate];
               specialize (Hloop _ _ _ eq_refl); simpl in Hloop;
               destruct published; simpl in Hrun; injection Hrun as <- _ _; exact Hloop
           end ])
  end.
Qed.

Lemma yields_process_machines global_settings total i machines successful :
  yields (fun successful' =>
            successful <= successful' <= successful + Z.of_nat (List.length machines))
    (process_machines w a global_settings total i machines successful).
Proof.
  revert i successful. induction machines as [| machine rest IH]; intros i successful.
  - simpl. apply yields_ret. lia.
  - intros s x s' t Hrun. simpl in Hrun. unfold bind in Hrun.
    destruct (process_machine w a global_settings total i machine successful s)
      as [[[c | e] s1] t1] eqn:Hjob; [| discriminate].
    apply yields_process_machine in Hjob.
    destruct (process_machines w a global_settings total (i + 1) rest c s1)
      as [[r s2] t2] eqn:Hrest.
    injection Hrun as -> _ _.
    apply IH in Hrest. simpl List.length. lia.
Qed.

(** The summary decides the exit: it raises [SystemExit(1)] when no job
    succeeded or fewer than all did, and returns otherwise. *)
Lemma summarize_result total successful (s : state Sess) :
  result_of (summarize a total successful s)
  = if (successful =? 0) || (successful <? total) then Raise (SystemExit 1) else Ret tt.
Proof.
  unfold summarize.
  assert (Hwhen : exists t,
    when (verbose a)
      (bind (print Stdout MsgSummaryHeader) (fun _ =>
       bind (print Stdout (MsgSummaryTotal total)) (fun _ =>
       bind (print Stdout (MsgSummarySuccessful (dry_run a) successful)) (fun _ =>
       print Stdout (MsgSummaryFailed (dry_run a) (total - successful)))))) s
    = (Ret tt, s, t))
    by (destruct (verbose a); eexists; reflexivity).
  destruct Hwhen as [t Hwhen]. erewrite bind_Ret by exact Hwhen.
  destruct (successful =? 0); [reflexivity |].
  destruct (successful <? total); [reflexivity |].
  destruct (verbose a); reflexivity.
Qed.

Lemma summarize_prints total successful :
  emits (fun e => match e with EvPrint _ _ => True | _ => False end)
    (summarize a total successful : M (state Sess) event unit).
Proof.
  unfold summarize.
  apply emits_bind.
  - apply emits_when.
    repeat (apply emits_bind; [apply emits_emit; exact I | intros _]).
    apply emits_emit; exact I.
  - intros _. destruct (successful =? 0).
    + apply emits_bind; [apply emits_emit; exact I | intros _; apply emits_raise].
    + destruct (successful <? total).
      * apply emits_bind; [apply emits_emit; exact I | intros _; apply emits_raise].
      * apply emits_when, emits_emit; exact I.
Qed.

End SuccessCount.

(** ** Both sessions keep the contract *)

Section SessionsTotal.

Lemma stub_session_total : session_total Stub.t.
Proof. split; intros; intros p; eexists; reflexivity. Qed.

Import MQTTPublisher PublisherSpec.

Lemma raises_only_lift {St Ev A} (P : exn -> Prop) (r : result A) :
  (forall e, r = Raise e -> P e) -> raises_only P (lift r : M St Ev A).
Proof. intros H s e s' t Hrun. unfold lift in Hrun. apply H. congruence. Qed.

Lemma get_raises v k dflt e : Py.get v k dflt = Raise e -> is_Exception e = true.
Proof. destruct v; simpl; intros H; try discriminate; injection H as <-; reflexivity. Qed.

Lemma getitem_raises v k e : Py.getitem v k = Raise e -> is_Exception e = true.
Proof.
  destruct v as [| | | | |fields]; simpl; intros H; try discriminate;
    try (injection H as <-; reflexivity).
  destruct (fields !! k); [discriminate | injection H as <-; reflexivity].
Qed.

Lemma wait_connected_returns remaining p :
  exists p' t, wait_connected remaining p = (Ret tt, p', t).
Proof.
  revert p. induction remaining as [| r IH]; intros p; simpl;
    (erewrite bind_Ret by reflexivity); destruct (connected p);
    try (eexists _, _; reflexivity).
  destruct (sleep_tenth_effect p) as (p1 & t1 & Hsleep & _).
  erewrite bind_Ret by exact Hsleep.
  destruct (IH p1) as (p2 & t2 & ->). eexists _, _; reflexivity.
Qed.

Lemma connect_body_raises : raises_only (fun e => is_Exception e = true) connect_body.
Proof.
  unfold connect_body.
  apply raises_only_bind; [intros s e s' t H; discriminate | intros cfg].
  apply raises_only_bind; [apply raises_only_lift, get_raises | intros client_id].
  apply raises_only_bind; [intros s e s' t H; discriminate | intros _].
  apply raises_only_bind; [apply raises_only_lift, get_raises | intros username].
  apply raises_only_bind.
  { destruct (Py.truthy username); [| apply raises_only_ret].
    apply raises_only_bind; [apply raises_only_lift, get_raises | intros password].
    destruct (Py.truthy password); [| apply raises_only_ret].
    apply raises_only_bind; [apply raises_only_lift, getitem_raises | intros u].
    apply raises_only_bind; [apply raises_only_lift, getitem_raises | intros pw].
    intros s e s' t H; discriminate. }
  intros _.
  apply raises_only_bind; [apply raises_only_lift, getitem_raises | intros host].
  apply raises_only_bind; [apply raises_only_lift, getitem_raises | intros port].
  apply raises_only_bind; [apply raises_only_lift, get_raises | intros keepalive].
  apply raises_only_bind; [intros s e s' t H; discriminate | intros _].
  apply raises_only_bind; [intros s e s' t H; discriminate | intros n].
  destruct (connect_raises n); [apply raises_only_raise; reflexivity |].
  apply raises_only_bind; [intros s e s' t H; discriminate | intros _].
  apply raises_only_bind.
  { intros s e s' t H. destruct (wait_connected_returns 100 s) as (p' & t' & Hw).
    congruence. }
  intros _.
  apply raises_only_bind; [intros s e s' t H; discriminate | intros c].
  destruct c; [apply raises_only_ret | apply raises_only_raise; reflexivity].
Qed.

Lemma connect_returns p : exists b, result_of (connect p) = Ret b.
Proof.
  unfold connect, except_Exception.
  destruct (connect_body p) as [[[b | e] p1] t1] eqn:Hbody.
  - exists b. reflexivity.
  - rewrite (connect_body_raises _ _ _ _ Hbody). exists false. reflexivity.
Qed.

Lemma disconnect_returns p : result_of (disconnect p) = Ret tt.
Proof. unfold disconnect, bind, gets. destruct (client p); reflexivity. Qed.

Lemma mqtt_session_total : session_total t.
Proof.
  split.
  - intros p. apply connect_returns.
  - intros topic payload timeout p.
    destruct (publish_returns topic payload timeout p) as (p' & tr & H).
    exists (publish_outcome p timeout). simpl. unfold result_of.
    change (session_publish topic payload timeout p) with (publish topic payload timeout p).
    rewrite H. reflexivity.
  - intros p. exists tt. apply disconnect_returns.
Qed.

End SessionsTotal.

(** ** Cleanup *)

Section Cleanup.

Context {Sess : Type} {BS : BrokerSession Sess}.
Variable w : world Sess.
Variable a : args.

Lemma disconnects_in_app t1 t2 :
  disconnects_in (t1 ++ t2) = (disconnects_in t1 + disconnects_in t2)%nat.
Proof. unfold disconnects_in. rewrite omap_app, length_app. reflexivity. Qed.

Lemma disconnects_in_session (t : list sevent) : disconnects_in (map EvSession t) = 0%nat.
Proof. induction t as [| e t IH]; [reflexivity | exact IH]. Qed.

Lemma job_events_no_disconnect dry t :
  Forall (job_event dry) t -> disconnects_in t = 0%nat.
Proof.
  induction 1 as [| e t He _ IH]; [reflexivity |].
  destruct e; simpl in He; try contradiction; exact IH.
Qed.


Lemma run_prologue_no_disconnect config : disconnects_in (run_prologue w a config) = 0%nat.
Proof.
  unfold run_prologue. rewrite disconnects_in_app.
  destruct (verbose a), (dry_run a); simpl; try reflexivity;
    apply disconnects_in_session.
Qed.

Lemma run_main_load_fails e t :
  load_config w (config_file a) initial_state = (Raise e, initial_state, t) ->
  run_main w a
  = (Raise e, initial_state,
     (if verbose a then [EvPrint Stdout (MsgLoading (config_file a))] else []) ++ t).
Proof.
  intros Hload. unfold run_main, main.
  assert (Hwhen : when (verbose a) (print Stdout (MsgLoading (config_file a)))
                    (initial_state : state Sess)
                  = (Ret tt, initial_state,
                     if verbose a then [EvPrint Stdout (MsgLoading (config_file a))] else []))
    by (destruct (verbose a); reflexivity).
  erewrite bind_Ret by exact Hwhen.
  erewrite bind_Raise by exact Hload. reflexivity.
Qed.

(** A dry run is its prologue and the [try] of [main]: there is no
    publisher to clean up. *)
Lemma main_dry_run config :
  loads w a config -> dry_run a = true ->
  run_main w a
  = (let '(r, s', t) := main_try w a config (settings_of config) initial_state in
     (r, s', (if verbose a then [EvPrint Stdout (MsgLoading (config_file a))] else []) ++ t)).
Proof.
  intros Hloads Hdry.
  rewrite (main_run w a config Hloads (or_introl Hdry)).
  unfold loop_state, run_prologue. rewrite Hdry.
  pose proof (stays_main_try w a config (settings_of config) initial_state) as [_ Hpub].
  destruct (main_try w a config (settings_of config) initial_state) as [[r s'] t].
  unfold state_of in Hpub. simpl in Hpub.
  rewrite (main_finally_none s') by (apply Hpub; reflexivity).
  rewrite !app_nil_r. reflexivity.
Qed.

Lemma main_dry_events :
  dry_run a = true -> Forall (job_event true) (trace_of (run_main w a)).
Proof.
  intros Hdry.
  assert (Hloading : Forall (job_event true)
            (if verbose a then [EvPrint Stdout (MsgLoading (config_file a))] else []))
    by (destruct (verbose a); repeat constructor).
  destruct (load_config_cases w (config_file a) initial_state)
    as (r & t & Hload & Ht & Hret & _).
  destruct r as [config | e].
  - destruct (Hret config eq_refl) as [Hread Hvalid].
    rewrite (main_dry_run config (conj Hread Hvalid) Hdry).
    pose proof (stays_main_try w a config (settings_of config) initial_state) as [Htry _].
    rewrite Hdry in Htry.
    destruct (main_try w a config (settings_of config) initial_state) as [[r s'] t'].
    unfold trace_of in *. simpl in *. apply Forall_app. auto.
  - rewrite (run_main_load_fails e t Hload). unfold trace_of. simpl.
    apply Forall_app. auto.
Qed.

(** After a connection that succeeded, [disconnect] is the last call. *)
Lemma main_live_disconnects config :
  loads w a config -> dry_run a = false -> result_of (connecting w a config) = Ret true ->
  exists before inside,
    trace_of (run_main w a) = before ++ EvDisconnect :: map EvSession inside
    /\ disconnects_in before = 0%nat.
Proof.
  intros Hloads Hlive Hconn.
  rewrite (main_run w a config Hloads (or_intror Hconn)).
  pose proof (stays_main_try w a config (settings_of config) (loop_state w a config))
    as [Htry Hpub].
  destruct (main_try w a config (settings_of config) (loop_state w a config))
    as [[r s'] t].
  unfold state_of, trace_of in Hpub, Htry. simpl in Hpub, Htry.
  destruct (publisher s') as [p |] eqn:Hp.
  - rewrite (main_finally_some s' p Hp).
    exists (run_prologue w a config ++ t), (trace_of (session_disconnect p)).
    unfold trace_of at 1. simpl. split; [rewrite <- app_assoc; reflexivity |].
    rewrite disconnects_in_app, run_prologue_no_disconnect.
    rewrite (job_events_no_disconnect _ _ Htry). reflexivity.
  - exfalso. destruct Hpub as [Hpub _]. specialize (Hpub eq_refl).
    unfold loop_state in Hpub. rewrite Hlive in Hpub. discriminate.
Qed.

(** A connection that fails ends the run at once, before the [try]. *)
Lemma main_connect_fails config :
  loads w a config -> dry_run a = false -> result_of (connecting w a config) = Ret false ->
  run_main w a
  = (Raise (SystemExit 1),
     {| publisher := Some (state_of (connecting w a config)); generator_runs := 0 |},
     run_prologue w a config ++ [EvPrint Stderr MsgConnectFailed]).
Proof.
  intros Hloads Hlive Hconn.
  destruct (loads_shape w a config Hloads) as (Hsettings & Hbroker & _ & _).
  unfold run_main, main, run_prologue.
  assert (Hwhen : forall (s : state Sess),
             when (verbose a) (print Stdout (MsgLoading (config_file a))) s
             = (Ret tt, s,
                if verbose a then [EvPrint Stdout (MsgLoading (config_file a))] else []))
    by (intros s; destruct (verbose a); reflexivity).
  erewrite bind_Ret by apply Hwhen.
  erewrite bind_Ret by (apply load_config_loads; exact Hloads).
  rewrite Hsettings. erewrite bind_Ret by reflexivity. cbv beta.
  rewrite Hlive. simpl negb. cbv iota.
  assert (Hwhen2 : forall (s : state Sess),
             when (verbose a) (print Stdout MsgConnecting) s
             = (Ret tt, s, if verbose a then [EvPrint Stdout MsgConnecting] else []))
    by (intros s; destruct (verbose a); reflexivity).
  unfold connecting in *.
  destruct (session_connect (new_publisher w (broker_of config) (verbose a)))
    as [[rc p1] tc] eqn:Hsession.
  unfold result_of in Hconn. simpl in Hconn. subst rc.
  assert (Hconnect :
    bind (when (verbose a) (print Stdout MsgConnecting)) (fun _ =>
      bind (lift (Py.getitem config "mqtt_broker")) (fun broker_config =>
        bind (modify (set_publisher (Some (new_publisher w broker_config (verbose a)))))
          (fun _ =>
             bind publisher_connect (fun ok =>
               if negb ok
               then bind (print Stderr MsgConnectFailed) (fun _ => raise (SystemExit 1))
               else ret tt)))) initial_state
    = (Raise (SystemExit 1), {| publisher := Some p1; generator_runs := 0 |},
       ((if verbose a then [EvPrint Stdout MsgConnecting] else [])
        ++ EvConnect (Ret false) :: map EvSession tc)
       ++ [EvPrint Stderr MsgConnectFailed])).
  { erewrite bind_Ret by apply Hwhen2.
    rewrite Hbroker. erewrite bind_Ret by reflexivity.
    erewrite bind_Ret by reflexivity.
    unfold bind at 1. unfold publisher_connect. simpl. rewrite Hsession. simpl.
    rewrite <- !app_assoc. simpl. reflexivity. }
  erewrite bind_Raise by exact Hconnect.
  unfold state_of, trace_of, result_of. simpl.
  rewrite <- !app_assoc. reflexivity.
Qed.

End Cleanup.

(** C1, as the code has it.  In a live run whose configuration loads and
    whose connection succeeds, [disconnect] is called exactly once, and that
    call, with whatever happens inside it, is the end of the run; this holds
    whether the loop over the machines returns, exits or raises.  In a dry
    run no publisher exists and [disconnect] is never called. *)
Theorem disconnect_once_when_connected :
  (forall Sess (BS : BrokerSession Sess) (w : world Sess) (a : args) (config : json),
      loads w a config -> dry_run a = false ->
      result_of (connecting w a config) = Ret true ->
      disconnects_in (trace_of (run_main w a)) = 1%nat
      /\ exists before inside,
           trace_of (run_main w a) = before ++ EvDisconnect :: map EvSession inside)
  /\ (forall Sess (BS : BrokerSession Sess) (w : world Sess) (a : args),
        dry_run a = true -> disconnects_in (trace_of (run_main w a)) = 0%nat).
Proof.
  split.
  - intros Sess BS w a config Hloads Hlive Hconn.
    destruct (main_live_disconnects w a config Hloads Hlive Hconn)
      as (before & inside & Htrace & Hbefore).
    split; [| eauto]. rewrite Htrace, disconnects_in_app, Hbefore.
    change (disconnects_in (EvDisconnect :: map EvSession inside))
      with (S (disconnects_in (map EvSession inside))).
    rewrite disconnects_in_session. reflexivity.
  - intros Sess BS w a Hdry.
    eapply job_events_no_disconnect. apply main_dry_events. exact Hdry.
Qed.

(** ** The exit code *)

Section ExitCode.

Context {Sess : Type} {BS : BrokerSession Sess}.
Variable w : world Sess.
Variable a : args.
Variable config : json.
Hypothesis session_ok : session_total Sess.
Hypothesis config_loads : loads w a config.
Hypothesis run_starts : starts w a config.

Local Abbreviation total := (Z.of_nat (List.length (machines_of config))).

Lemma main_finally_quiet (s : state Sess) :
  exists s' t, main_finally s = (Ret tt, s', t) /\ published_in t = [].
Proof.
  destruct (publisher s) as [p |] eqn:Hp.
  - rewrite (main_finally_some s p Hp).
    destruct (disconnect_total Sess session_ok p) as [[] Hd]. rewrite Hd.
    eexists _, _. split; [reflexivity |].
    change (published_in (EvDisconnect :: map EvSession (trace_of (session_disconnect p))))
      with (published_in (map EvSession (trace_of (session_disconnect p)))).
    apply published_in_session.
  - rewrite (main_finally_none s Hp). eexists _, _. split; reflexivity.
Qed.

Lemma prints_not_published t :
  Forall (fun e => match e with EvPrint _ _ => True | _ => False end) t ->
  published_in t = [].
Proof.
  induction 1 as [| e t He _ IH]; [reflexivity |].
  destruct e; try contradiction. exact IH.
Qed.

(** A run whose loop returns [successful]: the result is the summary's and
    the trace is prologue, loop, and an epilogue that publishes nothing. *)
Lemma main_completes successful :
  result_of (run_loop w a config) = Ret successful ->
  result_of (run_main w a)
  = (if (successful =? 0) || (successful <? total) then Raise (SystemExit 1) else Ret tt)
  /\ exists epilogue,
       trace_of (run_main w a)
       = run_prologue w a config ++ trace_of (run_loop w a config) ++ epilogue
       /\ published_in epilogue = [].
Proof.
  intros Hloop.
  rewrite (main_run w a config config_loads run_starts).
  rewrite (main_try_unfold w a config _ config_loads).
  unfold run_loop in *. unfold bind.
  destruct (process_machines w a (settings_of config)
              (Z.of_nat (List.length (machines_of config))) 1 (machines_of config) 0
              (loop_state w a config)) as [[r s1] t1].
  unfold result_of in Hloop. simpl in Hloop. subst r.
  pose proof (summarize_result a total successful s1) as Hsum.
  pose proof (summarize_prints a total successful s1) as Hprints.
  destruct (summarize a total successful s1) as [[r2 s2] t2].
  unfold result_of in Hsum. simpl in Hsum.
  unfold trace_of in Hprints. simpl in Hprints.
  destruct (main_finally_quiet s2) as (s3 & t3 & -> & Ht3).
  unfold result_of, trace_of. simpl. split; [exact Hsum |].
  exists (t2 ++ t3). split; [rewrite <- !app_assoc; reflexivity |].
  rewrite published_in_app, Ht3, (prints_not_published _ Hprints). reflexivity.
Qed.

Lemma run_loop_bounds successful :
  result_of (run_loop w a config) = Ret successful -> 0 <= successful <= total.
Proof.
  intros Hloop. unfold run_loop in Hloop.
  destruct (process_machines w a (settings_of config)
              (Z.of_nat (List.length (machines_of config))) 1 (machines_of config) 0
              (loop_state w a config)) as [[r s1] t1] eqn:Hrun.
  unfold result_of in Hloop. simpl in Hloop. subst r.
  apply yields_process_machines in Hrun. lia.
Qed.

End ExitCode.

(** C4, as the code has it.  Once the loop over the machines has finished,
    the exit code is 0 if and only if at least one job is configured and
    every configured job succeeded; when no job succeeded (an empty list of
    jobs included) or only some did, it is 1.  Nothing is taken back: the
    trace of the run is that of the loop between a prologue and an epilogue
    in which nothing is published. *)
Theorem exit_code_semantics :
  forall Sess (BS : BrokerSession Sess) (w : world Sess) (a : args)
         (config : json) (successful : Z),
    session_total Sess -> loads w a config -> starts w a config ->
    result_of (run_loop w a config) = Ret successful ->
    let total := Z.of_nat (List.length (machines_of config)) in
    let code := exit_status (result_of (run_main w a)) in
    0 <= successful <= total
    /\ (code = 0 <-> 0 < total /\ successful = total)
    /\ (successful = 0 \/ successful < total -> code = 1)
    /\ exists epilogue,
         trace_of (run_main w a)
         = run_prologue w a config ++ trace_of (run_loop w a config) ++ epilogue
         /\ published_in epilogue = [].
Proof.
  intros Sess BS w a config successful Hsession Hloads Hstarts Hloop. cbv zeta.
  pose proof (run_loop_bounds w a config successful Hloop) as Hbounds.
  destruct (main_completes w a config Hsession Hloads Hstarts successful Hloop)
    as [Hresult Htrace].
  rewrite Hresult.
  split; [exact Hbounds |].
  destruct (Z.eqb_spec successful 0) as [Hzero | Hpos];
    destruct (Z.ltb_spec successful (Z.of_nat (List.length (machines_of config))))
      as [Hlt | Hge]; simpl; (split; [split; [discriminate || lia | lia] |]);
    (split; [intros; lia || reflexivity | exact Htrace]).
Qed.

(** ** Rejected and accepted configurations *)


(** C6, as the code has it.  Every configuration the loader accepts has a
    broker section in which [host] and [port] are found and a [machines]
    array each of whose entries is an object with a [type] and a [topic].
    The array may be empty: a configuration with a broker section (an object
    with [host] and [port]) and an empty [machines] array is accepted. *)
Theorem accepted_config_invariant :
  (forall Sess (w : world Sess) (path : string) (s : state Sess) (config : json),
      result_of (load_config w path s) = Ret config -> config_checked config)
  /\ (forall fields broker : gmap string json,
        fields !! "mqtt_broker" = Some (JObj broker) ->
        is_Some (broker !! "host") -> is_Some (broker !! "port") ->
        fields !! "machines" = Some (JArr []) ->
        validate_config (JObj fields) = Ret (JObj fields)).
Proof.
  split.
  - intros Sess w path s config Hload.
    destruct (load_config_cases w path s) as (r & t & Hrun & _ & Hret & _).
    rewrite Hrun in Hload. unfold result_of in Hload. simpl in Hload. subst r.
    destruct (Hret config eq_refl) as [_ Hvalid].
    apply validate_config_checked in Hvalid. apply Hvalid.
  - intros fields broker Hbroker Hhost Hport Hmachines.
    unfold validate_config. simpl. rewrite Hbroker, Hmachines. simpl.
    rewrite !bool_decide_eq_true_2 by assumption. reflexivity.
Qed.

(** ** Jobs without a payload, and dry runs *)

Section GenerationFacts.

Context {Sess : Type} {BS : BrokerSession Sess}.
Variable w : world Sess.
Variable a : args.







Lemma generated_in_app t1 t2 : generated_in (t1 ++ t2) = generated_in t1 ++ generated_in t2.
Proof. apply omap_app. Qed.




End GenerationFacts.




(** ** The properties on sample runs *)

Section Witnesses.

Import Sample SampleRuns.

Lemma one_press_loads sc a : loads (world_of one_press sc) a one_press.
Proof. split; reflexivity. Qed.

Lemma press_ready sc topic retry_attempts retry_delay config :
  0 <= retry_delay ->
  ready (world_of config sc) (connected_stub sc) (settings retry_attempts retry_delay)
    (machine "Press" topic) (press_job topic retry_attempts retry_delay).
Proof. intros Hdelay. constructor; try reflexivity. exact Hdelay. Qed.

Lemma connected_stub_at fails : stub_at fails 0 (connected_stub (Stub.fails_then_succeeds fails)).
Proof. eexists. repeat split. Qed.

(** A live run with one job and a willing broker; a dry run of the same. *)
Lemma disconnect_once_witness :
  (disconnects_in (trace_of (run_main (world_of one_press willing) live)) = 1%nat
   /\ exists before inside,
        trace_of (run_main (world_of one_press willing) live)
        = before ++ EvDisconnect :: map EvSession inside)
  /\ disconnects_in (trace_of (run_main (world_of one_press willing) dry)) = 0%nat.
Proof.
  split.
  - apply (proj1 disconnect_once_when_connected Stub.t _
             (world_of one_press willing) live one_press).
    + apply one_press_loads.
    + reflexivity.
    + reflexivity.
  - apply (proj2 disconnect_once_when_connected Stub.t _ (world_of one_press willing) dry).
    reflexivity.
Defined.

(** The configuration loads, the run is a dry run, and [disconnect] is not
    called once: it is not called at all. *)
Lemma dry_run_never_disconnects :
  loads (world_of one_press willing) dry one_press
  /\ disconnects_in (trace_of (run_main (world_of one_press willing) dry)) <> 1%nat.
Proof. split; [apply one_press_loads | vm_compute; discriminate]. Qed.

(** The same configuration with a broker that refuses the connection: the
    run exits before the [try], and [disconnect] is not called. *)
Lemma refused_connection_never_disconnects :
  loads (world_of one_press refusing) live one_press
  /\ run_main (world_of one_press refusing) live
     = (Raise (SystemExit 1),
        {| publisher :=
             Some {| Stub.behaviour := refusing; Stub.connects := 1;
                     Stub.attempts := 0; Stub.disconnects := 0 |};
           generator_runs := 0 |},
        [EvConnect (Ret false); EvPrint Stderr MsgConnectFailed]).
Proof. split; [apply one_press_loads | reflexivity]. Qed.

(** Two failures, then success: a budget of three succeeds at the third
    attempt, a budget of two gives up after the second. *)
Lemma retry_semantics_witness :
  (attempts_in
     (trace_of (process_machine (world_of one_press willing) live (settings 3 1) 1 1
                  (machine "Press" press_topic) 0 (connected_stub willing)))
   <= retry_budget (settings 3 1))%nat
  /\ (exists published : bool,
        let out :=
          process_machine (world_of one_press (Stub.fails_then_succeeds 2)) live
            (settings 3 1) 1 1 (machine "Press" press_topic) 0
            (connected_stub (Stub.fails_then_succeeds 2)) in
        result_of out = Ret (0 + (if published then 1 else 0))
        /\ retried 1 3 (timeline (trace_of out)) published)
  /\ (let out :=
        process_machine (world_of one_press (Stub.fails_then_succeeds 2)) live
          (settings 3 1) 1 1 (machine "Press" press_topic) 0
          (connected_stub (Stub.fails_then_succeeds 2)) in
      result_of out = Ret (0 + 1)
      /\ attempts_in (trace_of out) = 3%nat
      /\ stub_at 2 3 (state_of out)
      /\ timeline (trace_of out) = failures_then 1 2 [Attempt (Ret true)])
  /\ (let out :=
        process_machine (world_of one_press (Stub.fails_then_succeeds 2)) live
          (settings 2 1) 1 1 (machine "Press" press_topic) 0
          (connected_stub (Stub.fails_then_succeeds 2)) in
      result_of out = Ret 0
      /\ attempts_in (trace_of out) = 2%nat
      /\ stub_at 2 2 (state_of out)
      /\ timeline (trace_of out) = all_failed 1 2
      /\ EvPrint Stderr (MsgPublishGaveUp (JStr "Press") (JNum 2)) ∈ trace_of out).
Proof.
  split; [| split; [| split]].
  - apply (proj1 retry_semantics).
  - apply (proj1 (proj2 retry_semantics) Stub.t _ _ live (settings 3 1)
             (machine "Press" press_topic) 1 1 (press_job press_topic 3 1)).
    + apply stub_session_total.
    + reflexivity.
    + apply press_ready. lia.
    + eexists. reflexivity.
  - apply (proj1 (proj2 (proj2 retry_semantics) _ live (settings 3 1)
                    (machine "Press" press_topic) 1 1 (press_job press_topic 3 1) 0
                    (connected_stub (Stub.fails_then_succeeds 2)) 2%nat eq_refl
                    (press_ready _ press_topic 3 1 one_press ltac:(lia))
                    (connected_stub_at 2))).
    reflexivity.
  - apply (proj2 (proj2 (proj2 retry_semantics) _ live (settings 2 1)
                    (machine "Press" press_topic) 1 1 (press_job press_topic 2 1) 0
                    (connected_stub (Stub.fails_then_succeeds 2)) 2%nat eq_refl
                    (press_ready _ press_topic 2 1 one_press ltac:(lia))
                    (connected_stub_at 2))).
    reflexivity.
Defined.

(** A topic that ends with the suffix and one that does not. *)
Lemma topic_shape_transform_witness :
  publish_payload_for (JStr typed_topic) payload = Ret inner
  /\ publish_payload_for (JStr press_topic) payload = Ret payload
  /\ (exists sent,
        publish_payload_for (JStr typed_topic) payload = Ret sent
        /\ Forall (fun pair => pair = (JStr typed_topic, sent))
             (published_in
                (trace_of
                   (process_machine (world_of one_press willing) live (settings 3 1) 1 1
                      (machine "Press" typed_topic) 0 (connected_stub willing))))).
Proof.
  split; [| split].
  - apply (proj1 (proj2 topic_shape_transform)); reflexivity.
  - apply (proj1 (proj2 (proj2 topic_shape_transform))); reflexivity.
  - apply (proj1 (proj2 (proj2 (proj2 topic_shape_transform))) Stub.t _ _ live (settings 3 1)
             (machine "Press" typed_topic) 1 1 (press_job typed_topic 3 1)).
    + reflexivity.
    + apply press_ready. lia.
Defined.

Lemma press_and_bogus_loads sc a : loads (world_of press_and_bogus sc) a press_and_bogus.
Proof. split; reflexivity. Qed.

(** One job published, one without a payload: exit code 1; and the run of
    the single job that succeeds: exit code 0. *)
Lemma exit_code_semantics_witness :
  exit_status (result_of (run_main (world_of press_and_bogus willing) live)) = 1
  /\ exit_status (result_of (run_main (world_of one_press willing) live)) = 0.
Proof.
  split.
  - apply (exit_code_semantics Stub.t _ (world_of press_and_bogus willing) live
             press_and_bogus 1 stub_session_total (press_and_bogus_loads _ _)
             (or_intror eq_refl) eq_refl).
    right. reflexivity.
  - apply (exit_code_semantics Stub.t _ (world_of one_press willing) live
             one_press 1 stub_session_total (one_press_loads _ _)
             (or_intror eq_refl) eq_refl).
    split; reflexivity.
Defined.

Lemma no_machines_loads sc a : loads (world_of no_machines sc) a no_machines.
Proof. split; reflexivity. Qed.

(** No machine is configured: the loop returns 0 successes out of 0 jobs,
    so every configured job succeeded, and the exit code is 1. *)
Lemma all_of_no_jobs_succeeded_yet_exit_code_1 :
  loads (world_of no_machines willing) live no_machines
  /\ result_of (run_loop (world_of no_machines willing) live no_machines)
     = Ret (Z.of_nat (List.length (machines_of no_machines)))
  /\ exit_status (result_of (run_main (world_of no_machines willing) live)) = 1.
Proof. split; [apply no_machines_loads | split; reflexivity]. Qed.



(** The sample configuration is accepted and has the shape; so is the one
    without machines. *)
Lemma accepted_config_invariant_witness :
  config_checked one_press
  /\ validate_config no_machines = Ret no_machines.
Proof.
  split.
  - apply (proj1 accepted_config_invariant Stub.t (world_of one_press willing)
             "publish_config.json" initial_state one_press).
    reflexivity.
  - apply (proj2 accepted_config_invariant _
             (list_to_map [("host", JStr "localhost"); ("port", JNum 1883)])).
    + reflexivity.
    + eexists; reflexivity.
    + eexists; reflexivity.
    + reflexivity.
Defined.

(** The loader accepts a configuration whose [machines] array is empty. *)
Lemma empty_machines_accepted :
  load_config (world_of no_machines willing) "publish_config.json" initial_state
  = (Ret no_machines, initial_state, [])
  /\ machines_of no_machines = [].
Proof. split; reflexivity. Qed.






(** A payload without the wrapper key: the job raises [KeyError] after its
    publication, and [disconnect] is still the last call of the run. *)
Lemma disconnect_after_job_loop_exception :
  run_main bare_world live
  = (Raise (KeyError "MachineIdentificationType"),
     {| publisher :=
          Some {| Stub.behaviour := willing; Stub.connects := 1;
                  Stub.attempts := 1; Stub.disconnects := 1 |};
        generator_runs := 1 |},
     [EvConnect (Ret true); EvGenerate (JStr "Press");
      EvPublish (JStr press_topic) (obj []) (JNum 30) (Ret true);
      EvDisconnect]).
Proof. reflexivity. Qed.

(** The whole script over the MQTT publisher and a friendly network: one
    attempt, acknowledged; exit code 0; the client is asked to connect, to
    start its loop, to publish, to stop its loop and to disconnect. *)
Lemma live_run_over_mqtt :
  let out := run_main (mqtt_world one_press friendly) live in
  exit_status (result_of out) = 0
  /\ timeline (trace_of out) = [Attempt (Ret true)]
  /\ omap (fun e => match e with EvSession (SNet action) => Some action | _ => None end)
        (trace_of out)
     = [NetConnect (JStr "localhost") (JNum 1883) (JNum 60); NetLoopStart;
        NetPublish (JStr press_topic) payload (JNum 0) (JBool false);
        NetLoopStop; NetDisconnect].
Proof. vm_compute. repeat split. Qed.

End Witnesses.

(** ** More on the dates *)

Section DateEdges.

Import GenerateSamplePayloads.

Lemma days_of_whole_days n : days (timedelta_days n) = n.
Proof. unfold days, timedelta_days. apply Z.div_mul. discriminate. Qed.

(** X1. [generate_construction_date] never raises: whatever the draw, it
    returns the clock reading moved back by a whole number of days between
    0 and 20 * 365, so the time of day is that of the reading. *)
Theorem construction_date_whole_days_back :
  forall now rnd : Z,
    exists back : Z,
      0 <= back <= 20 * 365
      /\ generate_construction_date now rnd = Ret (now - timedelta_days back).
Proof.
  intros now rnd. unfold generate_construction_date. cbv zeta.
  replace (now - (now - timedelta_days (20 * 365))) with (timedelta_days (20 * 365)) by lia.
  rewrite days_of_whole_days.
  destruct (randint_range 0 (20 * 365) rnd) as (r & -> & Hr); [lia |].
  exists (20 * 365 - r). split; [lia |]. simpl. f_equal.
  unfold timedelta_days. lia.
Qed.

(** X2. For a construction date that is not in the future, the operation
    date lies within the last 10 * 365 days before the clock reading, as the
    docstring says, and is a whole number of days after the later of the
    construction date and the start of that period. *)
Theorem operation_date_within_ten_years :
  forall now rnd construction_date : Z,
    construction_date <= now ->
    exists d forward : Z,
      generate_operation_date now rnd construction_date = Ret d
      /\ now - timedelta_days (10 * 365) <= d
      /\ 0 <= forward
      /\ d = Z.max construction_date (now - timedelta_days (10 * 365))
             + timedelta_days forward.
Proof.
  intros now rnd c Hc. unfold generate_operation_date. cbv zeta.
  assert (Hday : 0 < timedelta_days (10 * 365)) by reflexivity.
  destruct (Z.geb_spec (Z.max c (now - timedelta_days (10 * 365))) now) as [Hge | Hlt].
  - assert (c = now) by lia. subst c.
    rewrite Z.sub_diag. change (days 0) with 0.
    destruct (randint_range 0 0 rnd) as (r & -> & Hr); [lia |].
    assert (r = 0) by lia. subst r. simpl.
    eexists _, 0. split; [reflexivity |].
    split; [unfold timedelta_days, day; lia |]. split; [lia |].
    rewrite Z.max_l by (unfold timedelta_days, day; lia). reflexivity.
  - destruct (randint_range 0 (days (now - Z.max c (now - timedelta_days (10 * 365)))) rnd)
      as (r & -> & Hr).
    { apply days_nonneg. lia. }
    simpl. eexists _, r. split; [reflexivity |].
    assert (0 <= timedelta_days r) by (unfold timedelta_days, day; lia).
    split; [lia |]. split; [lia | reflexivity].
Qed.

Lemma operation_date_within_ten_years_witness :
  exists d forward : Z,
    generate_operation_date (timedelta_days 9000) 5 (timedelta_days 100) = Ret d
    /\ timedelta_days 9000 - timedelta_days (10 * 365) <= d
    /\ 0 <= forward
    /\ d = Z.max (timedelta_days 100) (timedelta_days 9000 - timedelta_days (10 * 365))
           + timedelta_days forward.
Proof.
  apply operation_date_within_ten_years. vm_compute. discriminate.
Defined.

(** X3. [generate_operation_date] returns exactly when the construction
    date is not after the clock reading; for a construction date in the
    future, even by one microsecond, [random.randint] is given an empty
    range and the call raises [ValueError]. *)
Theorem operation_date_future_construction :
  forall now rnd construction_date : Z,
    (now < construction_date ->
     generate_operation_date now rnd construction_date = Raise ValueError)
    /\ ((exists d, generate_operation_date now rnd construction_date = Ret d)
        <-> construction_date <= now).
Proof.
  intros now rnd c.
  assert (Hfuture : now < c -> generate_operation_date now rnd c = Raise ValueError).
  { intros Hlt. unfold generate_operation_date. cbv zeta.
    destruct (Z.geb_spec (Z.max c (now - timedelta_days (10 * 365))) now) as [_ | Hlt'];
      [| lia].
    unfold randint.
    assert (Hneg : days (now - c) < 0).
    { unfold days. apply Z.div_lt_upper_bound; [apply day_pos | lia]. }
    destruct (Z.ltb_spec (days (now - c)) 0); [reflexivity | lia]. }
  split; [exact Hfuture |]. split.
  - intros [d Hd]. destruct (Z.le_gt_cases c now) as [Hle | Hgt]; [exact Hle |].
    rewrite (Hfuture Hgt) in Hd. discriminate.
  - intros Hle. destruct (operation_date_range now rnd c Hle) as (d & Hd & _). eauto.
Qed.

Lemma operation_date_future_construction_witness :
  generate_operation_date 1000 7 1001 = Raise ValueError
  /\ exists d, generate_operation_date 1000 7 1000 = Ret d.
Proof.
  split.
  - apply (proj1 (operation_date_future_construction 1000 7 1001)). lia.
  - apply (proj2 (operation_date_future_construction 1000 7 1000)). lia.
Defined.

End DateEdges.

(** ** Counting events, and components of the state that stay *)

Section CountingFacts.

Context {St Ev : Type}.




Lemma weighs_le_weaken {A} (f : Ev -> nat) n n' (m : M St Ev A) :
  (n <= n')%nat -> weighs_le f n m -> weighs_le f n' m.
Proof. intros Hle Hm s. specialize (Hm s). lia. Qed.





Lemma emits_weaken {A} (P Q : Ev -> Prop) (m : M St Ev A) :
  (forall e, P e -> Q e) -> emits P m -> emits Q m.
Proof. intros HPQ Hm s. eapply Forall_impl; [apply Hm | exact HPQ]. Qed.

Lemma emits_silent {A} (P : Ev -> Prop) (m : M St Ev A) :
  (forall s, trace_of (m s) = []) -> emits P m.
Proof. intros H s. rewrite H. constructor. Qed.


Lemma keeps_still {A B} (f : St -> B) (m : M St Ev A) :
  (forall s, state_of (m s) = s) -> keeps f m.
Proof. intros H s. rewrite H. reflexivity. Qed.






Lemma trace_of_bind_Ret {A B} (m : M St Ev A) (k : A -> M St Ev B) s a s1 t1 :
  m s = (Ret a, s1, t1) -> trace_of (bind m k s) = t1 ++ trace_of (k a s1).
Proof. intros H. unfold bind. rewrite H. destruct (k a s1) as [[r s2] t2]. reflexivity. Qed.


End CountingFacts.

(** ** MQTTPublisher: what the callbacks and the waiting loops do *)

Section PublisherEvents.

Import MQTTPublisher PublisherSpec.

Lemma callbacks_print cs : emits printed (run_callbacks cs).
Proof.
  induction cs as [| c rest IH]; simpl; [apply emits_ret |].
  apply emits_bind; [| intros _; exact IH].
  destruct c as [rc | mid | rc]; simpl;
    unfold on_connect, on_publish, on_disconnect, print;
    try destruct (rc =? 0);
    repeat first [ apply emits_bind; [| intros ?]
                 | apply emits_when
                 | apply emits_emit; exact I
                 | apply emits_silent; intros ?; reflexivity ].
Qed.

Lemma background_prints : emits printed background.
Proof.
  unfold background.
  apply emits_bind; [apply emits_silent; intros ?; reflexivity | intros k].
  apply emits_bind; [apply emits_silent; intros ?; reflexivity | intros n].
  apply emits_bind; [apply emits_silent; intros ?; reflexivity | intros _].
  apply callbacks_print.
Qed.




(** One poll is one sleep; the callbacks that run meanwhile only print. *)
Lemma sleep_tenth_events (P : sevent -> Prop) :
  P SSleepTenth -> (forall e, printed e -> P e) -> emits P sleep_tenth.
Proof.
  intros Hsleep Hprint. unfold sleep_tenth.
  apply emits_bind; [apply emits_emit; exact Hsleep | intros _].
  eapply emits_weaken; [exact Hprint | apply background_prints].
Qed.




Lemma wait_connected_events (P : sevent -> Prop) remaining :
  P SSleepTenth -> (forall e, printed e -> P e) -> emits P (wait_connected remaining).
Proof.
  intros Hsleep Hprint.
  induction remaining as [| r IH]; simpl;
    (apply emits_bind; [apply emits_silent; intros ?; reflexivity | intros c]);
    destruct c; try apply emits_ret.
  apply emits_bind; [apply sleep_tenth_events; assumption | intros _; exact IH].
Qed.







End PublisherEvents.

(** ** MQTTPublisher.connect *)

Section ConnectFacts.

Import MQTTPublisher PublisherSpec.








End ConnectFacts.

Section ConnectContract.

Import MQTTPublisher PublisherSpec.



(** X5. A publisher whose broker configuration is not an object (the
    loader lets a string or an array through when it contains "host" and
    "port") cannot connect: [connect] returns false at once, with the
    attribute error on stderr, and neither creates a client nor asks
    anything of the network. *)
Theorem connect_needs_object (p : t) :
  Py.isinstance_dict (broker_config p) = false ->
  connect p = (Ret false, p, [SPrint Stderr (MsgConnectError AttributeError)]).
Proof.
  intros H. unfold connect, except_Exception, connect_body.
  erewrite bind_Ret by reflexivity. cbv beta.
  destruct (broker_config p); try discriminate; reflexivity.
Qed.

Lemma connect_needs_object_witness :
  connect (init SampleRuns.friendly (JStr "host=localhost port=1883") false)
  = (Ret false, init SampleRuns.friendly (JStr "host=localhost port=1883") false,
     [SPrint Stderr (MsgConnectError AttributeError)]).
Proof. apply connect_needs_object. reflexivity. Defined.

End ConnectContract.

Section ConnectTimeout.

Import MQTTPublisher PublisherSpec.







End ConnectTimeout.

Section Credentials.

Import MQTTPublisher PublisherSpec.

Lemma emits_bind_returns {St Ev A B} (P : Ev -> Prop) (m : M St Ev A) (k : A -> M St Ev B) :
  emits P m -> (forall x, returns m x -> emits P (k x)) -> emits P (bind m k).
Proof.
  intros Hm Hk s. specialize (Hm s). unfold bind.
  destruct (m s) as [[[x | e] s1] t1] eqn:Hrun; unfold trace_of in *; simpl in *.
  - assert (Hret : returns m x) by (exists s, s1, t1; exact Hrun).
    specialize (Hk x Hret s1). destruct (k x s1) as [[r s2] t2]. simpl in *.
    apply Forall_app. auto.
  - exact Hm.
Qed.

Lemma emits_apply {St Ev A} (P : Ev -> Prop) (m : M St Ev A) s :
  emits P m -> Forall P (trace_of (m s)).
Proof. intros H. apply H. Qed.

Lemma trace_of_except {St Ev A} (body : M St Ev A) handler s :
  exists th,
    trace_of (except_Exception body handler s) = trace_of (body s) ++ th
    /\ (th = [] \/ exists e p', th = trace_of (handler e p')).
Proof.
  unfold except_Exception.
  destruct (body s) as [[[x | e] s1] t1].
  - exists []. rewrite app_nil_r. auto.
  - destruct (is_Exception e).
    + exists (trace_of (handler e s1)). split; [| right; eauto].
      destruct (handler e s1) as [[r s2] t2]. reflexivity.
    + exists []. rewrite app_nil_r. auto.
Qed.

(** What [connect] emits is what the body of its [try] emits, and
    possibly the message of the handler. *)
Lemma connect_trace p :
  exists th, trace_of (connect p) = trace_of (connect_body p) ++ th /\ Forall printed th.
Proof.
  destruct (trace_of_except connect_body
              (fun e => bind (print Stderr (MsgConnectError e)) (fun _ => ret false)) p)
    as (th & Htrace & Hth).
  exists th. split; [exact Htrace |].
  destruct Hth as [-> | (e & p' & ->)]; repeat constructor.
Qed.

(** X7. [connect] hands credentials to the client exactly when the broker
    configuration has both a username and a password and both are truthy:
    an empty or missing password (or username) means no authentication at
    all, and the values handed over are those of the configuration. *)
Theorem credentials_need_both (p : t) (cfg : gmap string json) (u pw : json) :
  broker_config p = JObj cfg ->
  SNet (NetUsernamePwSet u pw) ∈ trace_of (connect p)
  <-> cfg !! "username" = Some u /\ Py.truthy u = true
      /\ cfg !! "password" = Some pw /\ Py.truthy pw = true.
Proof.
  intros Hcfg.
  destruct (connect_trace p) as (th & -> & Hth).
  rewrite elem_of_app.
  unfold connect_body. erewrite trace_of_bind_Ret by reflexivity. cbv beta.
  rewrite Hcfg, app_nil_l.
  split.
  - intros [Hin | Hin].
    2: { rewrite Forall_forall in Hth. apply Hth in Hin. contradiction. }
    pose (P := fun e : sevent =>
              forall u pw, e = SNet (NetUsernamePwSet u pw) ->
                cfg !! "username" = Some u /\ Py.truthy u = true
                /\ cfg !! "password" = Some pw /\ Py.truthy pw = true).
    match type of Hin with _ ∈ ?tr => assert (Hall : Forall P tr) end;
      [| rewrite Forall_forall in Hall; exact (Hall _ Hin u pw eq_refl)].
    clear Hin.
    apply emits_apply.
    assert (Hother : forall e, (forall u pw, e <> SNet (NetUsernamePwSet u pw)) -> P e).
    { intros e He u0 pw0 ->. exfalso. exact (He _ _ eq_refl). }
    apply emits_bind; [apply emits_silent; intros ?; reflexivity | intros client_id].
    apply emits_bind; [apply emits_silent; intros ?; reflexivity | intros _].
    apply emits_bind_returns; [apply emits_silent; intros ?; reflexivity |].
    intros username (s & s' & t & Husername).
    apply emits_bind.
    { destruct (Py.truthy username) eqn:Htu; [| apply emits_ret].
      apply emits_bind_returns; [apply emits_silent; intros ?; reflexivity |].
      intros password (s1 & s1' & t1 & Hpassword).
      destruct (Py.truthy password) eqn:Htp; [| apply emits_ret].
      apply emits_bind_returns; [apply emits_silent; intros ?; reflexivity |].
      intros u0 (s2 & s2' & t2 & Hu0).
      apply emits_bind_returns; [apply emits_silent; intros ?; reflexivity |].
      intros pw0 (s3 & s3' & t3 & Hpw0).
      apply emits_emit. intros u1 pw1 H. injection H as <- <-.
      unfold lift in *. simpl in *.
      injection Husername as <- _. injection Hpassword as <- _.
      destruct (cfg !! "username"); [| discriminate].
      destruct (cfg !! "password"); [| discriminate].
      injection Hu0 as <- _. injection Hpw0 as <- _. auto. }
    intros _.
    do 3 (apply emits_bind; [apply emits_silent; intros ?; reflexivity | intros ?]).
    apply emits_bind; [apply emits_emit, Hother; discriminate | intros _].
    apply emits_bind; [apply emits_silent; intros ?; reflexivity | intros n].
    destruct (connect_raises n); [apply emits_raise |].
    apply emits_bind; [apply emits_emit, Hother; discriminate | intros _].
    apply emits_bind.
    { apply wait_connected_events; [apply Hother; discriminate |].
      intros e He. apply Hother. destruct e; try contradiction. discriminate. }
    intros _.
    apply emits_bind; [apply emits_silent; intros ?; reflexivity | intros c].
    destruct c; [apply emits_ret | apply emits_raise].
  - intros (Hu & Htu & Hpw & Htp). left.
    erewrite trace_of_bind_Ret by reflexivity.
    erewrite trace_of_bind_Ret by reflexivity.
    erewrite trace_of_bind_Ret by reflexivity. cbv beta.
    erewrite trace_of_bind_Ret
      by (unfold bind, lift; simpl; rewrite Hu; simpl; rewrite Htu, Hpw; simpl;
          rewrite Htp; reflexivity).
    rewrite !elem_of_app, !elem_of_cons. do 3 right. left. left. reflexivity.
Qed.

Lemma credentials_need_both_witness :
  SNet (NetUsernamePwSet (JStr "operator") (JStr "secret"))
  ∈ trace_of (connect (init SampleRuns.friendly
                         (Sample.obj [("host", JStr "localhost"); ("port", JNum 1883);
                                      ("username", JStr "operator");
                                      ("password", JStr "secret")]) false)).
Proof.
  apply (credentials_need_both
           (init SampleRuns.friendly
              (Sample.obj [("host", JStr "localhost"); ("port", JNum 1883);
                           ("username", JStr "operator"); ("password", JStr "secret")])
              false)
           (list_to_map [("host", JStr "localhost"); ("port", JNum 1883);
                         ("username", JStr "operator"); ("password", JStr "secret")])
           (JStr "operator") (JStr "secret")).
  - reflexivity.
  - repeat split; reflexivity.
Defined.

End Credentials.

(** ** MQTTPublisher.publish: requests and polls *)

Section PublishEvents.

Import MQTTPublisher PublisherSpec.

Lemma trace_of_bind {St Ev A B} (m : M St Ev A) (k : A -> M St Ev B) s :
  trace_of (bind m k s)
  = trace_of (m s) ++ match result_of (m s) with
                      | Ret x => trace_of (k x (state_of (m s)))
                      | Raise _ => []
                      end.
Proof.
  unfold bind. destruct (m s) as [[[x | e] s1] t1].
  - unfold result_of, state_of. simpl. destruct (k x s1) as [[r s2] t2]. reflexivity.
  - unfold trace_of, result_of. simpl. rewrite app_nil_r. reflexivity.
Qed.









End PublishEvents.

(** ** More on the loader *)

Section LoaderEdges.

Context {Sess : Type}.
Variable w : world Sess.

Lemma check_machines_complete i machines :
  Forall machine_entry_ok machines -> check_machines i machines = Ret tt.
Proof.
  intros H. revert i. induction H as [| machine rest Hm _ IH]; intros i; [reflexivity |].
  destruct Hm as (fields & -> & Htype & Htopic). simpl.
  rewrite (bool_decide_eq_true_2 _ Htype), (bool_decide_eq_true_2 _ Htopic). simpl.
  apply IH.
Qed.

Lemma check_machines_first i good bad rest :
  Forall machine_entry_ok good -> machine_entry_defect bad ->
  check_machines i (good ++ bad :: rest)
  = Raise (ConfigValueError (entry_complaint (i + List.length good) bad)).
Proof.
  intros Hgood Hbad. revert i.
  induction Hgood as [| machine good Hm _ IH]; intros i.
  - simpl. rewrite Nat.add_0_r.
    destruct bad as [| | | | |fields]; try reflexivity.
    simpl in *. destruct Hbad as [Hnone | Hnone].
    + rewrite Hnone. reflexivity.
    + destruct (fields !! "type") as [x |] eqn:Htype; [| reflexivity].
      rewrite Hnone. reflexivity.
  - destruct Hm as (fields & -> & Htype & Htopic). simpl.
    rewrite (bool_decide_eq_true_2 _ Htype), (bool_decide_eq_true_2 _ Htopic). simpl.
    rewrite IH. do 3 f_equal. lia.
Qed.

Lemma validate_config_complete config :
  config_checked config -> validate_config config = Ret config.
Proof.
  intros (fields & broker & items & -> & Hbroker & Hhost & Hport & Hmachines & Hitems).
  unfold validate_config. simpl. rewrite Hbroker, Hmachines. simpl.
  rewrite Hhost. simpl. rewrite Hport. simpl.
  rewrite (check_machines_complete 0 items Hitems). reflexivity.
Qed.

(** X10. The loader accepts exactly the documents that pass its checks:
    an object with a [machines] array whose entries are objects with a
    [type] and a [topic], and a broker section in which [in] finds "host"
    and "port" (key membership on an object; but also element membership
    on an array and substring search on a string).  An accepted document is
    returned as it was read, and nothing is printed. *)
Theorem loader_accepts_exactly (path : string) (config : json) (s : state Sess) :
  read_json w path = Parsed config ->
  (load_config w path s = (Ret config, s, []) <-> config_checked config)
  /\ (forall config' s' t, load_config w path s = (Ret config', s', t) ->
        config' = config /\ s' = s /\ t = []).
Proof.
  intros Hread. unfold load_config. rewrite Hread. split; [split |].
  - destruct (validate_config config) as [c | e] eqn:Hvalid.
    + intros _. apply validate_config_checked in Hvalid. tauto.
    + destruct e; discriminate.
  - intros Hchecked. rewrite (validate_config_complete config Hchecked). reflexivity.
  - intros config' s' t.
    destruct (validate_config config) as [c | e] eqn:Hvalid.
    + apply validate_config_checked in Hvalid as [-> _].
      intros H. injection H as <- <- <-. auto.
    + destruct e; discriminate.
Qed.

(** X11. Of several defective machine entries the loader reports the
    first: when the entries before position [i] are well formed and the
    one at [i] is not, the complaint is about entry [i], and it is about
    its shape before its [type], and about its [type] before its [topic]. *)
Theorem first_defective_entry_reported (path : string) (fields broker : gmap string json)
    (good rest : list json) (bad : json) (s : state Sess) :
  read_json w path = Parsed (JObj fields) ->
  fields !! "mqtt_broker" = Some (JObj broker) ->
  is_Some (broker !! "host") -> is_Some (broker !! "port") ->
  fields !! "machines" = Some (JArr (good ++ bad :: rest)) ->
  Forall machine_entry_ok good ->
  machine_entry_defect bad ->
  load_config w path s
  = (Raise (SystemExit 1), s,
     [EvPrint Stderr (MsgConfigInvalid (entry_complaint (List.length good) bad))]).
Proof.
  intros Hread Hbroker Hhost Hport Hmachines Hgood Hbad.
  unfold load_config. rewrite Hread.
  unfold validate_config. simpl. rewrite Hbroker, Hmachines. simpl.
  rewrite (bool_decide_eq_true_2 _ Hhost), (bool_decide_eq_true_2 _ Hport). simpl.
  rewrite (check_machines_first 0 good bad rest Hgood Hbad). reflexivity.
Qed.

(** X12. A broker section that is [null], a boolean or a number is not
    reported as an invalid configuration: the membership test on it raises
    a [TypeError] that [load_config] does not catch, so the loader prints
    nothing and the exception leaves it. *)
Theorem scalar_broker_section_raises (path : string) (fields : gmap string json)
    (broker : json) (items : list json) (s : state Sess) :
  read_json w path = Parsed (JObj fields) ->
  fields !! "mqtt_broker" = Some broker ->
  not_iterable broker ->
  fields !! "machines" = Some (JArr items) ->
  load_config w path s = (Raise TypeError, s, []).
Proof.
  intros Hread Hbroker Hscalar Hmachines.
  unfold load_config. rewrite Hread.
  unfold validate_config. simpl. rewrite Hbroker, Hmachines. simpl.
  destruct broker; try contradiction; reflexivity.
Qed.

End LoaderEdges.

Section LoaderEdgesWitnesses.

Import Sample SampleRuns.

(** A broker section that is a string mentioning "host" and "port" passes. *)
Lemma loader_accepts_exactly_witness :
  let config := obj [("mqtt_broker", JStr "host=localhost port=1883");
                     ("machines", JArr [machine "Press" press_topic])] in
  load_config (world_of config willing) "publish_config.json" initial_state
  = (Ret config, initial_state, []).
Proof.
  cbv zeta.
  apply (loader_accepts_exactly
           (world_of (obj [("mqtt_broker", JStr "host=localhost port=1883");
                           ("machines", JArr [machine "Press" press_topic])]) willing)
           "publish_config.json"
           (obj [("mqtt_broker", JStr "host=localhost port=1883");
                 ("machines", JArr [machine "Press" press_topic])])
           initial_state eq_refl).
  eexists _, _, _. split; [reflexivity |].
  split; [reflexivity |]. split; [reflexivity |]. split; [reflexivity |].
  split; [reflexivity |].
  constructor; [| constructor]. eexists. split; [reflexivity |].
  split; eexists; reflexivity.
Defined.

(** The second entry has neither [type] nor [topic], the third is no
    object: the complaint is about the [type] of entry 1. *)
Lemma first_defective_entry_reported_witness :
  let machines := [machine "Press" press_topic; obj []; JNum 3] in
  let fields : gmap string json :=
    list_to_map [("mqtt_broker", broker); ("machines", JArr machines)] in
  load_config (world_of (JObj fields) willing) "publish_config.json" initial_state
  = (Raise (SystemExit 1), initial_state,
     [EvPrint Stderr (MsgConfigInvalid (MachineMissingType 1))]).
Proof.
  cbv zeta.
  apply (first_defective_entry_reported
           (world_of (JObj (list_to_map [("mqtt_broker", broker);
                                         ("machines", JArr [machine "Press" press_topic;
                                                            obj []; JNum 3])])) willing)
           "publish_config.json"
           (list_to_map [("mqtt_broker", broker);
                         ("machines", JArr [machine "Press" press_topic; obj []; JNum 3])])
           (list_to_map [("host", JStr "localhost"); ("port", JNum 1883)])
           [machine "Press" press_topic] [JNum 3] (obj []) initial_state).
  - reflexivity.
  - reflexivity.
  - eexists; reflexivity.
  - eexists; reflexivity.
  - reflexivity.
  - constructor; [| constructor]. eexists. split; [reflexivity |].
    split; eexists; reflexivity.
  - left. reflexivity.
Defined.

Lemma scalar_broker_section_raises_witness :
  let fields : gmap string json :=
    list_to_map [("mqtt_broker", JNum 1883); ("machines", JArr [])] in
  load_config (world_of (JObj fields) willing) "publish_config.json" initial_state
  = (Raise TypeError, initial_state, []).
Proof.
  cbv zeta.
  apply (scalar_broker_section_raises
           (world_of (JObj (list_to_map [("mqtt_broker", JNum 1883); ("machines", JArr [])]))
              willing)
           "publish_config.json"
           (list_to_map [("mqtt_broker", JNum 1883); ("machines", JArr [])])
           (JNum 1883) [] initial_state).
  - reflexivity.
  - reflexivity.
  - exact I.
  - reflexivity.
Defined.

End LoaderEdgesWitnesses.

(** ** One generator run per entry, in order *)

Section GeneratorOrder.

Context {Sess : Type} {BS : BrokerSession Sess}.
Variable w : world Sess.
Variable a : args.

Lemma generated_in_none t : Forall no_generation t -> generated_in t = [].
Proof.
  induction 1 as [| e t He _ IH]; [reflexivity |].
  unfold generated_in. simpl. rewrite He. exact IH.
Qed.

Lemma session_no_generation (t : list sevent) : Forall no_generation (map EvSession t).
Proof. apply Forall_forall. intros e He. apply list_elem_of_fmap in He as (se & -> & _). reflexivity. Qed.

Lemma publisher_publish_no_generation topic payload timeout :
  emits no_generation (publisher_publish topic payload timeout : M (state Sess) event bool).
Proof.
  intros s. unfold publisher_publish.
  destruct (publisher s) as [p |]; [| constructor].
  destruct (session_publish topic payload timeout p) as [[r p'] t].
  unfold trace_of. simpl. constructor; [reflexivity | apply session_no_generation].
Qed.

Lemma retry_loop_no_generation machine_type topic payload publish_payload
    publish_timeout retry_attempts retry_delay n attempts successful :
  emits no_generation
    (retry_loop a machine_type topic payload publish_payload
       publish_timeout retry_attempts retry_delay n attempts successful
     : M (state Sess) event (Z * bool)).
Proof.
  revert successful. induction attempts as [| attempt rest IH]; intros successful; simpl.
  - apply emits_ret.
  - apply emits_bind; [apply emits_when, emits_emit; reflexivity | intros _].
    apply emits_bind; [apply publisher_publish_no_generation | intros ok].
    destruct ok.
    + apply emits_bind; [apply emits_lift | intros asset_id].
      apply emits_bind; [apply emits_lift | intros removed].
      apply emits_bind; [destruct (verbose a); apply emits_emit; reflexivity | intros _].
      apply emits_ret.
    + apply emits_bind; [| intros _; apply IH].
      destruct (attempt <? n - 1); [| apply emits_ret].
      unfold time_sleep. apply emits_bind; [apply emits_lift | intros k].
      destruct (k <? 0); [apply emits_raise | apply emits_emit; reflexivity].
Qed.

(** The wrapper runs the generator once, whatever comes of it. *)
Lemma generate_once machine_type (s : state Sess) :
  generated_in (trace_of (generate_machine_payload w machine_type s)) = [machine_type].
Proof.
  unfold generate_machine_payload.
  erewrite trace_of_bind_Ret by reflexivity.
  erewrite trace_of_bind_Ret by reflexivity.
  erewrite trace_of_bind_Ret by reflexivity. cbv beta.
  destruct (run_generator w (generator_runs s) machine_type) as [| [payload |] |];
    reflexivity.
Qed.

(** What follows the generation in a job emits what its steps emit. *)
Ltac job_tail_events :=
  apply emits_bind; [apply emits_lift | intros ?];
  destruct (dry_run _);
  [ apply emits_bind; [apply emits_lift | intros ?];
    apply emits_bind; [apply emits_lift | intros ?];
    apply emits_bind; [apply emits_emit; reflexivity | intros _; apply emits_ret]
  | do 4 (apply emits_bind; [apply emits_lift | intros ?]);
    apply emits_bind; [apply retry_loop_no_generation | intros [? ?]];
    apply emits_bind; [apply emits_when, emits_emit; reflexivity | intros _];
    apply emits_ret ].

(** A job runs the generator for the type of its entry, once: not again
    for a retry, and also when the job fails or raises. *)
Lemma process_machine_generates global_settings total i machine_config successful
    (s : state Sess) machine_type :
  machine_entry_ok machine_config ->
  Py.getitem machine_config "type" = Ret machine_type ->
  generated_in
    (trace_of (process_machine w a global_settings total i machine_config successful s))
  = [machine_type].
Proof.
  intros (fields & -> & _ & [topic Htopic]) Htype.
  unfold process_machine. rewrite Htype. simpl Py.getitem at 1. rewrite Htopic.
  erewrite trace_of_bind_Ret by reflexivity.
  erewrite trace_of_bind_Ret by reflexivity.
  rewrite trace_of_bind. rewrite !app_nil_l, generated_in_app.
  rewrite (generated_in_none (trace_of (when _ _ s)))
    by (destruct (verbose a); repeat constructor).
  rewrite app_nil_l.
  assert (Hwhen : exists t, when (verbose a) (print Stdout (MsgProcessing i total machine_type)) s
                            = (Ret tt, s, t)).
  { destruct (verbose a); eexists; reflexivity. }
  destruct Hwhen as [t0 Hwhen]. rewrite Hwhen.
  unfold result_of at 1, state_of at 1. simpl fst. simpl snd. cbv iota.
  rewrite trace_of_bind, generated_in_app, generate_once.
  match goal with |- [machine_type] ++ generated_in ?rest = _ =>
    assert (Hrest : generated_in rest = []) end; [| rewrite Hrest; reflexivity].
  destruct (result_of (generate_machine_payload w machine_type s)) as [payload | e];
    [| reflexivity].
  apply generated_in_none, emits_apply.
  destruct payload;
    [ apply emits_bind; [apply emits_emit; reflexivity | intros _; apply emits_ret]
    | job_tail_events .. ].
Qed.

Lemma types_of_cons machine_config rest machine_type :
  Py.getitem machine_config "type" = Ret machine_type ->
  types_of (machine_config :: rest) = machine_type :: types_of rest.
Proof. intros H. unfold types_of. simpl. rewrite H. reflexivity. Qed.

Lemma process_machines_generate global_settings total machines :
  Forall machine_entry_ok machines ->
  forall i successful (s : state Sess),
    let out := process_machines w a global_settings total i machines successful s in
    generated_in (trace_of out) `prefix_of` types_of machines
    /\ (forall n, result_of out = Ret n -> generated_in (trace_of out) = types_of machines).
Proof.
  induction 1 as [| machine_config rest Hm _ IH]; intros i successful s; cbv zeta.
  - simpl. split; [reflexivity | auto].
  - assert (Htype : exists machine_type, Py.getitem machine_config "type" = Ret machine_type).
    { destruct Hm as (fields & -> & [x Hx] & _). exists x. simpl. rewrite Hx. reflexivity. }
    destruct Htype as [machine_type Htype].
    rewrite (types_of_cons _ _ _ Htype).
    pose proof (process_machine_generates global_settings total i machine_config
                  successful s machine_type Hm Htype) as Hone.
    simpl process_machines.
    rewrite trace_of_bind, generated_in_app, Hone.
    unfold bind at 1.
    destruct (process_machine w a global_settings total i machine_config successful s)
      as [[[n1 | e] s1] t1]; unfold result_of at 1, state_of at 1; simpl fst; simpl snd;
      cbv iota.
    + destruct (IH (i + 1) n1 s1) as [Hprefix Hall].
      split.
      * simpl. apply prefix_cons. exact Hprefix.
      * intros n Hn. simpl. f_equal. apply (Hall n).
        destruct (process_machines w a global_settings total (i + 1) rest n1 s1)
          as [[r s2] t2]. exact Hn.
    + split.
      * simpl. apply prefix_cons, prefix_nil.
      * intros n Hn. discriminate.
Qed.

End GeneratorOrder.

Section GeneratorOrderOfRun.

Context {Sess : Type} {BS : BrokerSession Sess}.
Variable w : world Sess.
Variable a : args.

Lemma summarize_no_generation total successful :
  emits no_generation (summarize a total successful : M (state Sess) event unit).
Proof.
  unfold summarize.
  apply emits_bind.
  { apply emits_when.
    repeat (apply emits_bind; [apply emits_emit; reflexivity | intros _]).
    apply emits_emit; reflexivity. }
  intros _.
  destruct (successful =? 0);
    [apply emits_bind; [apply emits_emit; reflexivity | intros _; apply emits_raise] |].
  destruct (successful <? total);
    [apply emits_bind; [apply emits_emit; reflexivity | intros _; apply emits_raise] |].
  apply emits_when, emits_emit; reflexivity.
Qed.

Lemma main_finally_no_generation :
  emits no_generation (main_finally : M (state Sess) event unit).
Proof.
  intros s. unfold main_finally, bind, gets.
  destruct (publisher s) as [p |] eqn:Hp; [| constructor].
  unfold publisher_disconnect. rewrite Hp.
  destruct (session_disconnect p) as [[r p'] t].
  unfold trace_of. simpl. constructor; [reflexivity | apply session_no_generation].
Qed.

Lemma run_prologue_no_generation config : Forall no_generation (run_prologue w a config).
Proof.
  unfold run_prologue. apply Forall_app. split.
  - destruct (verbose a); repeat constructor.
  - destruct (dry_run a); [constructor |].
    apply Forall_app. split; [destruct (verbose a); repeat constructor |].
    constructor; [reflexivity | apply session_no_generation].
Qed.

(** X13. The jobs of a run.  When the configuration loads and the run
    gets as far as the loop, the generator is run for the types of the
    configured machines in their order, once per entry: never again for a
    retried publication, and never out of turn.  If the loop is cut short
    by an exception the runs made are those of the first entries; if the
    loop completes, every entry has had its run, whatever became of its
    publication. *)
Theorem generator_runs_in_order (config : json) :
  loads w a config -> starts w a config ->
  generated_in (trace_of (run_main w a)) `prefix_of` types_of (machines_of config)
  /\ (forall n, result_of (run_loop w a config) = Ret n ->
        generated_in (trace_of (run_main w a)) = types_of (machines_of config)).
Proof.
  intros Hloads Hstarts.
  destruct (loads_shape w a config Hloads) as (_ & _ & _ & Hentries).
  rewrite (main_run w a config Hloads Hstarts).
  rewrite (main_try_unfold w a config _ Hloads).
  pose proof (process_machines_generate w a (settings_of config)
                (Z.of_nat (List.length (machines_of config))) (machines_of config)
                Hentries 1 0 (loop_state w a config)) as [Hprefix Hall].
  unfold run_loop.
  assert (Htrace : forall (r : result unit) (s' : state Sess) t,
            bind (process_machines w a (settings_of config)
                    (Z.of_nat (List.length (machines_of config))) 1 (machines_of config) 0)
                 (summarize a (Z.of_nat (List.length (machines_of config))))
                 (loop_state w a config) = (r, s', t) ->
            generated_in (run_prologue w a config ++ t ++ trace_of (main_finally s'))
            = generated_in
                (trace_of (process_machines w a (settings_of config)
                             (Z.of_nat (List.length (machines_of config))) 1
                             (machines_of config) 0 (loop_state w a config)))).
  { intros r s' t Hrun.
    assert (Ht : t = trace_of (bind (process_machines w a (settings_of config)
                    (Z.of_nat (List.length (machines_of config))) 1 (machines_of config) 0)
                 (summarize a (Z.of_nat (List.length (machines_of config))))
                 (loop_state w a config))) by (rewrite Hrun; reflexivity).
    rewrite Ht, trace_of_bind, !generated_in_app.
    rewrite (generated_in_none _ (run_prologue_no_generation config)).
    rewrite (generated_in_none _ (main_finally_no_generation s')).
    rewrite app_nil_l, app_nil_r.
    match goal with |- _ ++ generated_in ?rest = _ =>
      assert (Hrest : generated_in rest = []) end; [| rewrite Hrest; apply app_nil_r].
    destruct (result_of (process_machines _ _ _ _ _ _ _ _)); [| reflexivity].
    apply generated_in_none, summarize_no_generation. }
  destruct (bind _ _ (loop_state w a config)) as [[r s'] t] eqn:Hrun.
  specialize (Htrace r s' t eq_refl).
  destruct (main_finally s') as [[rd s''] td] eqn:Hfinally.
  unfold trace_of in *. cbn [snd] in *.
  rewrite Htrace. split; [exact Hprefix | exact Hall].
Qed.

End GeneratorOrderOfRun.

Section GeneratorOrderWitness.

Import Sample SampleRuns.

Lemma generator_runs_in_order_witness :
  generated_in (trace_of (run_main (world_of press_and_bogus willing) live))
  = [JStr "Press"; JStr "Bogus"].
Proof.
  refine (proj2 (generator_runs_in_order (world_of press_and_bogus willing) live
                   press_and_bogus _ _) 1 _).
  - split; reflexivity.
  - right. reflexivity.
  - reflexivity.
Defined.

End GeneratorOrderWitness.

(** ** The exit status of any run *)

Section ExitStatus.

Context {Sess : Type} {BS : BrokerSession Sess}.
Variable w : world Sess.
Variable a : args.
Hypothesis session_ok : session_total Sess.

Lemma Exception_ends_with_one e : is_Exception e = true -> ends_with_one e.
Proof. destruct e; simpl; intros H; (discriminate || exact I). Qed.

Lemma raises_lift_Exception {A} (r : result A) :
  (forall e, r = Raise e -> is_Exception e = true) ->
  raises_only ends_with_one (lift r : M (state Sess) event A).
Proof. intros H. apply raises_only_lift. intros e He. apply Exception_ends_with_one, H, He. Qed.

Lemma index_raises v e : Py.index v = Raise e -> is_Exception e = true.
Proof. destruct v; simpl; intros H; try discriminate; injection H as <-; reflexivity. Qed.

Lemma endswith_raises v suffix e : Py.endswith v suffix = Raise e -> is_Exception e = true.
Proof. destruct v; simpl; intros H; try discriminate; injection H as <-; reflexivity. Qed.

Lemma list_items_raises v e : Py.list_items v = Raise e -> is_Exception e = true.
Proof. destruct v; simpl; intros H; try discriminate; injection H as <-; reflexivity. Qed.

Lemma asset_id_of_raises payload e : asset_id_of payload = Raise e -> is_Exception e = true.
Proof.
  unfold asset_id_of. destruct (Py.getitem payload wrapper_key) as [inner | e0] eqn:Hinner; simpl.
  - apply getitem_raises.
  - intros H. injection H as <-. eapply getitem_raises. exact Hinner.
Qed.

Lemma publish_payload_for_raises topic payload e :
  publish_payload_for topic payload = Raise e -> is_Exception e = true.
Proof.
  unfold publish_payload_for.
  destruct (Py.endswith topic wrapper_key) as [strip | e0] eqn:Hstrip; simpl.
  - destruct strip; [apply getitem_raises | discriminate].
  - intros H. injection H as <-. eapply endswith_raises. exact Hstrip.
Qed.

Lemma raises_only_quiet {A} (P : exn -> Prop) (m : M (state Sess) event A) :
  (forall s, exists x, result_of (m s) = Ret x) -> raises_only P m.
Proof.
  intros H s e s' t Hrun. destruct (H s) as [x Hx]. rewrite Hrun in Hx. discriminate.
Qed.

Lemma raises_only_when (P : exn -> Prop) b (m : M (state Sess) event unit) :
  raises_only P m -> raises_only P (when b m).
Proof. intros H. destruct b; [exact H | apply raises_only_ret]. Qed.

Lemma raises_only_print (P : exn -> Prop) st msg :
  raises_only P (print st msg : M (state Sess) event unit).
Proof. intros s e s' t H. discriminate. Qed.

Lemma publisher_publish_raises topic payload timeout :
  raises_only ends_with_one (publisher_publish topic payload timeout).
Proof.
  intros s e s' t. unfold publisher_publish.
  destruct (publisher s) as [p |].
  - destruct (publish_total Sess session_ok topic payload timeout p) as [b Hb].
    destruct (session_publish topic payload timeout p) as [[r p'] t'].
    unfold result_of in Hb. simpl in Hb. subst r. discriminate.
  - intros H. injection H as <- _ _. exact I.
Qed.

Lemma publisher_connect_raises : raises_only ends_with_one publisher_connect.
Proof.
  intros s e s' t. unfold publisher_connect.
  destruct (publisher s) as [p |].
  - destruct (connect_total Sess session_ok p) as [b Hb].
    destruct (session_connect p) as [[r p'] t'].
    unfold result_of in Hb. simpl in Hb. subst r. discriminate.
  - intros H. injection H as <- _ _. exact I.
Qed.

Lemma main_finally_raises : raises_only ends_with_one main_finally.
Proof.
  intros s e s' t. unfold main_finally, bind, gets.
  destruct (publisher s) as [p |] eqn:Hp; [| discriminate].
  unfold publisher_disconnect. rewrite Hp.
  destruct (disconnect_total Sess session_ok p) as [b Hb].
  destruct (session_disconnect p) as [[r p'] t'].
  unfold result_of in Hb. simpl in Hb. subst r. discriminate.
Qed.

Lemma retry_loop_raises machine_type topic payload publish_payload
    publish_timeout retry_attempts retry_delay n attempts successful :
  raises_only ends_with_one
    (retry_loop a machine_type topic payload publish_payload
       publish_timeout retry_attempts retry_delay n attempts successful).
Proof.
  revert successful. induction attempts as [| attempt rest IH]; intros successful; simpl.
  - apply raises_only_ret.
  - apply raises_only_bind; [apply raises_only_when, raises_only_print | intros _].
    apply raises_only_bind; [apply publisher_publish_raises | intros ok].
    destruct ok.
    + apply raises_only_bind;
        [apply raises_lift_Exception, asset_id_of_raises | intros asset_id].
      apply raises_only_bind;
        [apply raises_lift_Exception, endswith_raises | intros removed].
      apply raises_only_bind;
        [destruct (verbose a); apply raises_only_print | intros _].
      apply raises_only_ret.
    + apply raises_only_bind; [| intros _; apply IH].
      destruct (attempt <? n - 1); [| apply raises_only_ret].
      unfold time_sleep.
      apply raises_only_bind; [apply raises_lift_Exception, index_raises | intros k].
      destruct (k <? 0);
        [apply raises_only_raise; exact I | intros s e s' t H; discriminate].
Qed.

Lemma generate_raises machine_type :
  raises_only ends_with_one (generate_machine_payload w machine_type).
Proof.
  intros s e s' t. unfold generate_machine_payload, bind, gets, modify, emit. simpl.
  destruct (run_generator w (generator_runs s) machine_type) as [| [payload |] |];
    simpl; try discriminate.
  intros H. injection H as <- _ _. exact I.
Qed.

Ltac job_tail_raises :=
  apply raises_only_bind; [apply raises_lift_Exception, publish_payload_for_raises | intros ?];
  destruct (dry_run _);
  [ apply raises_only_bind; [apply raises_lift_Exception, asset_id_of_raises | intros ?];
    apply raises_only_bind; [apply raises_lift_Exception, endswith_raises | intros ?];
    apply raises_only_bind; [apply raises_only_print | intros _; apply raises_only_ret]
  | do 3 (apply raises_only_bind; [apply raises_lift_Exception, get_raises | intros ?]);
    apply raises_only_bind; [apply raises_lift_Exception, index_raises | intros ?];
    apply raises_only_bind; [apply retry_loop_raises | intros [? ?]];
    apply raises_only_bind; [apply raises_only_when, raises_only_print | intros _];
    apply raises_only_ret ].

Lemma process_machine_raises global_settings total i machine_config successful :
  raises_only ends_with_one
    (process_machine w a global_settings total i machine_config successful).
Proof.
  unfold process_machine.
  apply raises_only_bind; [apply raises_lift_Exception, getitem_raises | intros machine_type].
  apply raises_only_bind; [apply raises_lift_Exception, getitem_raises | intros topic].
  apply raises_only_bind; [apply raises_only_when, raises_only_print | intros _].
  apply raises_only_bind; [apply generate_raises | intros payload].
  destruct payload;
    [ apply raises_only_bind; [apply raises_only_print | intros _; apply raises_only_ret]
    | job_tail_raises .. ].
Qed.

Lemma process_machines_raises global_settings total i machines successful :
  raises_only ends_with_one (process_machines w a global_settings total i machines successful).
Proof.
  revert i successful. induction machines as [| machine_config rest IH];
    intros i successful; simpl.
  - apply raises_only_ret.
  - apply raises_only_bind; [apply process_machine_raises | intros n; apply IH].
Qed.

Lemma summarize_raises total successful :
  raises_only ends_with_one (summarize a total successful : M (state Sess) event unit).
Proof.
  unfold summarize.
  apply raises_only_bind.
  { apply raises_only_when.
    repeat (apply raises_only_bind; [apply raises_only_print | intros _]).
    apply raises_only_print. }
  intros _.
  destruct (successful =? 0);
    [apply raises_only_bind;
       [apply raises_only_print | intros _; apply raises_only_raise; reflexivity] |].
  destruct (successful <? total);
    [apply raises_only_bind;
       [apply raises_only_print | intros _; apply raises_only_raise; reflexivity] |].
  apply raises_only_when, raises_only_print.
Qed.

Lemma main_try_raises config global_settings :
  raises_only ends_with_one (main_try w a config global_settings).
Proof.
  unfold main_try.
  apply raises_only_bind; [apply raises_lift_Exception, getitem_raises | intros machines].
  apply raises_only_bind; [apply raises_lift_Exception, list_items_raises | intros items].
  apply raises_only_bind; [apply process_machines_raises | intros n].
  apply summarize_raises.
Qed.

Lemma try_finally_raises {A} (body : M (state Sess) event A) cleanup :
  raises_only ends_with_one body -> raises_only ends_with_one cleanup ->
  raises_only ends_with_one (try_finally body cleanup).
Proof.
  intros Hbody Hcleanup s e s' t. unfold try_finally.
  destruct (body s) as [[r s1] t1] eqn:Hb.
  destruct (cleanup s1) as [[rc s2] t2] eqn:Hc.
  intros H. injection H as Hr _ _.
  destruct rc as [[] | ec].
  - subst r. exact (Hbody _ _ _ _ Hb).
  - injection Hr as <-. exact (Hcleanup _ _ _ _ Hc).
Qed.

Lemma load_config_raises path : raises_only ends_with_one (load_config w path).
Proof.
  intros s e s' t Hrun.
  destruct (load_config_cases w path s) as (r & t0 & Hload & _ & _ & Hexit).
  rewrite Hload in Hrun. injection Hrun as -> _ _.
  specialize (Hexit e eq_refl). destruct e; simpl in *; auto.
Qed.

Lemma main_raises : raises_only ends_with_one (main w a).
Proof.
  unfold main.
  apply raises_only_bind; [apply raises_only_when, raises_only_print | intros _].
  apply raises_only_bind; [apply load_config_raises | intros config].
  apply raises_only_bind; [apply raises_lift_Exception, get_raises | intros global_settings].
  apply raises_only_bind; [| intros _; apply try_finally_raises;
                                       [apply main_try_raises | apply main_finally_raises]].
  destruct (negb (dry_run a)); [| apply raises_only_ret].
  apply raises_only_bind; [apply raises_only_when, raises_only_print | intros _].
  apply raises_only_bind; [apply raises_lift_Exception, getitem_raises | intros broker_config].
  apply raises_only_bind; [intros s e s' t H; discriminate | intros _].
  apply raises_only_bind; [apply publisher_connect_raises | intros ok].
  destruct (negb ok); [| apply raises_only_ret].
  apply raises_only_bind; [apply raises_only_print | intros _].
  apply raises_only_raise; reflexivity.
Qed.

(** X14. Whatever the file system, the generator and the broker do, a run
    ends with exit status 0 or 1, provided the publisher's own methods
    return (as those of [MQTTPublisher] do): every [sys.exit] of the script
    has status 1, and every exception that escapes [main] is reported by the
    interpreter with status 1. *)
Theorem exit_status_zero_or_one :
  exit_status (result_of (run_main w a)) = 0 \/ exit_status (result_of (run_main w a)) = 1.
Proof.
  unfold run_main.
  destruct (main w a initial_state) as [[[[] | e] s] t] eqn:Hrun; [left; reflexivity |].
  right. pose proof (main_raises _ _ _ _ Hrun) as He.
  unfold result_of. simpl. destruct e; simpl in *; auto.
Qed.

End ExitStatus.

Section ExitStatusWitness.

Import Sample SampleRuns.

Lemma exit_status_zero_or_one_witness :
  exit_status (result_of (run_main (mqtt_world one_press friendly) live)) = 0
  \/ exit_status (result_of (run_main (mqtt_world one_press friendly) live)) = 1.
Proof.
  apply (exit_status_zero_or_one (mqtt_world one_press friendly) live).
  exact mqtt_session_total.
Defined.

End ExitStatusWitness.

(** ** A connection that fails, and a record without asset id *)

Section RunEdges.

Context {Sess : Type} {BS : BrokerSession Sess}.
Variable w : world Sess.
Variable a : args.

Lemma run_prologue_no_attempts config : attempts_in (run_prologue w a config) = 0%nat.
Proof.
  unfold run_prologue. rewrite attempts_in_app.
  assert (Hsession : forall t : list sevent, attempts_in (map EvSession t) = 0%nat).
  { intros t. induction t as [| e t IH]; [reflexivity | exact IH]. }
  destruct (verbose a), (dry_run a); simpl; try reflexivity; apply Hsession.
Qed.

(** X15. When [connect] returns false the run is over: it prints that it
    failed to connect and exits with status 1.  Nothing has been generated
    or published, and [disconnect] is not called, since the exit is before
    the [try] whose [finally] would call it: whatever [connect] started is
    left as it is. *)
Theorem failed_connection_ends_run (config : json) :
  loads w a config -> dry_run a = false ->
  result_of (connecting w a config) = Ret false ->
  let out := run_main w a in
  result_of out = Raise (SystemExit 1)
  /\ trace_of out = run_prologue w a config ++ [EvPrint Stderr MsgConnectFailed]
  /\ generated_in (trace_of out) = []
  /\ attempts_in (trace_of out) = 0%nat
  /\ disconnects_in (trace_of out) = 0%nat.
Proof.
  intros Hloads Hlive Hconn. cbv zeta.
  rewrite (main_connect_fails w a config Hloads Hlive Hconn).
  unfold result_of, trace_of. simpl.
  split; [reflexivity |]. split; [reflexivity |].
  rewrite generated_in_app, attempts_in_app, disconnects_in_app.
  rewrite (generated_in_none _ (run_prologue_no_generation w a config)).
  rewrite run_prologue_no_attempts, run_prologue_no_disconnect.
  repeat split.
Qed.

(** X16. A record without an asset id is published all the same.  In a
    live run, when the generator prints a record in which
    [MachineIdentificationType] or its [AssetId] is missing and the topic
    does not ask for the inner record, the first attempt sends the record
    as it is; if that attempt succeeds, the look-up of the asset id for the
    success message raises, and the exception leaves the job: the record is
    on the broker, no success is counted, no message is printed for it. *)
Theorem record_without_asset_id_is_published
    (global_settings machine_config machine_type payload : json) (topic : string)
    (publish_timeout retry_attempts retry_delay : json) (n total i successful : Z)
    (s : state Sess) (p : Sess) (e : exn) :
  dry_run a = false ->
  publisher s = Some p ->
  Py.getitem machine_config "type" = Ret machine_type ->
  Py.getitem machine_config "topic" = Ret (JStr topic) ->
  Py.str_endswith topic wrapper_key = false ->
  run_generator w (generator_runs s) machine_type = Printed (Some payload) ->
  payload <> JNull ->
  asset_id_of payload = Raise e ->
  Py.get global_settings "publish_timeout" (JNum 30) = Ret publish_timeout ->
  Py.get global_settings "retry_attempts" (JNum 3) = Ret retry_attempts ->
  Py.get global_settings "retry_delay" (JNum 1) = Ret retry_delay ->
  Py.index retry_attempts = Ret n -> 0 < n ->
  result_of (session_publish (JStr topic) payload publish_timeout p) = Ret true ->
  let out := process_machine w a global_settings total i machine_config successful s in
  result_of out = Raise e
  /\ trace_of out
     = (if verbose a then [EvPrint Stdout (MsgProcessing i total machine_type)] else [])
       ++ EvGenerate machine_type
       :: EvPublish (JStr topic) payload publish_timeout (Ret true)
       :: map EvSession (trace_of (session_publish (JStr topic) payload publish_timeout p)).
Proof.
  intros Hlive Hp Htype Htopic Hplain Hgen Hnull Hasset Htimeout Hattempts Hdelay Hn Hpos
    Hpub. cbv zeta.
  unfold process_machine. rewrite Htype, Htopic.
  erewrite bind_Ret by reflexivity.
  erewrite bind_Ret by reflexivity.
  assert (Hwhen : when (verbose a) (print Stdout (MsgProcessing i total machine_type)) s
                  = (Ret tt, s,
                     if verbose a
                     then [EvPrint Stdout (MsgProcessing i total machine_type)] else []))
    by (destruct (verbose a); reflexivity).
  erewrite bind_Ret by exact Hwhen.
  assert (Hrun : generate_machine_payload w machine_type s
                 = (Ret payload, count_generator_run s, [EvGenerate machine_type])).
  { unfold generate_machine_payload, bind, gets, modify, emit. simpl. rewrite Hgen.
    reflexivity. }
  erewrite bind_Ret by exact Hrun.
  assert (Hjob :
    bind (lift (publish_payload_for (JStr topic) payload)) (fun publish_payload =>
      if dry_run a then
        bind (lift (asset_id_of payload)) (fun asset_id =>
          bind (lift (Py.endswith (JStr topic) wrapper_key)) (fun removed =>
            bind (print Stdout (MsgWouldPublish machine_type asset_id (JStr topic) removed))
              (fun _ => ret (successful + 1))))
      else
        bind (lift (Py.get global_settings "publish_timeout" (JNum 30)))
          (fun publish_timeout =>
        bind (lift (Py.get global_settings "retry_attempts" (JNum 3)))
          (fun retry_attempts =>
        bind (lift (Py.get global_settings "retry_delay" (JNum 1)))
          (fun retry_delay =>
        bind (lift (Py.index retry_attempts)) (fun n =>
        bind (retry_loop a machine_type (JStr topic) payload publish_payload
                publish_timeout retry_attempts retry_delay
                n (Py.range n) successful) (fun looped =>
          let '(successful_publications, published) := looped in
          bind (when (negb published)
                  (print Stderr (MsgPublishGaveUp machine_type retry_attempts)))
            (fun _ => ret successful_publications)))))))
      (count_generator_run s)
    = (Raise e,
       set_publisher
         (Some (state_of (session_publish (JStr topic) payload publish_timeout p)))
         (count_generator_run s),
       EvPublish (JStr topic) payload publish_timeout (Ret true)
       :: map EvSession (trace_of (session_publish (JStr topic) payload publish_timeout p)))).
  { unfold publish_payload_for. simpl Py.endswith. rewrite Hplain. simpl rbind.
    erewrite bind_Ret by reflexivity. rewrite Hlive, Htimeout, Hattempts, Hdelay.
    erewrite bind_Ret by reflexivity.
    erewrite bind_Ret by reflexivity.
    erewrite bind_Ret by reflexivity. cbv beta. rewrite Hn.
    erewrite bind_Ret by reflexivity. cbv beta.
    assert (Hrange : exists rest, Py.range n = 0 :: rest).
    { unfold Py.range. destruct (Z.to_nat n) as [| k] eqn:Hk; [lia |].
      simpl. eexists; reflexivity. }
    destruct Hrange as [rest ->].
    assert (Hloop :
      retry_loop a machine_type (JStr topic) payload payload publish_timeout
        retry_attempts retry_delay n (0 :: rest) successful (count_generator_run s)
      = (Raise e,
         set_publisher
           (Some (state_of (session_publish (JStr topic) payload publish_timeout p)))
           (count_generator_run s),
         EvPublish (JStr topic) payload publish_timeout (Ret true)
         :: map EvSession
              (trace_of (session_publish (JStr topic) payload publish_timeout p)))).
    { simpl retry_loop. rewrite andb_false_r.
      erewrite bind_Ret by reflexivity.
      assert (Hcall : publisher_publish (JStr topic) payload publish_timeout
                        (count_generator_run s)
                      = (Ret true,
                         set_publisher
                           (Some (state_of (session_publish (JStr topic) payload
                                              publish_timeout p)))
                           (count_generator_run s),
                         EvPublish (JStr topic) payload publish_timeout (Ret true)
                         :: map EvSession
                              (trace_of (session_publish (JStr topic) payload
                                           publish_timeout p)))).
      { unfold publisher_publish. simpl. rewrite Hp.
        destruct (session_publish (JStr topic) payload publish_timeout p) as [[r p'] t].
        unfold result_of in Hpub. simpl in Hpub. subst r. reflexivity. }
      erewrite bind_Ret by exact Hcall. cbv beta iota.
      rewrite Hasset. erewrite bind_Raise by reflexivity.
      cbv beta iota. rewrite app_nil_r. reflexivity. }
    erewrite bind_Raise by exact Hloop. reflexivity. }
  destruct payload; try congruence; cbv iota; rewrite Hjob;
    unfold result_of, trace_of; simpl; (split; [reflexivity |]);
    destruct (verbose a); reflexivity.
Qed.

End RunEdges.

Section RunEdgesWitnesses.

Import Sample SampleRuns.

Lemma failed_connection_ends_run_witness :
  let out := run_main (world_of one_press refusing) live in
  result_of out = Raise (SystemExit 1)
  /\ trace_of out
     = run_prologue (world_of one_press refusing) live one_press
       ++ [EvPrint Stderr MsgConnectFailed]
  /\ generated_in (trace_of out) = []
  /\ attempts_in (trace_of out) = 0%nat
  /\ disconnects_in (trace_of out) = 0%nat.
Proof.
  apply (failed_connection_ends_run (world_of one_press refusing) live one_press).
  - split; reflexivity.
  - reflexivity.
  - reflexivity.
Defined.

Lemma record_without_asset_id_is_published_witness :
  let out := process_machine bare_world live (settings 3 1) 1 1
               (machine "Press" press_topic) 0 (connected_stub willing) in
  result_of out = Raise (KeyError "MachineIdentificationType")
  /\ trace_of out
     = [EvGenerate (JStr "Press");
        EvPublish (JStr press_topic) (obj []) (JNum 30) (Ret true)].
Proof.
  refine (record_without_asset_id_is_published bare_world live (settings 3 1)
            (machine "Press" press_topic) (JStr "Press") (obj []) press_topic
            (JNum 30) (JNum 3) (JNum 1) 3 1 1 0 (connected_stub willing)
            (Stub.init willing) (KeyError "MachineIdentificationType")
            _ _ _ _ _ _ _ _ _ _ _ _ _ _);
    try reflexivity.
  discriminate.
Defined.

End RunEdgesWitnesses.

(** ** The generator script: one record *)

Section ScriptFacts.

Import GenerateSamplePayloads SamplePayloads ScriptSpec.

Variable world : surroundings.
Variable cal : calendar.

Lemma next_raw_run c : next_raw world c = (Ret (raw world (drawn c)), count_draw c, []).
Proof. reflexivity. Qed.

Lemma random_randint_run a b c :
  a <= b ->
  exists n, a <= n <= b /\ random_randint world a b c = (Ret n, count_draw c, []).
Proof.
  intros Hab.
  destruct (randint_range a b (raw world (drawn c)) Hab) as (n & Hn & Hrange).
  exists n. split; [exact Hrange |].
  unfold random_randint. erewrite bind_Ret by apply next_raw_run.
  unfold lift. rewrite Hn. reflexivity.
Qed.

Lemma random_choice_run {A} (seq : list A) c :
  seq <> [] ->
  exists x, x ∈ seq /\ random_choice world seq c = (Ret x, count_draw c, []).
Proof.
  intros Hseq. unfold random_choice. erewrite bind_Ret by apply next_raw_run. cbv beta.
  assert (Hlen : 0 < Z.of_nat (List.length seq)) by (destruct seq; [congruence | simpl; lia]).
  pose proof (Z.mod_pos_bound (raw world (drawn c)) _ Hlen) as Hbound.
  destruct (lookup_lt_is_Some_2 seq (Z.to_nat (raw world (drawn c) mod Z.of_nat (List.length seq))))
    as [x Hx]; [lia |].
  rewrite Hx. exists x. split; [eapply list_elem_of_lookup_2; exact Hx | reflexivity].
Qed.

Lemma datetime_now_run c :
  datetime_now world c = (Ret (clock world (readings c)), count_reading c, []).
Proof. reflexivity. Qed.

Lemma construction_date_call_run c :
  exists d,
    clock world (readings c) - timedelta_days (20 * 365) <= d <= clock world (readings c)
    /\ construction_date_call world c = (Ret d, count_draw (count_reading c), []).
Proof.
  destruct (construction_date_range (clock world (readings c)) (raw world (drawn c)))
    as (d & Hd & Hrange).
  exists d. split; [exact Hrange |].
  unfold construction_date_call.
  erewrite bind_Ret by apply datetime_now_run.
  erewrite bind_Ret by apply next_raw_run.
  unfold lift. simpl. rewrite Hd. reflexivity.
Qed.

Lemma operation_date_call_run construction_date c :
  construction_date <= clock world (readings c) ->
  exists d,
    construction_date <= d <= clock world (readings c)
    /\ operation_date_call world construction_date c
       = (Ret d, count_draw (count_reading c), []).
Proof.
  intros Hle.
  destruct (operation_date_range (clock world (readings c)) (raw world (drawn c))
              construction_date Hle) as (d & Hd & Hrange).
  exists d. split; [exact Hrange |].
  unfold operation_date_call.
  erewrite bind_Ret by apply datetime_now_run.
  erewrite bind_Ret by apply next_raw_run.
  unfold lift. simpl. rewrite Hd. reflexivity.
Qed.

Lemma patch_identifiers_run n c :
  exists patches,
    List.length patches = n
    /\ Forall patch_identifier patches
    /\ patch_identifiers world n c
       = (Ret patches, {| drawn := drawn c + n; readings := readings c |}, []).
Proof.
  revert c. induction n as [| n IH]; intros c.
  - exists []. split; [reflexivity |]. split; [constructor |].
    simpl. unfold ret. destruct c. simpl. rewrite Nat.add_0_r. reflexivity.
  - destruct (random_randint_run 100 999 c) as (number & Hnumber & Hrun); [lia |].
    destruct (IH (count_draw c)) as (patches & Hlen & Hall & Hrest).
    exists (JStr ("PATCH-" +:+ str number) :: patches).
    split; [simpl; congruence |].
    split; [constructor; [exists number; auto | exact Hall] |].
    simpl. erewrite bind_Ret by exact Hrun.
    erewrite bind_Ret by exact Hrest.
    simpl. do 2 f_equal. f_equal. lia.
Qed.

(** The tables fit together: every manufacturer listed for a machine type
    has an entry of its own and at least one model, and every type has a
    display name. *)
Lemma tables_fit machine_type :
  known_type machine_type ->
  exists by_manufacturer display_name,
    item machine_models machine_type = Ret by_manufacturer
    /\ item machine_display_names machine_type = Ret display_name
    /\ keys by_manufacturer <> []
    /\ forall manufacturer_key,
         manufacturer_key ∈ keys by_manufacturer ->
         exists manufacturer_data models,
           item manufacturers manufacturer_key = Ret manufacturer_data
           /\ item by_manufacturer manufacturer_key = Ret models
           /\ models <> [].
Proof.
  unfold known_type. simpl. rewrite !elem_of_cons, elem_of_nil.
  intros [-> | [-> | [-> | [-> | [-> | [-> | [-> | []]]]]]]];
    (eexists _, _; split; [reflexivity |]; split; [reflexivity |];
     split; [discriminate |]);
    intros key; simpl; rewrite !elem_of_cons, elem_of_nil;
    intros [-> | [-> | []]];
    (eexists _, _; split; [reflexivity |]; split; [reflexivity | discriminate]).
Qed.

Lemma assoc_keys {A} k (d : list (string * A)) v : assoc k d = Some v -> k ∈ keys d.
Proof.
  induction d as [| [k' v'] d IH]; simpl; [discriminate |].
  destruct (String.eqb_spec k' k) as [-> | _]; intros H.
  - apply elem_of_cons. left. reflexivity.
  - apply elem_of_cons. right. apply IH, H.
Qed.

Lemma item_keys {A} (d : list (string * A)) k :
  (exists v, item d k = Ret v) <-> k ∈ keys d.
Proof.
  unfold item. split.
  - intros [v H]. destruct (assoc k d) as [x |] eqn:Hx; [| discriminate].
    eapply assoc_keys. exact Hx.
  - intros Hin. induction d as [| [k' v'] d IH]; simpl in *.
    + apply elem_of_nil in Hin. contradiction.
    + destruct (String.eqb_spec k' k) as [-> | Hne]; [eauto |].
      apply elem_of_cons in Hin as [-> | Hin]; [congruence |]. apply IH, Hin.
Qed.


End ScriptFacts.

Section RecordFacts.

Import GenerateSamplePayloads SamplePayloads ScriptSpec.

Variable world : surroundings.
Variable cal : calendar.

(** A call for a known machine type, step by step: what it draws and
    reads, and the record it makes of it. *)
Lemma generate_machine_payload_run machine_type mqtt_topic c :
  known_type machine_type -> clock_runs world ->
  exists by_manufacturer manufacturer_key manufacturer_data models model display_name
         construction_date operation_date software_date
         asset_number serial product
         device_major device_minor hardware_major hardware_minor
         location patches revision_counter software_major software_minor software_patch,
    item machine_models machine_type = Ret by_manufacturer
    /\ manufacturer_key ∈ keys by_manufacturer
    /\ item manufacturers manufacturer_key = Ret manufacturer_data
    /\ item by_manufacturer manufacturer_key = Ret models
    /\ model ∈ models
    /\ item machine_display_names machine_type = Ret display_name
    /\ clock world (readings c) - timedelta_days (20 * 365) <= construction_date
       <= clock world (readings c)
    /\ construction_date <= operation_date <= clock world (S (readings c))
    /\ construction_date <= software_date <= clock world (S (S (readings c)))
    /\ 1000 <= asset_number <= 9999
    /\ 100000 <= serial <= 999999
    /\ 100 <= product <= 999
    /\ 1 <= device_major <= 5 /\ 0 <= device_minor <= 9
    /\ 1 <= hardware_major <= 3 /\ 0 <= hardware_minor <= 9
    /\ location ∈ locations
    /\ (List.length patches <= 3)%nat /\ Forall patch_identifier patches
    /\ 0 <= revision_counter <= 5
    /\ 1 <= software_major <= 10 /\ 0 <= software_minor <= 9 /\ 0 <= software_patch <= 9
    /\ generate_machine_payload world cal machine_type mqtt_topic c
       = (Ret (payload_of cal machine_type mqtt_topic display_name manufacturer_data model
                 construction_date operation_date software_date
                 (upper mqtt_topic +:+ "-" +:+ str asset_number)
                 (substring 0 3 (upper manufacturer_key) +:+ str serial)
                 ("PC-" +:+ upper (dashed model) +:+ "-" +:+ str product)
                 device_major device_minor hardware_major hardware_minor
                 location patches revision_counter
                 software_major software_minor software_patch),
          {| drawn := drawn c + 18 + List.length patches; readings := readings c + 3 |},
          []).
Proof.
  intros Hknown Hclock.
  destruct (tables_fit machine_type Hknown)
    as (by_m & display & Hmodels & Hdisplay & Hkeys & Hfit).
  destruct (random_choice_run world (keys by_m) c Hkeys) as (key & Hkey & Hrun1).
  destruct (Hfit key Hkey) as (data & models & Hdata & Hmods & Hne).
  destruct (random_choice_run world models (count_draw c) Hne) as (model & Hmodel & Hrun2).
  pose (c2 := count_draw (count_draw c)).
  destruct (construction_date_call_run world c2) as (cd & Hcd & Hrun3).
  change (readings c2) with (readings c) in Hcd.
  pose (c3 := count_draw (count_reading c2)).
  destruct (operation_date_call_run world cd c3) as (od & Hod & Hrun4).
  { change (readings c3) with (S (readings c)).
    pose proof (Hclock (readings c) (S (readings c))). lia. }
  change (readings c3) with (S (readings c)) in Hod.
  pose (c4 := count_draw (count_reading c3)).
  destruct (operation_date_call_run world cd c4) as (sd & Hsd & Hrun5).
  { change (readings c4) with (S (S (readings c))).
    pose proof (Hclock (readings c) (S (S (readings c)))). lia. }
  change (readings c4) with (S (S (readings c))) in Hsd.
  pose (c5 := count_draw (count_reading c4)).
  destruct (random_randint_run world 1000 9999 c5) as (n1 & Hn1 & Hrun6); [lia |].
  destruct (random_randint_run world 100000 999999 (count_draw c5))
    as (n2 & Hn2 & Hrun7); [lia |].
  pose (c7 := count_draw (count_draw c5)).
  destruct (random_randint_run world 100 999 c7) as (n3 & Hn3 & Hrun8); [lia |].
  destruct (random_randint_run world 1 5 (count_draw c7)) as (d1 & Hd1 & Hrun9); [lia |].
  pose (c9 := count_draw (count_draw c7)).
  destruct (random_randint_run world 0 9 c9) as (d2 & Hd2 & Hrun10); [lia |].
  destruct (random_randint_run world 1 3 (count_draw c9)) as (h1 & Hh1 & Hrun11); [lia |].
  pose (c11 := count_draw (count_draw c9)).
  destruct (random_randint_run world 0 9 c11) as (h2 & Hh2 & Hrun12); [lia |].
  destruct (random_choice_run world locations (count_draw c11)) as (loc & Hloc & Hrun13);
    [discriminate |].
  pose (c13 := count_draw (count_draw c11)).
  destruct (random_randint_run world 0 3 c13) as (pc & Hpc & Hrun14); [lia |].
  destruct (patch_identifiers_run world (Z.to_nat pc) (count_draw c13))
    as (patches & Hlen & Hpatches & Hrun15).
  pose (c15 := {| drawn := drawn (count_draw c13) + Z.to_nat pc;
                  readings := readings (count_draw c13) |}).
  destruct (random_randint_run world 0 5 c15) as (rc & Hrc & Hrun16); [lia |].
  destruct (random_randint_run world 1 10 (count_draw c15)) as (s1 & Hs1 & Hrun17); [lia |].
  pose (c17 := count_draw (count_draw c15)).
  destruct (random_randint_run world 0 9 c17) as (s2 & Hs2 & Hrun18); [lia |].
  destruct (random_randint_run world 0 9 (count_draw c17)) as (s3 & Hs3 & Hrun19); [lia |].
  exists by_m, key, data, models, model, display, cd, od, sd, n1, n2, n3,
    d1, d2, h1, h2, loc, patches, rc, s1, s2, s3.
  repeat (split; [first [assumption | lia | exact Hod | exact Hsd] |]).
  unfold generate_machine_payload. rewrite Hmodels.
  erewrite bind_Ret by reflexivity. cbv zeta beta.
  erewrite bind_Ret by exact Hrun1. cbv beta. rewrite Hdata.
  erewrite bind_Ret by reflexivity. cbv beta. rewrite Hmods.
  erewrite bind_Ret by reflexivity.
  erewrite bind_Ret by exact Hrun2.
  erewrite bind_Ret by exact Hrun3.
  erewrite bind_Ret by exact Hrun4.
  erewrite bind_Ret by exact Hrun5.
  erewrite bind_Ret by exact Hrun6.
  erewrite bind_Ret by exact Hrun7.
  erewrite bind_Ret by exact Hrun8. cbv beta. rewrite Hdisplay.
  erewrite bind_Ret by reflexivity.
  erewrite bind_Ret by exact Hrun9.
  erewrite bind_Ret by exact Hrun10.
  erewrite bind_Ret by exact Hrun11.
  erewrite bind_Ret by exact Hrun12.
  erewrite bind_Ret by exact Hrun13.
  erewrite bind_Ret by exact Hrun14.
  erewrite bind_Ret by exact Hrun15.
  erewrite bind_Ret by exact Hrun16.
  erewrite bind_Ret by exact Hrun17.
  erewrite bind_Ret by exact Hrun18.
  erewrite bind_Ret by exact Hrun19.
  unfold ret. simpl app. f_equal. f_equal.
  unfold count_draw, count_reading. simpl. f_equal; lia.
Qed.

End RecordFacts.

Section RecordProperties.

Import GenerateSamplePayloads SamplePayloads ScriptSpec.

Variable world : surroundings.
Variable cal : calendar.






End RecordProperties.

(** ** The generator script: the command line *)

Section ScriptTables.

Import SamplePayloads ScriptSpec ScriptOutput.

Lemma valid_lower machine_type :
  known_type machine_type ->
  assoc (lower machine_type) valid_machine_types = Some machine_type
  /\ exists display_name, item machine_display_names machine_type = Ret display_name.
Proof.
  unfold known_type. simpl. rewrite !elem_of_cons, elem_of_nil.
  intros [-> | [-> | [-> | [-> | [-> | [-> | [-> | []]]]]]]];
    (split; [reflexivity | eexists; reflexivity]).
Qed.

Lemma assoc_elem {A} k (d : list (string * A)) v : assoc k d = Some v -> (k, v) ∈ d.
Proof.
  induction d as [| [k' v'] d IH]; simpl; [discriminate |].
  destruct (String.eqb_spec k' k) as [-> | _]; intros H.
  - injection H as ->. apply elem_of_cons. left. reflexivity.
  - apply elem_of_cons. right. apply IH, H.
Qed.

Lemma valid_known k machine_type :
  assoc k valid_machine_types = Some machine_type ->
  known_type machine_type /\ k = lower machine_type.
Proof.
  intros H. apply assoc_elem in H. unfold valid_machine_types in H.
  rewrite !elem_of_cons, elem_of_nil in H. unfold known_type. simpl.
  destruct H as [H | [H | [H | [H | [H | [H | [H | []]]]]]]]; injection H as -> ->;
    (split; [set_solver | reflexivity]).
Qed.


End ScriptTables.

Section ScriptMain.

Import GenerateSamplePayloads SamplePayloads ScriptSpec ScriptOutput.

Variable world : surroundings.
Variable cal : calendar.
Hypothesis clock_ok : clock_runs world.

Lemma generate_identifies machine_type mqtt_topic c :
  known_type machine_type ->
  exists payload c',
    generate_machine_payload world cal machine_type mqtt_topic c = (Ret payload, c', [])
    /\ identifies mqtt_topic payload.
Proof.
  intros Hknown.
  destruct (generate_machine_payload_run world cal machine_type mqtt_topic c Hknown clock_ok)
    as (by_m & key & data & models & model & display & cd & od & sd & n1 & n2 & n3
        & d1 & d2 & h1 & h2 & loc & patches & rc & s1 & s2 & s3
        & _ & _ & _ & _ & _ & _ & _ & _ & _ & Hn1 & _ & _ & _ & _ & _ & _ & _ & _
        & _ & _ & _ & _ & _ & Hrun).
  eexists _, _. split; [exact Hrun |].
  exists n1. split; [exact Hn1 | reflexivity].
Qed.

Lemma payloads_of_type_run machine_type mqtt_topic display_name count i todo c :
  known_type machine_type ->
  exists payloads c',
    payloads_of_type world cal machine_type mqtt_topic display_name count i todo c
    = (Ret tt, c', type_output display_name count i payloads)
    /\ List.length payloads = todo
    /\ Forall (identifies mqtt_topic) payloads.
Proof.
  intros Hknown. revert i c. induction todo as [| todo IH]; intros i c.
  - exists [], c. split; [reflexivity |]. split; [reflexivity | constructor].
  - destruct (generate_identifies machine_type mqtt_topic c Hknown)
      as (payload & c1 & Hrun & Hid).
    destruct (IH (i + 1) c1) as (payloads & c' & Hrest & Hlen & Hall).
    exists (payload :: payloads), c'.
    split; [| split; [simpl; congruence | constructor; assumption]].
    simpl. erewrite bind_Ret by exact Hrun.
    assert (Hwhen : when (1 <? count)
                      (print Stdout (LinePayloadHeader display_name (i + 1) count)) c1
                    = (Ret tt, c1,
                       if 1 <? count
                       then [OutPrint Stdout (LinePayloadHeader display_name (i + 1) count)]
                       else []))
      by (destruct (1 <? count); reflexivity).
    erewrite bind_Ret by exact Hwhen.
    erewrite bind_Ret by reflexivity.
    rewrite Hrest. rewrite app_nil_l. reflexivity.
Qed.


(** X22. What the script refuses.  A count below 1 ends it with status 1
    and the message about the count, whatever the machine type is; with a
    proper count, a machine type that is none of the seven (up to the case
    of its letters) ends it with status 1 and the message about the type.
    In both cases nothing else is printed, nothing is drawn and no file
    is written. *)
Theorem main_rejects (args : cli) (c : cursor) :
  (count args < 1 ->
   main world cal args c
   = (Raise (SystemExit 1), c, [OutPrint Stderr (LineCountError (count args))]))
  /\ (forall given,
        1 <= count args ->
        SamplePayloads.machine_type args = Some given ->
        given <> "" -> ascii_only given ->
        (forall machine_type, known_type machine_type -> lower given <> lower machine_type) ->
        main world cal args c
        = (Raise (SystemExit 1), c, [OutPrint Stderr (LineInvalidType given)])).
Proof.
  split.
  - intros Hcount. unfold main.
    destruct (Z.ltb_spec (count args) 1) as [_ | Hge]; [reflexivity | lia].
  - intros given Hcount Hgiven Hne _ Hnone. unfold main.
    destruct (Z.ltb_spec (count args) 1) as [Hlt | _]; [lia |].
    erewrite bind_Ret by reflexivity. rewrite Hgiven.
    destruct (String.eqb_spec given "") as [-> | _]; [congruence |].
    cbv beta iota zeta delta [negb].
    destruct (assoc (lower given) valid_machine_types) as [machine_type |] eqn:Hvalid.
    + apply valid_known in Hvalid as [Hknown Hlower].
      exfalso. exact (Hnone machine_type Hknown Hlower).
    + reflexivity.
Qed.



End ScriptMain.

(** ** The publisher over the generator script of the repository *)

Section ScriptAsGenerator.

Import GenerateSamplePayloads SamplePayloads ScriptSpec ScriptOutput Subprocess.

Context {Sess : Type}.
Variable w : world Sess.
Variable worlds : nat -> surroundings.
Variable cal : calendar.
Hypothesis generator_is_script : run_generator w = run_script worlds cal.

Lemma run_script_known k given machine_type :
  clock_runs (worlds k) -> known_type machine_type -> lower given = lower machine_type ->
  exists payload,
    run_script worlds cal k (JStr given) = Printed (Some payload)
    /\ identifies machine_type payload.
Proof.
  intros Hclock Hknown Hlower.
  destruct (valid_lower machine_type Hknown) as [Hvalid [display_name Hdisplay]].
  destruct (payloads_of_type_run (worlds k) cal Hclock machine_type machine_type
              display_name 1 0 1 start Hknown) as (payloads & c' & Hrun & Hlen & Hall).
  destruct payloads as [| payload [| other rest]]; try discriminate.
  exists payload. split; [| inversion Hall; assumption].
  assert (Hne : String.eqb given "" = false).
  { destruct given; [| reflexivity].
    exfalso. clear -Hknown Hlower. unfold known_type in Hknown. simpl in *.
    rewrite !elem_of_cons, elem_of_nil in Hknown.
    destruct Hknown as [-> | [-> | [-> | [-> | [-> | [-> | [-> | []]]]]]]]; discriminate. }
  unfold run_script, main. cbn [SamplePayloads.machine_type count].
  change (1 <? 1) with false. cbv iota.
  erewrite bind_Ret by reflexivity.
  rewrite Hne. cbv beta iota zeta delta [negb]. rewrite Hlower, Hvalid, Hdisplay.
  erewrite bind_Ret by reflexivity.
  change (Z.to_nat 1) with 1%nat. rewrite Hrun. reflexivity.
Qed.

Lemma run_script_unknown k given :
  given <> "" ->
  (forall machine_type, known_type machine_type -> lower given <> lower machine_type) ->
  run_script worlds cal k (JStr given) = CalledProcessError.
Proof.
  intros Hne Hnone. unfold run_script, main. cbn [SamplePayloads.machine_type count].
  change (1 <? 1) with false. cbv iota.
  erewrite bind_Ret by reflexivity.
  destruct (String.eqb_spec given "") as [-> | _]; [congruence |].
  cbv beta iota zeta delta [negb].
  destruct (assoc (lower given) valid_machine_types) as [machine_type |] eqn:Hvalid.
  - apply valid_known in Hvalid as [Hknown Hlower].
    exfalso. exact (Hnone machine_type Hknown Hlower).
  - reflexivity.
Qed.

(** X24. The two scripts together.  Let the generator the publisher runs
    be the script of this repository, with a clock that does not step back,
    and let an entry of the configuration have a string topic and, as its
    type, a plain string.  If the type is, up to the case of its letters,
    one of the seven machine types, the run of the generator gives the
    publisher a record with the wrapper key and an asset id in it: the job
    never fails for want of a payload, and its asset id is the machine type
    (not the topic of the entry) in upper case, a dash and four digits.  If
    the type is any other non-empty name, the generator exits with an error
    and the job is skipped as not generated. *)
Theorem repository_generator_feeds_publisher (k : nat) (machine_config : json)
    (given topic : string) :
  clock_runs (worlds k) ->
  plain_argument given ->
  Py.getitem machine_config "type" = Ret (JStr given) ->
  Py.getitem machine_config "topic" = Ret (JStr topic) ->
  (forall machine_type,
      known_type machine_type -> lower given = lower machine_type ->
      exists j asset_number,
        generated w k machine_config j
        /\ job_type j = JStr given
        /\ job_topic j = topic
        /\ 1000 <= asset_number <= 9999
        /\ job_asset_id j = JStr (upper machine_type +:+ "-" +:+ str asset_number))
  /\ (given <> "" ->
      (forall machine_type, known_type machine_type -> lower given <> lower machine_type) ->
      run_generator w k (JStr given) = CalledProcessError
      /\ not_generated w k machine_config).
Proof.
  intros Hclock _ Htype Htopic. split.
  - intros machine_type Hknown Hlower.
    destruct (run_script_known k given machine_type Hclock Hknown Hlower)
      as (payload & Hrun & asset_number & Hrange & Hasset).
    unfold asset_id_of in Hasset.
    destruct (Py.getitem payload wrapper_key) as [inner | e] eqn:Hinner; [| discriminate].
    simpl in Hasset.
    exists {| job_type := JStr given; job_topic := topic; job_payload := payload;
              job_inner := inner;
              job_asset_id := JStr (upper machine_type +:+ "-" +:+ str asset_number);
              job_timeout := JNull; job_retry_attempts := JNull; job_retry_delay := JNull;
              job_budget := 0; job_delay := 0 |}, asset_number.
    split; [| auto].
    constructor; simpl; try assumption.
    rewrite generator_is_script. exact Hrun.
  - intros Hne Hnone.
    pose proof (run_script_unknown k given Hne Hnone) as Hrun.
    rewrite generator_is_script. split; [exact Hrun |].
    exists (JStr given), (JStr topic). split; [exact Htype |]. split; [exact Htopic |].
    unfold generation_fails. rewrite generator_is_script, Hrun. exact I.
Qed.

End ScriptAsGenerator.

(** ** The properties of the script on sample runs *)

Section ScriptWitnesses.

Import GenerateSamplePayloads SamplePayloads ScriptSpec ScriptOutput Subprocess.

Lemma sample_clock_runs : clock_runs ScriptSample.surroundings.
Proof. intros i j Hij. simpl. lia. Qed.

Lemma press_known : known_type "Press".
Proof. unfold known_type. simpl. set_solver. Qed.






Lemma main_rejects_witness :
  main ScriptSample.surroundings ScriptSample.calendar
    {| machine_type := Some "lathe"; count := 0 |} start
  = (Raise (SystemExit 1), start, [OutPrint Stderr (LineCountError 0)])
  /\ main ScriptSample.surroundings ScriptSample.calendar
       {| machine_type := Some "lathe"; count := 1 |} start
     = (Raise (SystemExit 1), start, [OutPrint Stderr (LineInvalidType "lathe")]).
Proof.
  split.
  - apply (proj1 (main_rejects ScriptSample.surroundings ScriptSample.calendar
                    {| machine_type := Some "lathe"; count := 0 |} start)).
    simpl. lia.
  - apply (proj2 (main_rejects ScriptSample.surroundings ScriptSample.calendar
                    {| machine_type := Some "lathe"; count := 1 |} start) "lathe").
    + simpl. lia.
    + reflexivity.
    + discriminate.
    + reflexivity.
    + intros machine_type Hknown. unfold known_type in Hknown. simpl in Hknown.
      rewrite !elem_of_cons, elem_of_nil in Hknown.
      destruct Hknown as [-> | [-> | [-> | [-> | [-> | [-> | [-> | []]]]]]]]; discriminate.
Defined.


Lemma repository_generator_feeds_publisher_witness :
  let machine_config := Sample.machine "PRESS" SampleRuns.press_topic in
  (exists j asset_number,
     generated (ScriptSample.script_world SampleRuns.one_press) 0 machine_config j
     /\ job_type j = JStr "PRESS"
     /\ job_topic j = SampleRuns.press_topic
     /\ 1000 <= asset_number <= 9999
     /\ job_asset_id j = JStr (upper "Press" +:+ "-" +:+ str asset_number))
  /\ run_generator (ScriptSample.script_world SampleRuns.one_press) 0 (JStr "Bogus")
     = CalledProcessError.
Proof.
  cbv zeta. split.
  - apply (proj1 (repository_generator_feeds_publisher
                    (ScriptSample.script_world SampleRuns.one_press)
                    (fun _ => ScriptSample.surroundings) ScriptSample.calendar eq_refl
                    0 (Sample.machine "PRESS" SampleRuns.press_topic)
                    "PRESS" SampleRuns.press_topic
                    sample_clock_runs
                    (conj eq_refl (conj eq_refl eq_refl))
                    eq_refl eq_refl) "Press" press_known eq_refl).
  - apply (proj2 (repository_generator_feeds_publisher
                    (ScriptSample.script_world SampleRuns.one_press)
                    (fun _ => ScriptSample.surroundings) ScriptSample.calendar eq_refl
                    0 (Sample.machine "Bogus" SampleRuns.press_topic)
                    "Bogus" SampleRuns.press_topic
                    sample_clock_runs
                    (conj eq_refl (conj eq_refl eq_refl))
                    eq_refl eq_refl)).
    + discriminate.
    + intros machine_type Hknown. unfold known_type in Hknown. simpl in Hknown.
      rewrite !elem_of_cons, elem_of_nil in Hknown.
      destruct Hknown as [-> | [-> | [-> | [-> | [-> | [-> | [-> | []]]]]]]]; discriminate.
Defined.

End ScriptWitnesses.
